(** * Sale / stock consistency and M-Pesa reconciliation core

    A shallow embedding of the business methods of the inventory back end:
    [Product.updateStock], [Counter.getNextSequence], the [Sale] pre-save
    totals hook with [void] and [refund], the order status workflow of
    [updateOrderStatus], and the M-Pesa poll, callback and sale-linking
    handlers.

    Conventions of the embedding.
    - Stock counts and quantities are integers ([Z]); prices and amounts are
      exact rationals ([Q], kept reduced). Where a value comes from a
      request, or from arithmetic that can leave the numbers, it is a
      [jsnum], which adds the JavaScript [NaN].
    - An [async] method that can [throw] returns a [result]; what is thrown
      is a plain [Error] with its message or the [ValidationError] of a
      rejected [save()].
    - [new Date()] is an explicit [now] argument (milliseconds, or a
      calendar record where the code compares calendar fields);
      [new Date(string)] is a function argument [newDate], [None] being
      the invalid date.
    - Collections of the database are finite maps keyed by document id;
      an id stands for a well-formed [ObjectId].
    - [save()] validates first, then runs the pre-save hooks the
      repository registers, then writes; a rejected [save()] writes
      nothing. Validation covers the validators the schemas declare on the
      paths carried here, for a new document and for what a method writes;
      a document read from the store is taken to satisfy its schema. A
      [Number] path refuses [NaN]: set before validation it fails the
      [save()], set in a pre-save hook the path keeps its value. *)

From Stdlib Require Import ZArith QArith Qround Bool Lia Lqa DecimalString Ascii.
From stdpp Require Import gmap strings list fin_maps.

Local Open Scope string_scope.
Local Open Scope list_scope.
Local Open Scope Z_scope.

(** ** Results of throwing code *)

(** What a [throw] carries: [new Error(message)], or the
    [ValidationError] with which [save()] rejects a document, with the
    paths that failed their validators. *)
Inductive error : Type :=
| Error (message : string)
| ValidationError (paths : list string).

Coercion Error : string >-> error.

Inductive result (A : Type) : Type :=
| Ok (a : A)
| Throw (e : error).
Arguments Ok {A} a.
Arguments Throw {A} e.

Definition is_ok {A} (r : result A) : bool :=
  match r with Ok _ => true | Throw _ => false end.

(** [Array.prototype.slice(-n)]: the last [n] elements. *)
Definition slice_last {A} (n : nat) (l : list A) : list A :=
  skipn (length l - n)%nat l.

(** ** JavaScript numbers used for money *)

Inductive jsnum : Type :=
| Num (q : Q)
| NaN.

Definition num_of_Z (z : Z) : jsnum := Num (inject_Z z).

Definition js_lift2 (f : Q -> Q -> Q) (a b : jsnum) : jsnum :=
  match a, b with
  | Num x, Num y => Num (Qred (f x y))
  | _, _ => NaN
  end.

Definition js_add := js_lift2 Qplus.
Definition js_sub := js_lift2 Qminus.
Definition js_mul := js_lift2 Qmult.

(** Division: a zero divisor gives an infinity or [NaN]; neither is a
    rational amount, so the model folds both into [NaN]. *)
Definition js_div (a b : jsnum) : jsnum :=
  match a, b with
  | Num x, Num y => if Qeq_bool y 0 then NaN else Num (Qred (x / y))
  | _, _ => NaN
  end.

(** [a > b]; any comparison with [NaN] is false. *)
Definition js_gt (a b : jsnum) : bool :=
  match a, b with
  | Num x, Num y => negb (Qle_bool x y)
  | _, _ => false
  end.

(** [a >= b]. *)
Definition js_ge (a b : jsnum) : bool :=
  match a, b with
  | Num x, Num y => Qle_bool y x
  | _, _ => false
  end.

(** A property read: a declared path holds a number, an undeclared one is
    [undefined], which arithmetic turns into [NaN]. *)
Definition js_to_number (v : option jsnum) : jsnum :=
  match v with Some n => n | None => NaN end.

Definition isNaN (n : jsnum) : bool :=
  match n with NaN => true | Num _ => false end.

(** An assignment to a [Number] path inside a pre-save hook: the cast
    refuses [NaN], and with validation already done the path keeps the
    value it had. *)
Definition assignNumber (old new : jsnum) : jsnum :=
  match new with NaN => old | Num _ => new end.

(** [Number.prototype.toString] on an integer. *)
Definition toString (z : Z) : string := NilZero.string_of_int (Z.to_int z).

(** Membership in the value list of an [enum]. *)
Definition inEnum (values : list string) (s : string) : bool :=
  existsb (String.eqb s) values.

(** ** Product: the inventory ledger (models/Product.js) *)

Module Product.

Record stock_movement : Type := {
  sm_type : string;
  sm_quantity : Z;
  sm_previousStock : Z;
  sm_newStock : Z;
  sm_reference : string;
  sm_reason : option string;
  sm_performedBy : string;
  sm_timestamp : Z
}.

(** The [Number] paths of a stored product hold numbers. *)
Record t : Type := {
  name : string;
  sellingPrice : Q;
  discount : Q;
  isActive : bool;
  currentStock : Z;
  minStock : Z;
  reorderPoint : option Z;
  trackInventory : bool;
  allowBackorder : bool;
  stockMovements : list stock_movement;
  totalSold : Z;
  totalRevenue : Q;
  lastSoldDate : option Z;
  averageDailySales : Q;
  turnoverRate : Q
}.

(** Virtual [effectivePrice]: [sellingPrice * (1 - discount / 100)]. *)
Definition effectivePrice (p : t) : Q :=
  Qred (sellingPrice p * (1 - discount p / 100))%Q.

(** The [switch (type)] of [updateStock]; an unlisted type falls through
    and leaves the stock as it was. *)
Definition decreasing (type : string) : bool :=
  String.eqb type "sale" || String.eqb type "damage"
  || String.eqb type "transfer".

Definition increasing (type : string) : bool :=
  String.eqb type "purchase" || String.eqb type "return"
  || String.eqb type "adjustment".

Definition proposedStock (previousStock quantity : Z) (type : string) : Z :=
  if decreasing type then previousStock - quantity
  else if increasing type then previousStock + quantity
  else previousStock.

Definition thirtyDays : Z := 30 * 24 * 60 * 60 * 1000.

(** Pre-save hook: average daily sales over the last thirty days and the
    turnover rate, recomputed when [stockMovements] was modified. *)
Definition preSavePerformance (now : Z) (p : t) : t :=
  let recentSales :=
    List.filter (fun m => String.eqb (sm_type m) "sale"
                          && (now - thirtyDays <? sm_timestamp m))
                (stockMovements p) in
  let totalQuantity := foldl (fun sum m => sum + sm_quantity m) 0 recentSales in
  let avg := Qred (inject_Z totalQuantity / 30)%Q in
  {| name := name p; sellingPrice := sellingPrice p; discount := discount p;
     isActive := isActive p; currentStock := currentStock p;
     minStock := minStock p; reorderPoint := reorderPoint p;
     trackInventory := trackInventory p; allowBackorder := allowBackorder p;
     stockMovements := stockMovements p; totalSold := totalSold p;
     totalRevenue := totalRevenue p; lastSoldDate := lastSoldDate p;
     averageDailySales := avg;
     turnoverRate :=
       if 0 <? currentStock p
       then Qred (avg / inject_Z (currentStock p))%Q
       else turnoverRate p |}.

(** The movement record pushed by [updateStock]. *)
Definition movement (now previousStock newStock quantity : Z)
           (type reference userId : string) (reason : option string)
  : stock_movement :=
  {| sm_type := type; sm_quantity := quantity;
     sm_previousStock := previousStock; sm_newStock := newStock;
     sm_reference := reference; sm_reason := reason;
     sm_performedBy := userId; sm_timestamp := now |}.

(** The [enum] of a movement's [type]. *)
Definition movementTypes : list string :=
  ["purchase"; "sale"; "return"; "adjustment"; "damage"; "transfer"].

(** The validators [save()] runs on what [updateStock] wrote: the minimum
    0 of [inventory.currentStock] ("Stock cannot be negative") and the
    [enum] of the [type] of the movement pushed at [index]. *)
Definition invalidPaths (newStock : Z) (type : string) (index : nat)
  : list string :=
  (if newStock <? 0 then ["inventory.currentStock"] else [])
  ++ (if inEnum movementTypes type then []
      else [String.append "stockMovements."
              (String.append (toString (Z.of_nat index)) ".type")]).

(** [productSchema.methods.updateStock]: the guard, the writes, then
    [save()]. *)
Definition updateStock (now : Z) (p : t) (quantity : Z)
           (type reference userId : string) (reason : option string)
  : result t :=
  let previousStock := currentStock p in
  let newStock := proposedStock previousStock quantity type in
  if (newStock <? 0) && negb (allowBackorder p)
  then Throw "Insufficient stock"
  else
    let pushed :=
      stockMovements p
        ++ [movement now previousStock newStock quantity type reference
                     userId reason] in
    let kept :=
      if (100 <? length pushed)%nat then slice_last 100 pushed else pushed in
    let sold := String.eqb type "sale" in
    match invalidPaths newStock type (length kept - 1) with
    | [] =>
        Ok (preSavePerformance now
              {| name := name p; sellingPrice := sellingPrice p;
                 discount := discount p; isActive := isActive p;
                 currentStock := newStock;
                 minStock := minStock p; reorderPoint := reorderPoint p;
                 trackInventory := trackInventory p;
                 allowBackorder := allowBackorder p;
                 stockMovements := kept;
                 totalSold :=
                   if sold then totalSold p + quantity else totalSold p;
                 totalRevenue :=
                   if sold
                   then Qred (totalRevenue p
                              + inject_Z quantity * effectivePrice p)%Q
                   else totalRevenue p;
                 lastSoldDate := if sold then Some now else lastSoldDate p;
                 averageDailySales := averageDailySales p;
                 turnoverRate := turnoverRate p |})
    | paths => Throw (ValidationError paths)
    end.

(** [needsReorder]: [reorderPoint || minStock], so a reorder point of
    zero falls back to [minStock]. *)
Definition needsReorder (p : t) : bool :=
  let triggerPoint :=
    match reorderPoint p with
    | Some r => if r =? 0 then minStock p else r
    | None => minStock p
    end in
  currentStock p <=? triggerPoint.

(** A product with the schema defaults and a given stock. *)
Definition fresh (nm : string) (price : Z) (stock : Z) (track : bool) : t :=
  {| name := nm; sellingPrice := inject_Z price; discount := 0%Q;
     isActive := true; currentStock := stock; minStock := 10;
     reorderPoint := None; trackInventory := track;
     allowBackorder := false; stockMovements := [];
     totalSold := 0; totalRevenue := 0%Q; lastSoldDate := None;
     averageDailySales := 0%Q; turnoverRate := 0%Q |}.

End Product.

(** ** Dates and number formatting *)

(** A [Date]: the calendar fields the code reads ([getMonth] is zero
    based) and the epoch milliseconds. *)
Record date : Type := {
  getFullYear : Z;
  getMonth : Z;
  getDate : Z;
  getTime : Z
}.

(** [a.toDateString() !== b.toDateString()] compares the calendar day. *)
Definition sameDateString (a b : date) : bool :=
  (getFullYear a =? getFullYear b) && (getMonth a =? getMonth b)
  && (getDate a =? getDate b).

Fixpoint repeat_string (n : nat) (c : string) : string :=
  match n with
  | O => ""
  | S k => String.append c (repeat_string k c)
  end.

(** [s.padStart(n, "0")]. *)
Definition padStart (n : nat) (s : string) : string :=
  String.append (repeat_string (n - String.length s) "0") s.

(** [s.substr(-2)]. *)
Definition lastTwo (s : string) : string :=
  String.substring (String.length s - 2) 2 s.

(** ** Counter: the sequence service (models/Counter.js) *)

Module Counter.

Inductive period : Type := daily | monthly | yearly | never.

Record t : Type := {
  seq : Z;
  prefix : string;
  suffix : string;
  lastReset : date;
  resetPeriod : period
}.

(** The [options] object spread into [create]; an absent key takes the
    schema default. *)
Record options : Type := {
  opt_seq : option Z;
  opt_prefix : option string;
  opt_suffix : option string;
  opt_lastReset : option date;
  opt_resetPeriod : option period
}.

(** [options = {}]. *)
Definition no_options : options :=
  {| opt_seq := None; opt_prefix := None; opt_suffix := None;
     opt_lastReset := None; opt_resetPeriod := None |}.

(** [this.create({ _id: counterId, ...options })] with the schema
    defaults [seq: 0], [lastReset: Date.now], [resetPeriod: "never"]. *)
Definition create (now : date) (o : options) : t :=
  {| seq := default 0 (opt_seq o);
     prefix := default "" (opt_prefix o);
     suffix := default "" (opt_suffix o);
     lastReset := default now (opt_lastReset o);
     resetPeriod := default never (opt_resetPeriod o) |}.

Definition shouldReset (now : date) (counter : t) : bool :=
  match resetPeriod counter with
  | daily => negb (sameDateString now (lastReset counter))
  | monthly =>
      negb (getMonth now =? getMonth (lastReset counter))
      || negb (getFullYear now =? getFullYear (lastReset counter))
  | yearly => negb (getFullYear now =? getFullYear (lastReset counter))
  | never => false
  end.

(** The counter after the reset-or-increment step. *)
Definition advance (now : date) (counter : t) : t :=
  if shouldReset now counter
  then {| seq := 1; prefix := prefix counter; suffix := suffix counter;
          lastReset := now; resetPeriod := resetPeriod counter |}
  else {| seq := seq counter + 1; prefix := prefix counter;
          suffix := suffix counter; lastReset := lastReset counter;
          resetPeriod := resetPeriod counter |}.

(** [counterSchema.statics.getNextSequence]: the returned number and the
    collection afterwards. *)
Definition getNextSequence (now : date) (counters : gmap string t)
           (counterId : string) (o : options) : Z * gmap string t :=
  match counters !! counterId with
  | None =>
      let newCounter := create now o in
      (seq newCounter, <[counterId := newCounter]> counters)
  | Some counter =>
      let counter' := advance now counter in
      (seq counter', <[counterId := counter']> counters)
  end.

(** [Counter.findByIdAndUpdate(id, { $inc: { seq: 1 } }, { new: true,
    upsert: true })], the order-number path of models/Order.js. *)
Definition incrementUpsert (now : date) (counters : gmap string t)
           (counterId : string) : Z * gmap string t :=
  let counter := default (create now no_options) (counters !! counterId) in
  let counter' :=
    {| seq := seq counter + 1; prefix := prefix counter;
       suffix := suffix counter; lastReset := lastReset counter;
       resetPeriod := resetPeriod counter |} in
  (seq counter', <[counterId := counter']> counters).

(** Successive calls on one key, each at its own time. *)
Fixpoint calls (times : list date) (counters : gmap string t)
         (counterId : string) : list Z * gmap string t :=
  match times with
  | [] => ([], counters)
  | now :: rest =>
      let '(n, counters') := getNextSequence now counters counterId no_options in
      let '(ns, counters'') := calls rest counters' counterId in
      (n :: ns, counters'')
  end.

End Counter.

(** ** Sale: line items, totals, void and refund (models/Sale.js) *)

Module Sale.

Inductive sale_status : Type :=
| completed | voided | refunded | partial_refund.

(** A line item as the schema declares it: [discount.amount],
    [discount.percentage], [tax.amount] and [subtotal]. *)
Record item : Type := {
  product : string;
  productName : string;
  quantity : Z;
  unitPrice : jsnum;
  discount_amount : jsnum;
  discount_percentage : jsnum;
  tax_amount : jsnum;
  subtotal : jsnum
}.

(** A line item of a request body; every key but [product] and
    [quantity] is optional. A number the cast to [Number] refuses is
    [NaN]. *)
Record item_input : Type := {
  in_product : string;
  in_quantity : Z;
  in_unitPrice : option jsnum;
  in_discount_amount : option jsnum;
  in_discount_percentage : option jsnum;
  in_tax_rate : option jsnum;
  in_tax_amount : option jsnum;
  in_subtotal : option jsnum
}.

(** [new Sale({ items })] casts an input item to the item schema: the
    declared paths are kept (with their defaults), [tax.rate] is not a
    declared path and is not stored. [subtotal] has no default: absent,
    it is [NaN] here and fails validation. *)
Definition castItem (nm : string) (price : jsnum) (i : item_input) : item :=
  {| product := in_product i; productName := nm;
     quantity := in_quantity i; unitPrice := price;
     discount_amount := default (num_of_Z 0) (in_discount_amount i);
     discount_percentage := default (num_of_Z 0) (in_discount_percentage i);
     tax_amount := default (num_of_Z 0) (in_tax_amount i);
     subtotal := js_to_number (in_subtotal i) |}.

(** The read [item.tax.rate] on a stored item: no such path, so
    [undefined]. *)
Definition tax_rate (it : item) : option jsnum := None.

Record payment_detail : Type := {
  pd_method : string;
  pd_amount : option jsnum;
  pd_reference : option string;
  pd_transactionId : option string
}.

Record void_info : Type := {
  voidedBy : string;
  voidedAt : date;
  void_reason : string
}.

Record refunded_item : Type := {
  ri_product : string;
  ri_quantity : Z;
  ri_amount : jsnum
}.

Record refund_info : Type := {
  refundedBy : string;
  refundedAt : date;
  refundedItems : list refunded_item;
  totalRefunded : jsnum;
  refund_reason : string
}.

Record totals_t : Type := {
  totals_subtotal : jsnum;
  totals_discount : jsnum;
  totals_tax : jsnum;
  totals_total : jsnum
}.

(** [receiptNumber] is the empty string until the pre-save hook assigns
    it ([!this.receiptNumber] holds for both). [payment.totalPaid] has no
    default: absent, it is [NaN] in a new document and fails
    validation. *)
Record t : Type := {
  receiptNumber : string;
  items : list item;
  customer : option string;
  payment_method : string;
  payment_status : string;
  payment_details : list payment_detail;
  payment_totalPaid : jsnum;
  payment_change : jsnum;
  totals : totals_t;
  seller : string;
  status : sale_status;
  voidInfo : option void_info;
  refundInfo : option refund_info
}.

Definition set_items (s : t) (its : list item) (tt : totals_t) : t :=
  {| receiptNumber := receiptNumber s; items := its; customer := customer s;
     payment_method := payment_method s;
     payment_status := payment_status s;
     payment_details := payment_details s;
     payment_totalPaid := payment_totalPaid s;
     payment_change := payment_change s; totals := tt;
     seller := seller s; status := status s; voidInfo := voidInfo s;
     refundInfo := refundInfo s |}.

Definition set_receiptNumber (s : t) (r : string) : t :=
  {| receiptNumber := r; items := items s; customer := customer s;
     payment_method := payment_method s;
     payment_status := payment_status s;
     payment_details := payment_details s;
     payment_totalPaid := payment_totalPaid s;
     payment_change := payment_change s; totals := totals s;
     seller := seller s; status := status s; voidInfo := voidInfo s;
     refundInfo := refundInfo s |}.

(** *** Validation of a new sale *)

Definition paymentMethods : list string :=
  ["cash"; "mpesa"; "card"; "bank_transfer"; "credit"; "mixed"].

Definition paymentStatuses : list string :=
  ["paid"; "pending"; "partial"; "refunded"; "failed"].

Definition detailMethods : list string :=
  ["cash"; "mpesa"; "card"; "bank_transfer"; "credit"].

(** A [Number] path with a minimum fails on [NaN] and below the
    minimum. *)
Definition belowMin (minimum : Z) (n : jsnum) : bool :=
  negb (js_ge n (num_of_Z minimum)).

(** The path [prefix.index.field] of an array element. *)
Definition elementPath (prefix : string) (index : nat) (field : string)
  : string :=
  String.append prefix
    (String.append "."
       (String.append (toString (Z.of_nat index))
          (String.append "." field))).

Definition failing (test : bool) (path : string) : list string :=
  if test then [path] else [].

(** The validators of the item schema: [productName] required,
    [quantity] at least 1, [unitPrice] not negative, [discount.percentage]
    between 0 and 100, [subtotal] required, and every number a number. *)
Definition invalidItem (index : nat) (it : item) : list string :=
  failing (String.eqb (productName it) "")
          (elementPath "items" index "productName")
  ++ failing (quantity it <? 1) (elementPath "items" index "quantity")
  ++ failing (belowMin 0 (unitPrice it))
             (elementPath "items" index "unitPrice")
  ++ failing (isNaN (discount_amount it))
             (elementPath "items" index "discount.amount")
  ++ failing (belowMin 0 (discount_percentage it)
              || negb (js_ge (num_of_Z 100) (discount_percentage it)))
             (elementPath "items" index "discount.percentage")
  ++ failing (isNaN (tax_amount it)) (elementPath "items" index "tax.amount")
  ++ failing (isNaN (subtotal it)) (elementPath "items" index "subtotal").

Definition invalidDetail (index : nat) (d : payment_detail) : list string :=
  failing (negb (inEnum detailMethods (pd_method d)))
          (elementPath "payment.details" index "method")
  ++ failing (match pd_amount d with Some n => isNaN n | None => false end)
             (elementPath "payment.details" index "amount").

(** The validation [save()] runs on a new sale, before the pre-save
    hooks: the paths that fail. *)
Definition invalid (s : t) : list string :=
  concat (imap invalidItem (items s))
  ++ failing (negb (inEnum paymentMethods (payment_method s)))
             "payment.method"
  ++ failing (negb (inEnum paymentStatuses (payment_status s)))
             "payment.status"
  ++ concat (imap invalidDetail (payment_details s))
  ++ failing (belowMin 0 (payment_totalPaid s)) "payment.totalPaid"
  ++ failing (belowMin 0 (payment_change s)) "payment.change".

(** *** Pre-save hook: totals *)

Definition itemSubtotal (it : item) : jsnum :=
  js_mul (unitPrice it) (num_of_Z (quantity it)).

Definition itemDiscount (it : item) : jsnum :=
  if js_gt (discount_percentage it) (num_of_Z 0)
  then js_mul (itemSubtotal it)
              (js_div (discount_percentage it) (num_of_Z 100))
  else if js_gt (discount_amount it) (num_of_Z 0)
       then discount_amount it
       else num_of_Z 0.

Definition taxableAmount (it : item) : jsnum :=
  js_sub (itemSubtotal it) (itemDiscount it).

(** [taxableAmount * (rate / 100)] for a given value of the rate. *)
Definition taxAtRate (it : item) (rate : jsnum) : jsnum :=
  js_mul (taxableAmount it) (js_div rate (num_of_Z 100)).

(** The tax the hook computes, from the read [item.tax.rate]. *)
Definition itemTax (it : item) : jsnum :=
  taxAtRate it (js_to_number (tax_rate it)).

(** The body of the [forEach]: the assignments to [tax.amount] and
    [subtotal]. *)
Definition computeItem (it : item) : item :=
  {| product := product it; productName := productName it;
     quantity := quantity it; unitPrice := unitPrice it;
     discount_amount := discount_amount it;
     discount_percentage := discount_percentage it;
     tax_amount := assignNumber (tax_amount it) (itemTax it);
     subtotal :=
       assignNumber (subtotal it) (js_add (taxableAmount it) (itemTax it)) |}.

Definition sumOver (f : item -> jsnum) (its : list item) : jsnum :=
  foldl (fun acc it => js_add acc (f it)) (num_of_Z 0) its.

(** The assignments to [this.totals], over the totals the document
    holds. *)
Definition computeTotals (old : totals_t) (its : list item) : totals_t :=
  let subtotal := sumOver itemSubtotal its in
  let totalDiscount := sumOver itemDiscount its in
  let totalTax := sumOver itemTax its in
  {| totals_subtotal := assignNumber (totals_subtotal old) subtotal;
     totals_discount := assignNumber (totals_discount old) totalDiscount;
     totals_tax := assignNumber (totals_tax old) totalTax;
     totals_total :=
       assignNumber (totals_total old)
                    (js_add (js_sub subtotal totalDiscount) totalTax) |}.

(** [saleSchema.pre("save")], totals: runs when the document is new or
    its items were modified. *)
Definition preSaveTotals (isNew itemsModified : bool) (s : t) : t :=
  if isNew || itemsModified
  then set_items s (map computeItem (items s))
                 (computeTotals (totals s) (items s))
  else s.

(** [saleSchema.pre("save")], receipt number:
    [RCP] + YY + MM + DD + five-digit sequence. *)
Definition formatReceipt (now : date) (sequence : Z) : string :=
  String.append "RCP"
    (String.append (lastTwo (toString (getFullYear now)))
       (String.append (padStart 2 (toString (getMonth now + 1)))
          (String.append (padStart 2 (toString (getDate now)))
             (padStart 5 (toString sequence))))).

Definition preSaveReceipt (now : date) (isNew : bool) (s : t)
           (counters : gmap string Counter.t) : t * gmap string Counter.t :=
  if isNew && String.eqb (receiptNumber s) ""
  then
    let '(sequence, counters') :=
      Counter.getNextSequence now counters "receipt" Counter.no_options in
    (set_receiptNumber s (formatReceipt now sequence), counters')
  else (s, counters).

(** *** void *)

Definition set_void (s : t) (v : void_info) : t :=
  {| receiptNumber := receiptNumber s; items := items s;
     customer := customer s; payment_method := payment_method s;
     payment_status := payment_status s;
     payment_details := payment_details s;
     payment_totalPaid := payment_totalPaid s;
     payment_change := payment_change s; totals := totals s;
     seller := seller s; status := voided; voidInfo := Some v;
     refundInfo := refundInfo s |}.

(** The loop "restore stock for each item": the product collection
    afterwards and the error thrown, if any. *)
Fixpoint voidLoop (now : date) (its : list item)
         (receipt userId reason : string)
         (products : gmap string Product.t)
  : gmap string Product.t * option error :=
  match its with
  | [] => (products, None)
  | it :: rest =>
      match products !! product it with
      | Some p =>
          match Product.updateStock (getTime now) p (quantity it) "return"
                  receipt userId
                  (Some (String.append "Voided sale: " reason)) with
          | Ok p' =>
              voidLoop now rest receipt userId reason
                       (<[product it := p']> products)
          | Throw e => (products, Some e)
          end
      | None => voidLoop now rest receipt userId reason products
      end
  end.

(** [saleSchema.methods.void]: what is saved (or the error) and the
    product collection afterwards. *)
Definition void (now : date) (s : t) (userId reason : string)
           (products : gmap string Product.t)
  : result t * gmap string Product.t :=
  match status s with
  | voided => (Throw "Sale is already voided", products)
  | _ =>
      let this :=
        set_void s {| voidedBy := userId; voidedAt := now;
                      void_reason := reason |} in
      match voidLoop now (items this) (receiptNumber this) userId reason
                     products with
      | (products', None) => (Ok (preSaveTotals false false this), products')
      | (products', Some e) => (Throw e, products')
      end
  end.

(** *** refund *)

Record refund_request : Type := {
  productId : string;
  rq_quantity : Z
}.

Definition set_refund (s : t) (r : refund_info) (st : sale_status) : t :=
  {| receiptNumber := receiptNumber s; items := items s;
     customer := customer s; payment_method := payment_method s;
     payment_status := payment_status s;
     payment_details := payment_details s;
     payment_totalPaid := payment_totalPaid s;
     payment_change := payment_change s; totals := totals s;
     seller := seller s; status := st; voidInfo := voidInfo s;
     refundInfo := Some r |}.

(** [this.items.find(item => item.product.toString() === productId)]. *)
Definition findItem (s : t) (pid : string) : option item :=
  List.find (fun it => String.eqb (product it) pid) (items s).

Definition refundAmount (saleItem : item) (q : Z) : jsnum :=
  js_mul (js_div (subtotal saleItem) (num_of_Z (quantity saleItem)))
         (num_of_Z q).

(** The [for (const refundItem of items)] loop, with the accumulators
    [refundedItems] and [totalRefunded]. *)
Fixpoint refundLoop (now : date) (s : t) (userId reason : string)
         (requests : list refund_request)
         (acc : list refunded_item) (total : jsnum)
         (products : gmap string Product.t)
  : result (list refunded_item * jsnum) * gmap string Product.t :=
  match requests with
  | [] => (Ok (acc, total), products)
  | refundItem :: rest =>
      match findItem s (productId refundItem) with
      | None =>
          (Throw (String.append "Product "
                    (String.append (productId refundItem)
                                   " not found in sale")), products)
      | Some saleItem =>
          if quantity saleItem <? rq_quantity refundItem
          then (Throw "Cannot refund more than sold quantity", products)
          else
            let amount := refundAmount saleItem (rq_quantity refundItem) in
            let acc' :=
              acc ++ [{| ri_product := productId refundItem;
                         ri_quantity := rq_quantity refundItem;
                         ri_amount := amount |}] in
            let total' := js_add total amount in
            match products !! productId refundItem with
            | Some p =>
                match Product.updateStock (getTime now) p
                        (rq_quantity refundItem) "return"
                        (receiptNumber s) userId
                        (Some (String.append "Refund: " reason)) with
                | Ok p' =>
                    refundLoop now s userId reason rest acc' total'
                               (<[productId refundItem := p']> products)
                | Throw e => (Throw e, products)
                end
            | None =>
                refundLoop now s userId reason rest acc' total' products
            end
      end
  end.

(** [saleSchema.methods.refund]. *)
Definition refund (now : date) (s : t) (userId : string)
           (requests : list refund_request) (reason : string)
           (products : gmap string Product.t)
  : result t * gmap string Product.t :=
  match status s with
  | voided => (Throw "Cannot refund a voided sale", products)
  | _ =>
      match refundLoop now s userId reason requests [] (num_of_Z 0)
                       products with
      | (Ok (refundedItems, totalRefunded), products') =>
          let info :=
            {| refundedBy := userId; refundedAt := now;
               refundedItems := refundedItems;
               totalRefunded := totalRefunded;
               refund_reason := reason |} in
          let st :=
            if js_ge totalRefunded (totals_total (totals s))
            then refunded else partial_refund in
          (Ok (preSaveTotals false false (set_refund s info st)), products')
      | (Throw e, products') => (Throw e, products')
      end
  end.

(** A request line the loop lets through: its product is an item of the
    sale and its quantity is at most the quantity sold. *)
Definition within_sold (sale : t) (rq : refund_request) : Prop :=
  exists it,
    findItem sale (productId rq) = Some it
    /\ rq_quantity rq <= quantity it.

(** Product and quantity of a recorded and of a requested line. *)
Definition line_of (r : refunded_item) : string * Z :=
  (ri_product r, ri_quantity r).

Definition request_of (rq : refund_request) : string * Z :=
  (productId rq, rq_quantity rq).

End Sale.

(** ** Order: delivery workflow (models/Order.js) *)

Module Order.

Record item : Type := {
  product : string;
  productName : string;
  quantity : Z;
  unitPrice : jsnum;
  discount_amount : jsnum;
  discount_percentage : jsnum;
  subtotal : jsnum
}.

Record history_entry : Type := {
  h_status : string;
  h_timestamp : date;
  h_updatedBy : string;
  h_notes : option string;
  h_location : option string
}.

Record totals_t : Type := {
  totals_subtotal : jsnum;
  totals_discount : jsnum;
  totals_deliveryFee : jsnum;
  totals_tax : jsnum;
  totals_total : jsnum
}.

(** [status] is the schema's string; the controller writes the request's
    string into it after checking it against the transition table. *)
Record t : Type := {
  orderNumber : string;
  customer : option string;
  items : list item;
  deliveryFee : jsnum;
  actualDeliveryDate : option date;
  payment_status : string;
  status : string;
  statusHistory : list history_entry;
  totals : totals_t;
  createdBy : string;
  assignedTo : option string;
  customerNotified : option bool;
  packingCompleted : option date;
  cancelledBy : option string;
  cancelledAt : option date
}.

Definition set_status (o : t) (st : string) (h : list history_entry) : t :=
  {| orderNumber := orderNumber o; customer := customer o;
     items := items o; deliveryFee := deliveryFee o;
     actualDeliveryDate := actualDeliveryDate o;
     payment_status := payment_status o; status := st;
     statusHistory := h; totals := totals o; createdBy := createdBy o;
     assignedTo := assignedTo o; customerNotified := customerNotified o;
     packingCompleted := packingCompleted o; cancelledBy := cancelledBy o;
     cancelledAt := cancelledAt o |}.

(** The [switch (newStatus)] of [updateStatus]. *)
Definition statusFields (now : date) (o : t) (newStatus userId : string) : t :=
  {| orderNumber := orderNumber o; customer := customer o;
     items := items o; deliveryFee := deliveryFee o;
     actualDeliveryDate :=
       if String.eqb newStatus "delivered" then Some now
       else actualDeliveryDate o;
     payment_status :=
       if String.eqb newStatus "delivered" then "paid"
       else payment_status o;
     status := status o; statusHistory := statusHistory o;
     totals := totals o; createdBy := createdBy o;
     assignedTo := assignedTo o;
     customerNotified :=
       if String.eqb newStatus "confirmed" then Some false
       else customerNotified o;
     packingCompleted :=
       if String.eqb newStatus "ready" then Some now
       else packingCompleted o;
     cancelledBy :=
       if String.eqb newStatus "cancelled" then Some userId
       else cancelledBy o;
     cancelledAt :=
       if String.eqb newStatus "cancelled" then Some now
       else cancelledAt o |}.

(** [orderSchema.pre("save")], status history: when [status] was
    modified, push an entry signed by [assignedTo || createdBy]. *)
Definition preSaveStatusHistory (now : date) (statusModified : bool) (o : t)
  : t :=
  if statusModified
  then set_status o (status o)
         (statusHistory o
            ++ [{| h_status := status o; h_timestamp := now;
                   h_updatedBy := default (createdBy o) (assignedTo o);
                   h_notes := None; h_location := None |}])
  else o.

(** [orderSchema.methods.updateStatus]: set the status, push a history
    entry, update the status-specific fields, save. *)
Definition updateStatus (now : date) (o : t) (newStatus userId : string)
           (notes location : option string) : t :=
  let statusModified := negb (String.eqb (status o) newStatus) in
  let this :=
    set_status o newStatus
      (statusHistory o
         ++ [{| h_status := newStatus; h_timestamp := now;
                h_updatedBy := userId; h_notes := notes;
                h_location := location |}]) in
  preSaveStatusHistory now statusModified
    (statusFields now this newStatus userId).

(** *** Pre-save hooks of a new order *)

Definition itemSubtotal (it : item) : jsnum :=
  js_mul (unitPrice it) (num_of_Z (quantity it)).

Definition itemDiscount (it : item) : jsnum :=
  if js_gt (discount_percentage it) (num_of_Z 0)
  then js_mul (itemSubtotal it)
              (js_div (discount_percentage it) (num_of_Z 100))
  else if js_gt (discount_amount it) (num_of_Z 0)
       then discount_amount it
       else num_of_Z 0.

Definition computeItem (it : item) : item :=
  {| product := product it; productName := productName it;
     quantity := quantity it; unitPrice := unitPrice it;
     discount_amount := discount_amount it;
     discount_percentage := discount_percentage it;
     subtotal :=
       assignNumber (subtotal it)
                    (js_sub (itemSubtotal it) (itemDiscount it)) |}.

Definition sumOver (f : item -> jsnum) (its : list item) : jsnum :=
  foldl (fun acc it => js_add acc (f it)) (num_of_Z 0) its.

(** Totals with the flat 16 percent VAT on the net amount, assigned over
    the totals the document holds. *)
Definition computeTotals (old : totals_t) (its : list item) (fee : jsnum)
  : totals_t :=
  let subtotal := sumOver itemSubtotal its in
  let totalDiscount := sumOver itemDiscount its in
  let netAmount := js_sub subtotal totalDiscount in
  let tax := js_mul netAmount (Num (16 # 100)) in
  let deliveryFee := assignNumber (totals_deliveryFee old) fee in
  {| totals_subtotal := assignNumber (totals_subtotal old) subtotal;
     totals_discount := assignNumber (totals_discount old) totalDiscount;
     totals_deliveryFee := deliveryFee;
     totals_tax := assignNumber (totals_tax old) tax;
     totals_total :=
       assignNumber (totals_total old)
                    (js_add (js_add netAmount tax) deliveryFee) |}.

(** [ORD] + YY + MM + five-digit sequence. *)
Definition formatOrderNumber (now : date) (sequence : Z) : string :=
  String.append "ORD"
    (String.append (lastTwo (toString (getFullYear now)))
       (String.append (padStart 2 (toString (getMonth now + 1)))
          (padStart 5 (toString sequence)))).

(** *** Validation of a new order *)

Definition orderStatuses : list string :=
  [ "pending"; "confirmed"; "processing"; "ready"; "out_for_delivery";
    "delivered"; "cancelled"; "failed" ].

Definition paymentStatuses : list string :=
  ["pending"; "partial"; "paid"; "refunded"].

Definition belowMin (minimum : Z) (n : jsnum) : bool :=
  negb (js_ge n (num_of_Z minimum)).

Definition elementPath (prefix : string) (index : nat) (field : string)
  : string :=
  String.append prefix
    (String.append "."
       (String.append (toString (Z.of_nat index))
          (String.append "." field))).

Definition failing (test : bool) (path : string) : list string :=
  if test then [path] else [].

Definition invalidItem (index : nat) (it : item) : list string :=
  failing (String.eqb (productName it) "")
          (elementPath "items" index "productName")
  ++ failing (quantity it <? 1) (elementPath "items" index "quantity")
  ++ failing (belowMin 0 (unitPrice it))
             (elementPath "items" index "unitPrice")
  ++ failing (isNaN (discount_amount it))
             (elementPath "items" index "discount.amount")
  ++ failing (belowMin 0 (discount_percentage it)
              || negb (js_ge (num_of_Z 100) (discount_percentage it)))
             (elementPath "items" index "discount.percentage")
  ++ failing (isNaN (subtotal it)) (elementPath "items" index "subtotal").

(** The validation [save()] runs on an order, before the pre-save hooks:
    the paths that fail, among the paths this record carries.
    [orderNumber], [totals.subtotal] and [totals.total] are required and
    have no default: absent, they are the empty string and [NaN] here. *)
Definition invalid (o : t) : list string :=
  failing (String.eqb (orderNumber o) "") "orderNumber"
  ++ concat (imap invalidItem (items o))
  ++ failing (belowMin 0 (deliveryFee o)) "delivery.deliveryFee"
  ++ failing (negb (inEnum paymentStatuses (payment_status o)))
             "payment.status"
  ++ failing (negb (inEnum orderStatuses (status o))) "status"
  ++ failing (belowMin 0 (totals_subtotal (totals o))) "totals.subtotal"
  ++ failing (belowMin 0 (totals_discount (totals o))) "totals.discount"
  ++ failing (belowMin 0 (totals_deliveryFee (totals o)))
             "totals.deliveryFee"
  ++ failing (belowMin 0 (totals_tax (totals o))) "totals.tax"
  ++ failing (belowMin 0 (totals_total (totals o))) "totals.total".

(** The pre-save hooks of a new order that passed validation: order
    number from the ["order"] counter, then totals. The default [status]
    of a new document is not a modification, so the history hook pushes
    nothing. *)
Definition saveNew (now : date) (o : t) (counters : gmap string Counter.t)
  : t * gmap string Counter.t :=
  let '(number, counters') :=
    if String.eqb (orderNumber o) ""
    then
      let '(sequence, cs) := Counter.incrementUpsert now counters "order" in
      (formatOrderNumber now sequence, cs)
    else (orderNumber o, counters) in
  ({| orderNumber := number; customer := customer o;
      items := map computeItem (items o); deliveryFee := deliveryFee o;
      actualDeliveryDate := actualDeliveryDate o;
      payment_status := payment_status o; status := status o;
      statusHistory := statusHistory o;
      totals := computeTotals (totals o) (items o) (deliveryFee o);
      createdBy := createdBy o; assignedTo := assignedTo o;
      customerNotified := customerNotified o;
      packingCompleted := packingCompleted o;
      cancelledBy := cancelledBy o; cancelledAt := cancelledAt o |},
   counters').

End Order.

(** ** MpesaTransaction: the payment reconciliation record *)

Module Mpesa.

Inductive tx_status : Type := pending | success | failed | cancelled.

(** Scalars of a callback body. *)
Inductive jsval : Type :=
| VUndefined
| VNum (z : Z)
| VStr (s : string).

Record metadata_item : Type := {
  Name : string;
  Value : jsval
}.

(** [CallbackMetadata] may be absent, and so may its [Item]. *)
Record stk_callback : Type := {
  CheckoutRequestID : string;
  ResultCode : jsval;
  ResultDesc : option string;
  CallbackMetadata : option (option (list metadata_item))
}.

(** [req.body]: [Body] and [Body.stkCallback] may be absent. *)
Record callback_body : Type := {
  Body : option (option stk_callback)
}.

Record t : Type := {
  checkoutRequestId : string;
  merchantRequestId : string;
  phoneNumber : string;
  amount : Z;
  status : tx_status;
  mpesaReceiptNumber : option string;
  transactionDate : option date;
  resultCode : option string;
  resultDesc : option string;
  callbackData : option callback_body;
  user : string;
  sale : option string;
  retryCount : Z;
  lastQueryAt : option date
}.

Definition status_name (s : tx_status) : string :=
  match s with
  | pending => "pending"
  | success => "success"
  | failed => "failed"
  | cancelled => "cancelled"
  end.

Definition status_eqb (a b : tx_status) : bool :=
  String.eqb (status_name a) (status_name b).

(** [MpesaTransaction.findOne({ checkoutRequestId })]. *)
Definition findByCheckout (txs : list t) (id : string) : option t :=
  List.find (fun x => String.eqb (checkoutRequestId x) id) txs.

(** [transaction.save()]: the stored document with that
    [checkoutRequestId] (the unique key) is replaced. *)
Definition save (txs : list t) (x : t) : list t :=
  map (fun y => if String.eqb (checkoutRequestId y) (checkoutRequestId x)
                then x else y) txs.

(** The status the poll path writes for an upstream result code. *)
Definition statusOfQuery (code : string) : tx_status :=
  if String.eqb code "0" then success
  else if String.eqb code "1032" then cancelled
  else failed.

(** The writes of the poll path on a successful upstream query. *)
Definition applyQuery (now : date) (x : t) (code desc : string) : t :=
  {| checkoutRequestId := checkoutRequestId x;
     merchantRequestId := merchantRequestId x;
     phoneNumber := phoneNumber x; amount := amount x;
     status := statusOfQuery code;
     mpesaReceiptNumber := mpesaReceiptNumber x;
     transactionDate := transactionDate x;
     resultCode := Some code; resultDesc := Some desc;
     callbackData := callbackData x; user := user x; sale := sale x;
     retryCount := retryCount x + 1; lastQueryAt := Some now |}.

(** [jsval.toString()]; [undefined.toString()] throws. *)
Definition valToString (v : jsval) : option string :=
  match v with
  | VUndefined => None
  | VNum z => Some (toString z)
  | VStr s => Some s
  end.

Definition findItem (nm : string) (its : list metadata_item)
  : option metadata_item :=
  List.find (fun i => String.eqb (Name i) nm) its.

(** The date string [YYYY-MM-DDTHH:MM:SS] assembled from the substrings
    of [dateStr]. *)
Definition parseDate (dateStr : string) : string :=
  String.append (String.substring 0 4 dateStr)
    (String.append "-"
      (String.append (String.substring 4 2 dateStr)
        (String.append "-"
          (String.append (String.substring 6 2 dateStr)
            (String.append "T"
              (String.append (String.substring 8 2 dateStr)
                (String.append ":"
                  (String.append (String.substring 10 2 dateStr)
                    (String.append ":"
                      (String.substring 12 2 dateStr)))))))))).

(** The writes of the callback path on a found transaction, then
    [save()]. [Throw] when a [toString] meets [undefined], and when the
    date built from the [TransactionDate] item is not a valid date: the
    [Date] path refuses it and [save()] rejects the document. *)
Definition applyCallback (newDate : string -> option date) (x : t)
           (body : callback_body) (cb : stk_callback)
  : result t :=
  match valToString (ResultCode cb) with
  | None => Throw "Cannot read properties of undefined (reading 'toString')"
  | Some code =>
      let base st receipt tdate :=
        {| checkoutRequestId := checkoutRequestId x;
           merchantRequestId := merchantRequestId x;
           phoneNumber := phoneNumber x; amount := amount x;
           status := st;
           mpesaReceiptNumber := receipt;
           transactionDate := tdate;
           resultCode := Some code; resultDesc := ResultDesc cb;
           callbackData := Some body; user := user x; sale := sale x;
           retryCount := retryCount x; lastQueryAt := lastQueryAt x |} in
      match ResultCode cb with
      | VNum 0 =>
          match CallbackMetadata cb with
          | Some (Some its) =>
              let receipt :=
                match findItem "MpesaReceiptNumber" its with
                | Some receiptItem => valToString (Value receiptItem)
                | None => mpesaReceiptNumber x
                end in
              match findItem "TransactionDate" its with
              | Some dateItem =>
                  match valToString (Value dateItem) with
                  | Some dateStr =>
                      match newDate (parseDate dateStr) with
                      | Some d => Ok (base success receipt (Some d))
                      | None => Throw (ValidationError ["transactionDate"])
                      end
                  | None =>
                      Throw "Cannot read properties of undefined (reading 'toString')"
                  end
              | None => Ok (base success receipt (transactionDate x))
              end
          | _ => Ok (base success (mpesaReceiptNumber x) (transactionDate x))
          end
      | _ => Ok (base failed (mpesaReceiptNumber x) (transactionDate x))
      end
  end.

(** The values the callback path calls [toString] on are defined, and
    the date it builds is a valid date: the result code, and the
    [TransactionDate] value of a successful callback that carries one. *)
Definition readable (newDate : string -> option date) (cb : stk_callback)
  : Prop :=
  ResultCode cb <> VUndefined
  /\ forall its d,
      ResultCode cb = VNum 0 ->
      CallbackMetadata cb = Some (Some its) ->
      findItem "TransactionDate" its = Some d ->
      exists dateStr,
        valToString (Value d) = Some dateStr
        /\ newDate (parseDate dateStr) <> None.

End Mpesa.

(** ** Controllers over the database (saleController.js,
       orderController.js)

    Customers, settings and the activity log are collaborators outside
    this embedding; a handler's steps on them are left out. *)

Module Controllers.

Record store : Type := {
  products : gmap string Product.t;
  sales : gmap string Sale.t;
  orders : gmap string Order.t;
  transactions : list Mpesa.t;
  counters : gmap string Counter.t
}.

Definition with_products (st : store) (ps : gmap string Product.t) : store :=
  {| products := ps; sales := sales st; orders := orders st;
     transactions := transactions st; counters := counters st |}.

Definition with_sales (st : store) (ss : gmap string Sale.t) : store :=
  {| products := products st; sales := ss; orders := orders st;
     transactions := transactions st; counters := counters st |}.

Definition with_orders (st : store) (os : gmap string Order.t) : store :=
  {| products := products st; sales := sales st; orders := os;
     transactions := transactions st; counters := counters st |}.

Definition with_transactions (st : store) (ts : list Mpesa.t) : store :=
  {| products := products st; sales := sales st; orders := orders st;
     transactions := ts; counters := counters st |}.

Definition with_counters (st : store) (cs : gmap string Counter.t) : store :=
  {| products := products st; sales := sales st; orders := orders st;
     transactions := transactions st; counters := cs |}.

(** What a handler sends: the HTTP status and the JSON body. *)
Inductive body : Type :=
| Failure (message : string)
| Invalid (paths : list string)
| Message (message : string)
| PaymentStatus (status : Mpesa.tx_status) (transactionId : option string)
                (resultDesc : option string)
| SaleData (message : string) (data : Sale.t)
| OrderData (message : string) (data : Order.t).

Record response : Type := {
  statusCode : Z;
  payload : body
}.

(** [next(new AppError(message, code))] through [errorHandler]. *)
Definition appError (message : string) (code : Z) : response :=
  {| statusCode := code; payload := Failure message |}.

(** A handler's own [catch]: [next(new AppError(error.message, code))].
    The message of a [ValidationError] is composed by the persistence
    library from the failing paths; [Invalid] stands for it. *)
Definition caught (e : error) (code : Z) : response :=
  match e with
  | Error message => appError message code
  | ValidationError paths => {| statusCode := code; payload := Invalid paths |}
  end.

(** An error reaching [errorHandler] through [asyncHandler]: a
    [ValidationError] is answered 400 with the messages of its paths, any
    other error without [statusCode] 500 with its message. *)
Definition uncaught (e : error) : response :=
  match e with
  | Error message => {| statusCode := 500; payload := Failure message |}
  | ValidationError paths => {| statusCode := 400; payload := Invalid paths |}
  end.

(** [res.json(body)]: status 200. *)
Definition json (b : body) : response :=
  {| statusCode := 200; payload := b |}.

(** *** M-Pesa status poll *)

(** [checkMpesaPaymentStatus]; [queryResult] is what [stkQuery] gives:
    [Some (resultCode, resultDesc)] on success. *)
Definition checkMpesaPaymentStatus (now : date) (st : store)
           (checkoutRequestId : string)
           (queryResult : option (string * string)) : response * store :=
  match Mpesa.findByCheckout (transactions st) checkoutRequestId with
  | None => (appError "Transaction not found" 404, st)
  | Some transaction =>
      match Mpesa.status transaction with
      | Mpesa.success | Mpesa.failed =>
          (json (PaymentStatus (Mpesa.status transaction)
                   (Mpesa.mpesaReceiptNumber transaction)
                   (Mpesa.resultDesc transaction)), st)
      | _ =>
          let limited :=
            match Mpesa.lastQueryAt transaction with
            | Some lastQuery => getTime now - getTime lastQuery <? 5000
            | None => false
            end in
          if limited
          then (json (PaymentStatus (Mpesa.status transaction)
                        (Mpesa.mpesaReceiptNumber transaction) None), st)
          else
            match queryResult with
            | Some (code, desc) =>
                let transaction' := Mpesa.applyQuery now transaction code desc in
                (json (PaymentStatus (Mpesa.status transaction')
                         (Mpesa.mpesaReceiptNumber transaction')
                         (Mpesa.resultDesc transaction')),
                 with_transactions st
                   (Mpesa.save (transactions st) transaction'))
            | None =>
                (json (PaymentStatus (Mpesa.status transaction)
                         (Mpesa.mpesaReceiptNumber transaction)
                         (Mpesa.resultDesc transaction)), st)
            end
      end
  end.

(** *** M-Pesa callback *)

Definition callbackFailed : response :=
  {| statusCode := 500; payload := Message "Callback processing failed" |}.

(** [mpesaCallback]: the whole body runs inside [try], whose [catch]
    answers 500. *)
Definition mpesaCallback (newDate : string -> option date) (st : store)
           (req : Mpesa.callback_body) : response * store :=
  match Mpesa.Body req with
  | Some (Some stkCallback) =>
      match Mpesa.findByCheckout (transactions st)
              (Mpesa.CheckoutRequestID stkCallback) with
      | None => (json (Message "Transaction not found"), st)
      | Some transaction =>
          match Mpesa.applyCallback newDate transaction req stkCallback with
          | Ok transaction' =>
              (json (Message "Callback processed successfully"),
               with_transactions st
                 (Mpesa.save (transactions st) transaction'))
          | Throw _ => (callbackFailed, st)
          end
      end
  | _ => (callbackFailed, st)
  end.

(** *** Sales *)

(** [item.unitPrice || product.effectivePrice]: a missing, zero or
    [NaN] price is falsy. *)
Definition priceOr (given : option jsnum) (p : Product.t) : jsnum :=
  match given with
  | Some (Num q) =>
      if Qeq_bool q 0 then Num (Product.effectivePrice p) else Num q
  | _ => Num (Product.effectivePrice p)
  end.

Definition insufficient (p : Product.t) (quantity : Z) : bool :=
  Product.trackInventory p && (Product.currentStock p <? quantity)
  && negb (Product.allowBackorder p).

Definition insufficientMessage (p : Product.t) : string :=
  String.append "Insufficient stock for "
    (String.append (Product.name p)
       (String.append ". Available: " (toString (Product.currentStock p)))).

(** The "validate stock availability" loop of [createSale]: the items
    with name and price filled in, or the error response. *)
Fixpoint validateSaleItems (ps : gmap string Product.t)
         (inputs : list Sale.item_input) : response + list Sale.item :=
  match inputs with
  | [] => inr []
  | i :: rest =>
      match ps !! Sale.in_product i with
      | None =>
          inl (appError (String.append "Product "
                           (String.append (Sale.in_product i) " not found"))
                        404)
      | Some p =>
          if negb (Product.isActive p)
          then inl (appError (String.append "Product "
                                (String.append (Product.name p)
                                               " is not available")) 400)
          else if insufficient p (Sale.in_quantity i)
          then inl (appError (insufficientMessage p) 400)
          else
            match validateSaleItems ps rest with
            | inl e => inl e
            | inr its =>
                inr (Sale.castItem (Product.name p)
                       (priceOr (Sale.in_unitPrice i) p) i :: its)
            end
      end
  end.

(** [payment.details?.[0]?.transactionId], when truthy. *)
Definition firstTransactionId (details : list Sale.payment_detail)
  : option string :=
  match details with
  | d :: _ =>
      match Sale.pd_transactionId d with
      | Some id => if String.eqb id "" then None else Some id
      | None => None
      end
  | [] => None
  end.

(** [MpesaTransaction.findOne({ mpesaReceiptNumber, status: "success" })]. *)
Definition findSuccessful (txs : list Mpesa.t) (receipt : string)
  : option Mpesa.t :=
  List.find
    (fun x =>
       match Mpesa.mpesaReceiptNumber x with
       | Some r => String.eqb r receipt
       | None => false
       end && Mpesa.status_eqb (Mpesa.status x) Mpesa.success)
    txs.

(** The M-Pesa check of [createSale]. On a found transaction the handler
    evaluates [sale._id] while [const sale] is declared only further
    down: the read throws before anything is written. *)
Definition mpesaCheck (st : store) (method : string)
           (details : list Sale.payment_detail) : option response :=
  if String.eqb method "mpesa"
  then
    match firstTransactionId details with
    | Some id =>
        match findSuccessful (transactions st) id with
        | None => Some (appError "Invalid M-Pesa transaction" 400)
        | Some _ =>
            Some (uncaught "Cannot access 'sale' before initialization")
        end
    | None => None
    end
  else None.

(** The "update product stock" loop of [createSale]. *)
Fixpoint saleStockLoop (now : date) (its : list Sale.item)
         (receipt userId : string) (ps : gmap string Product.t)
  : gmap string Product.t * option error :=
  match its with
  | [] => (ps, None)
  | it :: rest =>
      match ps !! Sale.product it with
      | None =>
          (ps,
           Some (Error "Cannot read properties of null (reading 'inventory')"))
      | Some p =>
          if Product.trackInventory p
          then
            match Product.updateStock (getTime now) p (Sale.quantity it)
                    "sale" receipt userId None with
            | Ok p' =>
                saleStockLoop now rest receipt userId
                              (<[Sale.product it := p']> ps)
            | Throw e => (ps, Some e)
            end
          else saleStockLoop now rest receipt userId ps
      end
  end.

(** The [payment] object of a request: [status] and [change] have
    defaults, [totalPaid] has none. *)
Record sale_request : Type := {
  sr_items : list Sale.item_input;
  sr_customer : option string;
  sr_method : string;
  sr_status : option string;
  sr_details : list Sale.payment_detail;
  sr_totalPaid : option jsnum;
  sr_change : option jsnum
}.

(** [new Sale({ items, customer, payment, seller })]: the document before
    [save()], with the schema defaults. *)
Definition newSale (its : list Sale.item) (req : sale_request)
           (userId : string) : Sale.t :=
  {| Sale.receiptNumber := ""; Sale.items := its;
     Sale.customer := sr_customer req;
     Sale.payment_method := sr_method req;
     Sale.payment_status := default "paid" (sr_status req);
     Sale.payment_details := sr_details req;
     Sale.payment_totalPaid := js_to_number (sr_totalPaid req);
     Sale.payment_change := default (num_of_Z 0) (sr_change req);
     Sale.totals :=
       {| Sale.totals_subtotal := num_of_Z 0;
          Sale.totals_discount := num_of_Z 0;
          Sale.totals_tax := num_of_Z 0;
          Sale.totals_total := num_of_Z 0 |};
     Sale.seller := userId; Sale.status := Sale.completed;
     Sale.voidInfo := None; Sale.refundInfo := None |}.

(** [createSale]; [newId] is the [_id] of the new document. A sale that
    fails validation is answered 400 by [errorHandler] before any hook
    ran; an error out of the stock loop finds the sale already stored. *)
Definition createSale (now : date) (st : store) (req : sale_request)
           (userId newId : string) : response * store :=
  match validateSaleItems (products st) (sr_items req) with
  | inl e => (e, st)
  | inr its =>
      match mpesaCheck st (sr_method req) (sr_details req) with
      | Some e => (e, st)
      | None =>
          let fresh := newSale its req userId in
          match Sale.invalid fresh with
          | [] =>
              let '(numbered, cs) :=
                Sale.preSaveReceipt now true fresh (counters st) in
              let sale := Sale.preSaveTotals true false numbered in
              let st1 :=
                with_counters
                  (with_sales st (<[newId := sale]> (sales st))) cs in
              match saleStockLoop now (Sale.items sale)
                                  (Sale.receiptNumber sale) userId
                                  (products st1) with
              | (ps, Some e) => (uncaught e, with_products st1 ps)
              | (ps, None) =>
                  ({| statusCode := 201;
                      payload :=
                        SaleData "Sale completed successfully" sale |},
                   with_products st1 ps)
              end
          | paths => (uncaught (ValidationError paths), st)
          end
      end
  end.

(** [voidSale]: an error thrown by [sale.void] becomes a 400. *)
Definition voidSale (now : date) (st : store) (saleId userId reason : string)
  : response * store :=
  match sales st !! saleId with
  | None => (appError "Sale not found" 404, st)
  | Some sale =>
      match Sale.void now sale userId reason (products st) with
      | (Ok sale', ps) =>
          (json (SaleData "Sale voided successfully" sale'),
           with_products (with_sales st (<[saleId := sale']> (sales st))) ps)
      | (Throw e, ps) => (caught e 400, with_products st ps)
      end
  end.

(** [refundSale]. *)
Definition refundSale (now : date) (st : store) (saleId userId : string)
           (items : list Sale.refund_request) (reason : string)
  : response * store :=
  match sales st !! saleId with
  | None => (appError "Sale not found" 404, st)
  | Some sale =>
      match Sale.refund now sale userId items reason (products st) with
      | (Ok sale', ps) =>
          (json (SaleData "Refund processed successfully" sale'),
           with_products (with_sales st (<[saleId := sale']> (sales st))) ps)
      | (Throw e, ps) => (caught e 400, with_products st ps)
      end
  end.

End Controllers.

Module OrderController.
Import Controllers.

Record item_input : Type := {
  in_product : string;
  in_quantity : Z;
  in_unitPrice : option jsnum;
  in_discount_amount : option jsnum;
  in_discount_percentage : option jsnum;
  in_subtotal : option jsnum
}.

Record order_request : Type := {
  or_items : list item_input;
  or_deliveryType : string;
  or_paymentStatus : option string
}.

(** The "validate items and check stock" loop of [createOrder]. *)
Fixpoint validateItems (ps : gmap string Product.t)
         (inputs : list item_input) : response + list Order.item :=
  match inputs with
  | [] => inr []
  | i :: rest =>
      match ps !! in_product i with
      | None => inl (appError "Product not found" 404)
      | Some p =>
          if negb (Product.isActive p)
          then inl (appError (String.append "Product "
                                (String.append (Product.name p)
                                               " is not available")) 400)
          else if insufficient p (in_quantity i)
          then inl (appError (insufficientMessage p) 400)
          else
            match validateItems ps rest with
            | inl e => inl e
            | inr its =>
                inr ({| Order.product := in_product i;
                        Order.productName := Product.name p;
                        Order.quantity := in_quantity i;
                        Order.unitPrice := priceOr (in_unitPrice i) p;
                        Order.discount_amount :=
                          default (num_of_Z 0) (in_discount_amount i);
                        Order.discount_percentage :=
                          default (num_of_Z 0) (in_discount_percentage i);
                        Order.subtotal := js_to_number (in_subtotal i) |}
                     :: its)
            end
      end
  end.

(** [new Order({ items: validatedItems, delivery, payment, createdBy,
    assignedTo })]: the document before [save()]. The handler passes
    neither [orderNumber] nor [totals]. *)
Definition newOrder (validatedItems : list Order.item) (req : order_request)
           (userId : string) (deliveryFee : jsnum) : Order.t :=
  {| Order.orderNumber := ""; Order.customer := None;
     Order.items := validatedItems;
     Order.deliveryFee := deliveryFee;
     Order.actualDeliveryDate := None;
     Order.payment_status := default "pending" (or_paymentStatus req);
     Order.status := "pending"; Order.statusHistory := [];
     Order.totals :=
       {| Order.totals_subtotal := NaN;
          Order.totals_discount := num_of_Z 0;
          Order.totals_deliveryFee := num_of_Z 0;
          Order.totals_tax := num_of_Z 0;
          Order.totals_total := NaN |};
     Order.createdBy := userId; Order.assignedTo := Some userId;
     Order.customerNotified := None; Order.packingCompleted := None;
     Order.cancelledBy := None; Order.cancelledAt := None |}.

(** [createOrder]; [fee] is what [settings.calculateDeliveryFee] gives
    for the delivery area, [newId] the [_id] of the new document. The
    order is validated before the hooks that would number and total
    it. *)
Definition createOrder (now : date) (st : store) (req : order_request)
           (userId newId : string) (fee : jsnum) : response * store :=
  match validateItems (products st) (or_items req) with
  | inl e => (e, st)
  | inr validatedItems =>
      let deliveryFee :=
        if String.eqb (or_deliveryType req) "delivery" then fee
        else num_of_Z 0 in
      let fresh := newOrder validatedItems req userId deliveryFee in
      match Order.invalid fresh with
      | [] =>
          let '(order, cs) := Order.saveNew now fresh (counters st) in
          ({| statusCode := 201;
              payload := OrderData "Order created successfully" order |},
           with_counters
             (with_orders st (<[newId := order]> (orders st))) cs)
      | paths => (uncaught (ValidationError paths), st)
      end
  end.

(** The table [validTransitions] of [updateOrderStatus]. *)
Definition validTransitions : list (string * list string) :=
  [ ("pending", ["confirmed"; "cancelled"]);
    ("confirmed", ["processing"; "cancelled"]);
    ("processing", ["ready"; "cancelled"]);
    ("ready", ["out_for_delivery"; "delivered"; "cancelled"]);
    ("out_for_delivery", ["delivered"; "failed"]);
    ("delivered", []);
    ("cancelled", []);
    ("failed", ["out_for_delivery"; "cancelled"]) ].

(** [validTransitions[order.status]]. *)
Definition transitionsFrom (current : string) : option (list string) :=
  snd <$> List.find (fun kv => String.eqb (fst kv) current) validTransitions.

(** [targets.includes(status)]. *)
Definition includes (targets : list string) (status : string) : bool :=
  existsb (String.eqb status) targets.

(** Whether the controller lets [current -> requested] through. *)
Definition permitted (current requested : string) : bool :=
  match transitionsFrom current with
  | Some targets => includes targets requested
  | None => false
  end.

Definition transitionMessage (current requested : string) : string :=
  String.append "Cannot change status from "
    (String.append current (String.append " to " requested)).

(** The "reduce stock for delivered items" loop. *)
Fixpoint deliverLoop (now : date) (its : list Order.item)
         (orderNumber userId : string) (ps : gmap string Product.t)
  : gmap string Product.t * option error :=
  match its with
  | [] => (ps, None)
  | it :: rest =>
      match ps !! Order.product it with
      | Some p =>
          if Product.trackInventory p
          then
            match Product.updateStock (getTime now) p (Order.quantity it)
                    "sale" orderNumber userId (Some "Order delivered") with
            | Ok p' =>
                deliverLoop now rest orderNumber userId
                            (<[Order.product it := p']> ps)
            | Throw e => (ps, Some e)
            end
          else deliverLoop now rest orderNumber userId ps
      | None => deliverLoop now rest orderNumber userId ps
      end
  end.

(** The notification step reads [settings], which [updateOrderStatus]
    never declares: reaching it throws. *)
Definition notifyStep : response := uncaught "settings is not defined".

(** [updateOrderStatus]. *)
Definition updateOrderStatus (now : date) (st : store)
           (orderId status userId : string) (notes location : option string)
  : response * store :=
  match orders st !! orderId with
  | None => (appError "Order not found" 404, st)
  | Some order =>
      match transitionsFrom (Order.status order) with
      | None =>
          (uncaught
             "Cannot read properties of undefined (reading 'includes')", st)
      | Some targets =>
          if negb (includes targets status)
          then (appError (transitionMessage (Order.status order) status) 400,
                st)
          else
            let order' :=
              Order.updateStatus now order status userId notes location in
            let st1 := with_orders st (<[orderId := order']> (orders st)) in
            if String.eqb status "delivered"
            then
              match deliverLoop now (Order.items order')
                                (Order.orderNumber order') userId
                                (products st1) with
              | (ps, Some e) => (uncaught e, with_products st1 ps)
              | (ps, None) => (notifyStep, with_products st1 ps)
              end
            else (notifyStep, st1)
      end
  end.

(** The transitions the specification lists, as (from, to) pairs. *)
Definition listed_transitions : list (string * string) :=
  [ ("pending", "confirmed"); ("pending", "cancelled");
    ("confirmed", "processing"); ("confirmed", "cancelled");
    ("processing", "ready"); ("processing", "cancelled");
    ("ready", "out_for_delivery"); ("ready", "delivered");
    ("ready", "cancelled");
    ("out_for_delivery", "delivered"); ("out_for_delivery", "failed");
    ("failed", "out_for_delivery"); ("failed", "cancelled") ].

(** The values of the schema's [status] enum. *)
Definition statuses : list string :=
  [ "pending"; "confirmed"; "processing"; "ready"; "out_for_delivery";
    "delivered"; "cancelled"; "failed" ].

(** The quantity the items of an order ask of one product. *)
Fixpoint demand (pid : string) (its : list Order.item) : Z :=
  match its with
  | [] => 0
  | it :: rest =>
      if String.eqb (Order.product it) pid
      then Order.quantity it + demand pid rest
      else demand pid rest
  end.


End OrderController.

(** ** Concrete scenarios used by the examples below *)

Module Scenario.
Import Controllers.

Definition day1 : date :=
  {| getFullYear := 2024; getMonth := 2; getDate := 5;
     getTime := 1709640000000 |}.

Definition later : date :=
  {| getFullYear := 2024; getMonth := 2; getDate := 5;
     getTime := 1709640060000 |}.

Definition empty_store : store :=
  {| products := ∅; sales := ∅; orders := ∅; transactions := [];
     counters := ∅ |}.

(** A shop with one product, ["p1"], priced 100 with stock 10. *)
Definition shop (track : bool) : store :=
  with_products empty_store
    {[ "p1" := Product.fresh "Widget" 100 10 track ]}.

(** A tracked product with stock 10 that allows backorder. *)
Definition backorder_widget : Product.t :=
  {| Product.name := "Widget"; Product.sellingPrice := 100%Q;
     Product.discount := 0%Q; Product.isActive := true;
     Product.currentStock := 10; Product.minStock := 10;
     Product.reorderPoint := None; Product.trackInventory := true;
     Product.allowBackorder := true; Product.stockMovements := [];
     Product.totalSold := 0; Product.totalRevenue := 0%Q;
     Product.lastSoldDate := None; Product.averageDailySales := 0%Q;
     Product.turnoverRate := 0%Q |}.

(** A request line for [q] units of ["p1"] at 100, with the subtotal
    the schema requires of the client. *)
Definition line (q : Z) : Sale.item_input :=
  {| Sale.in_product := "p1"; Sale.in_quantity := q;
     Sale.in_unitPrice := Some (num_of_Z 100);
     Sale.in_discount_amount := None;
     Sale.in_discount_percentage := None;
     Sale.in_tax_rate := None; Sale.in_tax_amount := None;
     Sale.in_subtotal := Some (num_of_Z (100 * q)) |}.

(** The shop with the backorder product as ["p1"]. *)
Definition backorder_shop : store :=
  with_products empty_store {[ "p1" := backorder_widget ]}.

(** A request for three units that leaves out the subtotal and the
    amount paid. *)
Definition bare_sale : sale_request :=
  {| sr_items :=
       [{| Sale.in_product := "p1"; Sale.in_quantity := 3;
           Sale.in_unitPrice := None;
           Sale.in_discount_amount := None;
           Sale.in_discount_percentage := None;
           Sale.in_tax_rate := None; Sale.in_tax_amount := None;
           Sale.in_subtotal := None |}];
     sr_customer := None; sr_method := "cash"; sr_status := None;
     sr_details := []; sr_totalPaid := None; sr_change := None |}.

Definition cash_sale (q : Z) : sale_request :=
  {| sr_items := [line q]; sr_customer := None; sr_method := "cash";
     sr_status := None; sr_details := [];
     sr_totalPaid := Some (num_of_Z (100 * q)); sr_change := None |}.

(** The item of the totals example: quantity 2, unit price 100,
    discount 10 percent, tax rate 16 percent; the client leaves the
    amounts to the server and sends the required subtotal as 0. *)
Definition taxed_line : Sale.item_input :=
  {| Sale.in_product := "p1"; Sale.in_quantity := 2;
     Sale.in_unitPrice := Some (num_of_Z 100);
     Sale.in_discount_amount := None;
     Sale.in_discount_percentage := Some (num_of_Z 10);
     Sale.in_tax_rate := Some (num_of_Z 16); Sale.in_tax_amount := None;
     Sale.in_subtotal := Some (num_of_Z 0) |}.

Definition taxed_sale : sale_request :=
  {| sr_items := [taxed_line]; sr_customer := None; sr_method := "cash";
     sr_status := None; sr_details := [];
     sr_totalPaid := Some (num_of_Z 250); sr_change := None |}.

(** A transaction that reached [status] with receipt ["ABC123"]. *)
Definition tx (st : Mpesa.tx_status) : Mpesa.t :=
  {| Mpesa.checkoutRequestId := "ws_CO_1"; Mpesa.merchantRequestId := "m1";
     Mpesa.phoneNumber := "254700000000"; Mpesa.amount := 300;
     Mpesa.status := st; Mpesa.mpesaReceiptNumber := Some "ABC123";
     Mpesa.transactionDate := None; Mpesa.resultCode := Some "0";
     Mpesa.resultDesc := Some "done"; Mpesa.callbackData := None;
     Mpesa.user := "u1"; Mpesa.sale := None; Mpesa.retryCount := 0;
     Mpesa.lastQueryAt := None |}.

Definition paid_shop (st : Mpesa.tx_status) : store :=
  with_transactions (shop true) [tx st].

Definition mpesa_sale : sale_request :=
  {| sr_items := [line 3]; sr_customer := None; sr_method := "mpesa";
     sr_status := None;
     sr_details :=
       [{| Sale.pd_method := "mpesa"; Sale.pd_amount := Some (num_of_Z 300);
           Sale.pd_reference := None;
           Sale.pd_transactionId := Some "ABC123" |}];
     sr_totalPaid := Some (num_of_Z 300); sr_change := None |}.

(** [new Date(string)] on the one date string the examples use; any
    other string is taken as invalid. *)
Definition newDate (s : string) : option date :=
  if String.eqb s "2023-10-25T14:30:22"
  then Some {| getFullYear := 2023; getMonth := 9; getDate := 25;
               getTime := 1698244222000 |}
  else None.

(** A gateway callback for ["ws_CO_1"] with the given result code. *)
Definition callback (code : Z) : Mpesa.callback_body :=
  {| Mpesa.Body :=
       Some (Some {| Mpesa.CheckoutRequestID := "ws_CO_1";
                     Mpesa.ResultCode := Mpesa.VNum code;
                     Mpesa.ResultDesc := Some "Request cancelled by user";
                     Mpesa.CallbackMetadata := None |}) |}.

(** A request body without [Body]. *)
Definition malformed : Mpesa.callback_body := {| Mpesa.Body := None |}.

(** A successful callback for ["ws_CO_1"] carrying a transaction date. *)
Definition dated_callback (stamp : Z) : Mpesa.callback_body :=
  {| Mpesa.Body :=
       Some (Some {| Mpesa.CheckoutRequestID := "ws_CO_1";
                     Mpesa.ResultCode := Mpesa.VNum 0;
                     Mpesa.ResultDesc := Some "The service request is processed successfully.";
                     Mpesa.CallbackMetadata :=
                       Some (Some [{| Mpesa.Name := "TransactionDate";
                                      Mpesa.Value := Mpesa.VNum stamp |}])
                  |}) |}.

(** An order for five units of ["p1"], ready for hand-over. *)
Definition ready_order : Order.t :=
  {| Order.orderNumber := "ORD240300001"; Order.customer := None;
     Order.items :=
       [{| Order.product := "p1"; Order.productName := "Widget";
           Order.quantity := 5; Order.unitPrice := num_of_Z 100;
           Order.discount_amount := num_of_Z 0;
           Order.discount_percentage := num_of_Z 0;
           Order.subtotal := num_of_Z 500 |}];
     Order.deliveryFee := num_of_Z 0; Order.actualDeliveryDate := None;
     Order.payment_status := "pending"; Order.status := "ready";
     Order.statusHistory := [];
     Order.totals :=
       {| Order.totals_subtotal := num_of_Z 500;
          Order.totals_discount := num_of_Z 0;
          Order.totals_deliveryFee := num_of_Z 0;
          Order.totals_tax := num_of_Z 80;
          Order.totals_total := num_of_Z 580 |};
     Order.createdBy := "u1"; Order.assignedTo := Some "u1";
     Order.customerNotified := None; Order.packingCompleted := None;
     Order.cancelledBy := None; Order.cancelledAt := None |}.

Definition order_shop (track : bool) (status : string) : store :=
  with_orders (shop track)
    {[ "o1" := Order.set_status ready_order status [] ]}.

(** A stored sale of three units of ["p1"], and the shop after it. *)
Definition sold_sale : Sale.t :=
  {| Sale.receiptNumber := "RCP24030500000";
     Sale.items :=
       [{| Sale.product := "p1"; Sale.productName := "Widget";
           Sale.quantity := 3; Sale.unitPrice := num_of_Z 100;
           Sale.discount_amount := num_of_Z 0;
           Sale.discount_percentage := num_of_Z 0;
           Sale.tax_amount := num_of_Z 0;
           Sale.subtotal := num_of_Z 300 |}];
     Sale.customer := None; Sale.payment_method := "cash";
     Sale.payment_status := "paid"; Sale.payment_details := [];
     Sale.payment_totalPaid := num_of_Z 300;
     Sale.payment_change := num_of_Z 0;
     Sale.totals :=
       {| Sale.totals_subtotal := num_of_Z 300;
          Sale.totals_discount := num_of_Z 0;
          Sale.totals_tax := num_of_Z 0;
          Sale.totals_total := num_of_Z 0 |};
     Sale.seller := "u1"; Sale.status := Sale.completed;
     Sale.voidInfo := None; Sale.refundInfo := None |}.

Definition sold_shop : store :=
  with_sales
    (with_products empty_store
       {[ "p1" := Product.fresh "Widget" 100 7 true ]})
    {[ "s1" := sold_sale ]}.

(** A refund request line for ["p1"]. *)
Definition refund_line (q : Z) : Sale.refund_request :=
  {| Sale.productId := "p1"; Sale.rq_quantity := q |}.

Definition stockOf (st : store) (pid : string) : option Z :=
  Product.currentStock <$> products st !! pid.

Definition movementsOf (st : store) (pid : string)
  : list (string * Z * Z * Z) :=
  match products st !! pid with
  | Some p =>
      map (fun m => (Product.sm_type m, Product.sm_quantity m,
                     Product.sm_previousStock m, Product.sm_newStock m))
          (Product.stockMovements p)
  | None => []
  end.

End Scenario.

(** ** Product views and the stock-adjustment handler
       (models/Product.js, productController.js) *)

Module ProductViews.

(** Virtual [stockStatus]. *)
Definition stockStatus (p : Product.t) : string :=
  if Product.currentStock p =? 0 then "out_of_stock"
  else if Product.currentStock p <=? Product.minStock p then "low_stock"
  else if Product.minStock p * 3 <? Product.currentStock p then "overstock"
  else "in_stock".

End ProductViews.

Module ProductController.
Import Controllers.

(** What the stock handler sends: [next(new AppError(error.message,
    code))] for the error [e], or the report. *)
Inductive reply : Type :=
| StockFailure (code : Z) (e : error)
| StockUpdated (productName : string) (previousStock newStock : Z)
               (type : string) (quantity : Z) (reason : option string).

(** [updateStock] of productController.js: the whole update runs inside
    [try]; the reply reads [previousStock] off the last stock movement. *)
Definition updateStock (now : date) (st : store) (id : string) (quantity : Z)
           (type reference userId : string) (reason : option string)
  : reply * store :=
  match products st !! id with
  | None => (StockFailure 404 "Product not found", st)
  | Some product =>
      match Product.updateStock (getTime now) product quantity type reference
                                userId reason with
      | Ok product' =>
          let st' := with_products st (<[id := product']> (products st)) in
          match last (Product.stockMovements product') with
          | Some m =>
              (StockUpdated (Product.name product')
                            (Product.sm_previousStock m)
                            (Product.currentStock product')
                            type quantity reason, st')
          | None =>
              (StockFailure 400
                 (Error "Cannot read properties of undefined (reading 'previousStock')"),
               st')
          end
      | Throw e => (StockFailure 400 e, st)
      end
  end.

End ProductController.

(** ** Quick sale (saleController.js) *)

Module SaleExtra.
Import Controllers.

Record quick_item : Type := {
  qi_product : string;
  qi_quantity : Z
}.

(** What [quickSale] sends: the failure [errorHandler] answers for the
    error [e], or the summary. *)
Inductive quick_reply : Type :=
| QuickFailure (code : Z) (e : error)
| QuickDone (receiptNumber : string) (total change : jsnum) (items : nat).

(** An error reaching [errorHandler]: 400 for a [ValidationError], 500
    for any other error without [statusCode]. *)
Definition quickUncaught (e : error) : quick_reply :=
  match e with
  | Error _ => QuickFailure 500 e
  | ValidationError _ => QuickFailure 400 e
  end.

(** The object [quickSale] builds for a line: price from the product, no
    discount, a tax rate of 16, subtotal 0. *)
Definition quickInput (p : Product.t) (i : quick_item) : Sale.item_input :=
  {| Sale.in_product := qi_product i; Sale.in_quantity := qi_quantity i;
     Sale.in_unitPrice := Some (Num (Product.effectivePrice p));
     Sale.in_discount_amount := Some (num_of_Z 0);
     Sale.in_discount_percentage := Some (num_of_Z 0);
     Sale.in_tax_rate := Some (num_of_Z 16);
     Sale.in_tax_amount := Some (num_of_Z 0);
     Sale.in_subtotal := Some (num_of_Z 0) |}.

(** The same line after the schema cast. *)
Definition quickItem (p : Product.t) (i : quick_item) : Sale.item :=
  Sale.castItem (Product.name p) (Num (Product.effectivePrice p))
                (quickInput p i).

(** The "validate and prepare items" loop with its running [total]. *)
Fixpoint quickItems (ps : gmap string Product.t) (inputs : list quick_item)
         (saleItems : list Sale.item) (total : jsnum)
  : quick_reply + (list Sale.item * jsnum) :=
  match inputs with
  | [] => inr (saleItems, total)
  | i :: rest =>
      match ps !! qi_product i with
      | None => inl (QuickFailure 404 "Product not found")
      | Some p =>
          if Product.trackInventory p
             && (Product.currentStock p <? qi_quantity i)
          then inl (QuickFailure 400
                      (Error (String.append "Insufficient stock for "
                                            (Product.name p))))
          else
            let saleItem := quickItem p i in
            quickItems ps rest (saleItems ++ [saleItem])
              (js_add total
                      (js_mul (Sale.unitPrice saleItem)
                              (num_of_Z (Sale.quantity saleItem))))
      end
  end.

(** [new Sale({ items: saleItems, payment: { method: "cash", status:
    "paid", totalPaid: paymentAmount, change: paymentAmount - total,
    details: [{ method: "cash", amount: paymentAmount }] }, seller })]. *)
Definition newQuickSale (saleItems : list Sale.item) (total : jsnum)
           (paymentAmount : option jsnum) (userId : string) : Sale.t :=
  {| Sale.receiptNumber := ""; Sale.items := saleItems;
     Sale.customer := None; Sale.payment_method := "cash";
     Sale.payment_status := "paid";
     Sale.payment_details :=
       [{| Sale.pd_method := "cash"; Sale.pd_amount := paymentAmount;
           Sale.pd_reference := None;
           Sale.pd_transactionId := None |}];
     Sale.payment_totalPaid := js_to_number paymentAmount;
     Sale.payment_change := js_sub (js_to_number paymentAmount) total;
     Sale.totals :=
       {| Sale.totals_subtotal := num_of_Z 0;
          Sale.totals_discount := num_of_Z 0;
          Sale.totals_tax := num_of_Z 0;
          Sale.totals_total := num_of_Z 0 |};
     Sale.seller := userId; Sale.status := Sale.completed;
     Sale.voidInfo := None; Sale.refundInfo := None |}.

(** [quickSale]; [newId] is the [_id] of the new sale. *)
Definition quickSale (now : date) (st : store) (inputs : list quick_item)
           (paymentAmount : option jsnum) (userId newId : string)
  : quick_reply * store :=
  match quickItems (products st) inputs [] (num_of_Z 0) with
  | inl e => (e, st)
  | inr (saleItems, total) =>
      let fresh := newQuickSale saleItems total paymentAmount userId in
      match Sale.invalid fresh with
      | [] =>
          let '(numbered, cs) :=
            Sale.preSaveReceipt now true fresh (counters st) in
          let sale := Sale.preSaveTotals true false numbered in
          let st1 :=
            with_counters (with_sales st (<[newId := sale]> (sales st))) cs
          in
          match saleStockLoop now (Sale.items sale) (Sale.receiptNumber sale)
                              userId (products st1) with
          | (ps, Some e) => (quickUncaught e, with_products st1 ps)
          | (ps, None) =>
              (QuickDone (Sale.receiptNumber sale)
                         (Sale.totals_total (Sale.totals sale))
                         (Sale.payment_change sale)
                         (length (Sale.items sale)),
               with_products st1 ps)
          end
      | paths => (quickUncaught (ValidationError paths), st)
      end
  end.

End SaleExtra.

(** ** Predicates on the product collection *)

Module Ledger.

(** No product without backorder is below zero. *)
Definition stock_ok (ps : gmap string Product.t) : Prop :=
  forall pid p,
    ps !! pid = Some p ->
    Product.allowBackorder p = false ->
    0 <= Product.currentStock p.

(** The lines (product, quantity) of a sale. *)
Definition sale_lines (its : list Sale.item) : list (string * Z) :=
  map (fun it => (Sale.product it, Sale.quantity it)) its.

(** The quantity a list of lines asks of one product. *)
Fixpoint demand (pid : string) (lines : list (string * Z)) : Z :=
  match lines with
  | [] => 0
  | l :: rest =>
      if String.eqb (fst l) pid then snd l + demand pid rest
      else demand pid rest
  end.

(** The lines (product, quantity) a sale request asks for. *)
Definition request_lines (inputs : list Sale.item_input) : list (string * Z) :=
  map (fun i => (Sale.in_product i, Sale.in_quantity i)) inputs.

(** Two collections hold the same products with the same stock. *)
Definition same_stock (a b : gmap string Product.t) : Prop :=
  forall pid,
    Product.currentStock <$> a !! pid = Product.currentStock <$> b !! pid.

End Ledger.

(** ** M-Pesa initiation and phone numbers
       (saleController.js, services/mpesaService.js) *)

Module MpesaExtra.
Import Controllers.

(** [phone.slice(1)]. *)
Definition slice1 (s : string) : string :=
  match s with
  | EmptyString => EmptyString
  | String _ rest => rest
  end.

(** [MpesaService.formatPhoneNumber]. *)
Definition formatPhoneNumber (phone : string) : result string :=
  if String.prefix "0" phone then Ok (String.append "254" (slice1 phone))
  else if String.prefix "+254" phone then Ok (slice1 phone)
  else if String.prefix "254" phone then Ok phone
  else Throw "Invalid phone number format".

(** The character classes of the handler's pattern. *)
Definition isDigit (c : Ascii.ascii) : bool :=
  (48 <=? Ascii.nat_of_ascii c)%nat && (Ascii.nat_of_ascii c <=? 57)%nat.

Fixpoint allDigits (s : string) : bool :=
  match s with
  | EmptyString => true
  | String c rest => isDigit c && allDigits rest
  end.

(** [[17]\d{8}$]: a 1 or a 7, then eight digits, then the end. *)
Definition subscriber (s : string) : bool :=
  match s with
  | String c rest =>
      (Ascii.eqb c "1"%char || Ascii.eqb c "7"%char)
      && (String.length rest =? 8)%nat && allDigits rest
  | EmptyString => false
  end.

(** [s] without the prefix [p], when it starts with it. *)
Fixpoint stripPrefix (p s : string) : option string :=
  match p with
  | EmptyString => Some s
  | String a p' =>
      match s with
      | String b s' => if Ascii.eqb a b then stripPrefix p' s' else None
      | EmptyString => None
      end
  end.

(** [/^(254|0)[17]\d{8}$/.test(phone)]. *)
Definition phoneRegex (phone : string) : bool :=
  match stripPrefix "254" phone with
  | Some rest => subscriber rest
  | None =>
      match stripPrefix "0" phone with
      | Some rest => subscriber rest
      | None => false
      end
  end.

(** What [mpesaService.stkPush] gives back. *)
Inductive stk_result : Type :=
| StkFailed (errorJson : string)
| StkSent (checkoutRequestId merchantRequestId : option string).

(** What the initiation handler sends. *)
Inductive initiate_reply : Type :=
| InitiateFailure (code : Z) (message : string)
| InitiateSent (checkoutRequestId merchantRequestId : string).

(** [Math.round]. *)
Definition round (q : Q) : Z := Qfloor (q + (1 # 2)).

Definition present (o : option string) : option string :=
  match o with
  | Some s => if String.eqb s "" then None else Some s
  | None => None
  end.

(** [initiateMpesaPayment]; [stk] is the answer of the gateway to the
    push request. A second record with a stored [checkoutRequestId]
    violates the unique index, which the handler answers as a duplicate. *)
Definition initiateMpesaPayment (st : store) (phone : option string)
           (amount : option Q) (userId : string) (stk : stk_result)
  : initiate_reply * store :=
  match present phone, amount with
  | Some ph, Some amt =>
      if Qeq_bool amt 0
      then (InitiateFailure 400 "Phone number and amount are required", st)
      else if negb (Qle_bool 1 amt)
      then (InitiateFailure 400 "Minimum amount is KSH 1", st)
      else if negb (phoneRegex ph)
      then (InitiateFailure 400
              "Invalid phone number format. Use format: 0712345678 or 254712345678",
            st)
      else
        match stk with
        | StkFailed errorJson =>
            (InitiateFailure 400
               (String.append "Failed to initiate M-Pesa payment: " errorJson),
             st)
        | StkSent checkout merchant =>
            match present checkout, present merchant with
            | Some checkoutRequestId, Some merchantRequestId =>
                match Mpesa.findByCheckout (transactions st)
                                           checkoutRequestId with
                | Some _ =>
                    (InitiateFailure 400
                       "Duplicate transaction request. Please try again.", st)
                | None =>
                    let transaction :=
                      {| Mpesa.checkoutRequestId := checkoutRequestId;
                         Mpesa.merchantRequestId := merchantRequestId;
                         Mpesa.phoneNumber := ph;
                         Mpesa.amount := round amt;
                         Mpesa.status := Mpesa.pending;
                         Mpesa.mpesaReceiptNumber := None;
                         Mpesa.transactionDate := None;
                         Mpesa.resultCode := None;
                         Mpesa.resultDesc := None;
                         Mpesa.callbackData := None;
                         Mpesa.user := userId; Mpesa.sale := None;
                         Mpesa.retryCount := 0;
                         Mpesa.lastQueryAt := None |} in
                    (InitiateSent checkoutRequestId merchantRequestId,
                     with_transactions st (transactions st ++ [transaction]))
                end
            | _, _ =>
                (InitiateFailure 500
                   "Invalid M-Pesa response - missing request IDs", st)
            end
        end
  | _, _ => (InitiateFailure 400 "Phone number and amount are required", st)
  end.

(** The fields of a transaction that neither reconciliation path writes. *)
Definition identity (x : Mpesa.t) : string * string * string * Z * string
                                   * option string :=
  (Mpesa.checkoutRequestId x, Mpesa.merchantRequestId x, Mpesa.phoneNumber x,
   Mpesa.amount x, Mpesa.user x, Mpesa.sale x).

(** The unique index on [checkoutRequestId]. *)
Definition unique_keys (txs : list Mpesa.t) : Prop :=
  List.NoDup (map Mpesa.checkoutRequestId txs).

End MpesaExtra.

(** ** Assignment and cancellation of orders
       (models/Order.js, orderController.js) *)

Module OrderExtra.
Import Controllers.

Definition set_assigned (o : Order.t) (userId : string) : Order.t :=
  {| Order.orderNumber := Order.orderNumber o;
     Order.customer := Order.customer o; Order.items := Order.items o;
     Order.deliveryFee := Order.deliveryFee o;
     Order.actualDeliveryDate := Order.actualDeliveryDate o;
     Order.payment_status := Order.payment_status o;
     Order.status := Order.status o;
     Order.statusHistory := Order.statusHistory o;
     Order.totals := Order.totals o; Order.createdBy := Order.createdBy o;
     Order.assignedTo := Some userId;
     Order.customerNotified := Order.customerNotified o;
     Order.packingCompleted := Order.packingCompleted o;
     Order.cancelledBy := Order.cancelledBy o;
     Order.cancelledAt := Order.cancelledAt o |}.

(** [orderSchema.methods.assignToDeliveryPerson]: the user becomes the
    assignee (and the delivery person, which this record does not carry),
    the status becomes [out_for_delivery], an entry is pushed, and the
    document is saved. *)
Definition assignToDeliveryPerson (now : date) (o : Order.t) (userId : string)
  : Order.t :=
  let statusModified :=
    negb (String.eqb (Order.status o) "out_for_delivery") in
  let this :=
    Order.set_status (set_assigned o userId) "out_for_delivery"
      (Order.statusHistory o
         ++ [{| Order.h_status := "out_for_delivery";
                Order.h_timestamp := now; Order.h_updatedBy := userId;
                Order.h_notes := Some "Order assigned for delivery";
                Order.h_location := None |}]) in
  Order.preSaveStatusHistory now statusModified this.

(** [assignOrder]. *)
Definition assignOrder (now : date) (st : store) (orderId userId : string)
  : response * store :=
  match orders st !! orderId with
  | None => (appError "Order not found" 404, st)
  | Some order =>
      if negb (String.eqb (Order.status order) "ready")
      then (appError "Order must be ready before assigning for delivery" 400,
            st)
      else
        let order' := assignToDeliveryPerson now order userId in
        (json (OrderData "Order assigned successfully" order'),
         with_orders st (<[orderId := order']> (orders st)))
  end.

Definition set_cancelled (now : date) (o : Order.t) (userId : string)
  : Order.t :=
  {| Order.orderNumber := Order.orderNumber o;
     Order.customer := Order.customer o; Order.items := Order.items o;
     Order.deliveryFee := Order.deliveryFee o;
     Order.actualDeliveryDate := Order.actualDeliveryDate o;
     Order.payment_status := Order.payment_status o;
     Order.status := "cancelled";
     Order.statusHistory := Order.statusHistory o;
     Order.totals := Order.totals o; Order.createdBy := Order.createdBy o;
     Order.assignedTo := Order.assignedTo o;
     Order.customerNotified := Order.customerNotified o;
     Order.packingCompleted := Order.packingCompleted o;
     Order.cancelledBy := Some userId; Order.cancelledAt := Some now |}.

(** [orderSchema.methods.sendNotification]: the customer counts as
    notified (the notification log is not carried by this record); the
    save changes no status, so no history entry is pushed. *)
Definition sendNotification (o : Order.t) : Order.t :=
  {| Order.orderNumber := Order.orderNumber o;
     Order.customer := Order.customer o; Order.items := Order.items o;
     Order.deliveryFee := Order.deliveryFee o;
     Order.actualDeliveryDate := Order.actualDeliveryDate o;
     Order.payment_status := Order.payment_status o;
     Order.status := Order.status o;
     Order.statusHistory := Order.statusHistory o;
     Order.totals := Order.totals o; Order.createdBy := Order.createdBy o;
     Order.assignedTo := Order.assignedTo o;
     Order.customerNotified := Some true;
     Order.packingCompleted := Order.packingCompleted o;
     Order.cancelledBy := Order.cancelledBy o;
     Order.cancelledAt := Order.cancelledAt o |}.

(** [cancelOrder]: refused for a delivered or cancelled order; otherwise
    the status and the cancellation stamp are written and saved (the
    pre-save hook pushes the history entry), and a customer on file is
    notified. *)
Definition cancelOrder (now : date) (st : store) (orderId userId : string)
  : response * store :=
  match orders st !! orderId with
  | None => (appError "Order not found" 404, st)
  | Some order =>
      if String.eqb (Order.status order) "delivered"
         || String.eqb (Order.status order) "cancelled"
      then (appError "Cannot cancel this order" 400, st)
      else
        let saved :=
          Order.preSaveStatusHistory now true (set_cancelled now order userId)
        in
        let order' :=
          match Order.customer saved with
          | Some _ => sendNotification saved
          | None => saved
          end in
        (json (OrderData "Order cancelled successfully" order'),
         with_orders st (<[orderId := order']> (orders st)))
  end.

End OrderExtra.

(** ** Customer loyalty tiers (models/Customer.js) *)

Module Customer.

(** The statistics and loyalty paths the tier code reads and writes.
    The amount spent is compared with thresholds only. *)
Record t : Type := {
  totalOrders : Z;
  totalSpent : Q;
  points : Z;
  tier : string
}.

(** The tier [updateLoyaltyTier] computes from the totals. *)
Definition tierFor (spent : Q) (orders : Z) : string :=
  if Qle_bool 300000 spent && (50 <=? orders) then "platinum"
  else if Qle_bool 150000 spent && (25 <=? orders) then "gold"
  else if Qle_bool 50000 spent && (10 <=? orders) then "silver"
  else "bronze".

Definition set_tier (c : t) (tr : string) : t :=
  {| totalOrders := totalOrders c; totalSpent := totalSpent c;
     points := points c; tier := tr |}.

(** [customerSchema.methods.updateLoyaltyTier]. *)
Definition updateLoyaltyTier (c : t) : t :=
  let newTier := tierFor (totalSpent c) (totalOrders c) in
  if negb (String.eqb newTier (tier c)) then set_tier c newTier else c.

(** The tier order of [nextTierRequirement]. *)
Definition tiers : list string := ["bronze"; "silver"; "gold"; "platinum"].

(** [tiers.indexOf(tier)], with -1 for an unlisted tier. *)
Fixpoint indexOf (x : string) (l : list string) (i : Z) : Z :=
  match l with
  | [] => -1
  | y :: rest => if String.eqb y x then i else indexOf x rest (i + 1)
  end.

(** The table [requirements]. *)
Definition requirement (nextTier : string) : option (Q * Z) :=
  if String.eqb nextTier "bronze" then Some (0%Q, 0)
  else if String.eqb nextTier "silver" then Some (50000%Q, 10)
  else if String.eqb nextTier "gold" then Some (150000%Q, 25)
  else if String.eqb nextTier "platinum" then Some (300000%Q, 50)
  else None.

(** [Math.max(0, x)] on finite numbers. *)
Definition max0 (x : Q) : Q := if Qle_bool x 0 then 0%Q else x.

(** Virtual [nextTierRequirement]: [None] for the last tier, else the
    next tier with what is still needed. *)
Definition nextTierRequirement (c : t) : option (string * Q * Z) :=
  let currentIndex := indexOf (tier c) tiers 0 in
  if currentIndex =? Z.of_nat (length tiers) - 1 then None
  else
    match tiers !! Z.to_nat (currentIndex + 1) with
    | Some nextTier =>
        match requirement nextTier with
        | Some (spent, orders) =>
            Some (nextTier, max0 (spent - totalSpent c),
                  Z.max 0 (orders - totalOrders c))
        | None => None
        end
    | None => None
    end.

(** The rank of a tier in [tiers]. *)
Definition rank (tr : string) : Z := indexOf tr tiers 0.

End Customer.

(** ** Array helpers ([utils/helpers.js]) *)

Module Helpers.

(** [Array.prototype.slice] clamps a relative index into [0, len]: a
    negative index counts from the end. *)
Definition relativeIndex (len i : Z) : Z :=
  if i <? 0 then Z.max (len + i) 0 else Z.min i len.

Definition slice {A} (array : list A) (startIndex endIndex : Z) : list A :=
  let len := Z.of_nat (length array) in
  let k := relativeIndex len startIndex in
  let final := relativeIndex len endIndex in
  take (Z.to_nat (final - k)) (drop (Z.to_nat k) array).

(** [Math.ceil(total / limit)]; a zero limit gives Infinity or NaN, which
    is [None] here. *)
Definition ceilDiv (total limit : Z) : option Z :=
  if limit =? 0 then None
  else Some (Qceiling (inject_Z total / inject_Z limit)).

Record pagination : Type := {
  page : Z;
  limit : Z;
  total : Z;
  totalPages : option Z;
  hasNext : bool;
  hasPrev : bool
}.

Record paginated (A : Type) : Type := {
  data : list A;
  info : pagination
}.
Arguments data {A} _.
Arguments info {A} _.

(** [paginate(array, page, limit)] for integer [page] and [limit]. *)
Definition paginate {A} (array : list A) (page limit : Z) : paginated A :=
  let startIndex := (page - 1) * limit in
  let endIndex := page * limit in
  let total := Z.of_nat (length array) in
  {| data := slice array startIndex endIndex;
     info := {| page := page; limit := limit; total := total;
                totalPages := ceilDiv total limit;
                hasNext := endIndex <? total;
                hasPrev := 0 <? startIndex |} |}.

(** The pages 1 to [n], one after the other. *)
Definition pages {A} (array : list A) (limit : Z) (n : nat) : list A :=
  concat (map (fun k => data (paginate array (Z.of_nat k + 1) limit))
              (seq 0 n)).

End Helpers.

(** ** The gateway token cache ([services/mpesaService.js]) *)

Module MpesaService.

(** The two fields of the service object the token code reads and
    writes; both start as [null]. *)
Record t : Type := {
  accessToken : option string;
  tokenExpiry : option Z
}.

Definition initial : t := {| accessToken := None; tokenExpiry := None |}.

(** What the OAuth endpoint answers: a failure of any kind, or a token
    with its life time in seconds. *)
Inductive oauth : Type :=
| OauthFailed
| OauthOk (access_token : string) (expires_in : Z).

(** [this.accessToken && this.tokenExpiry && Date.now() < this.tokenExpiry]:
    the empty string and 0 are falsy. *)
Definition cached (now : Z) (s : t) : option string :=
  match accessToken s, tokenExpiry s with
  | Some tok, Some expiry =>
      if negb (String.eqb tok "") && negb (expiry =? 0) && (now <? expiry)
      then Some tok else None
  | _, _ => None
  end.

(** [getAccessToken()] at time [now] (milliseconds); [upstream] is what
    the endpoint would answer if asked. *)
Definition getAccessToken (now : Z) (s : t) (upstream : oauth)
  : result string * t :=
  match cached now s with
  | Some tok => (Ok tok, s)
  | None =>
      match upstream with
      | OauthFailed => (Throw "Failed to get M-Pesa access token", s)
      | OauthOk tok expires_in =>
          (Ok tok,
           {| accessToken := Some tok;
              tokenExpiry := Some (now + expires_in * 1000 - 60000) |})
      end
  end.

End MpesaService.

(** * Properties *)

(** ** Inventory ledger *)

Section UpdateStock.

Lemma slice_last_snoc {A} (n : nat) (l : list A) (x : A) :
  (0 < n)%nat ->
  slice_last n (l ++ [x]) = slice_last (n - 1) l ++ [x].
Proof.
  intros Hn. unfold slice_last. rewrite length_app. simpl.
  rewrite drop_app_le by lia.
  f_equal. f_equal. lia.
Qed.

Lemma slice_last_short {A} (n : nat) (l : list A) :
  (length l <= n)%nat -> slice_last n l = l.
Proof.
  intros H. unfold slice_last.
  replace (length l - n)%nat with 0%nat by lia. reflexivity.
Qed.

Lemma preSavePerformance_stock now p :
  Product.currentStock (Product.preSavePerformance now p)
  = Product.currentStock p
  /\ Product.stockMovements (Product.preSavePerformance now p)
     = Product.stockMovements p
  /\ Product.trackInventory (Product.preSavePerformance now p)
     = Product.trackInventory p
  /\ Product.allowBackorder (Product.preSavePerformance now p)
     = Product.allowBackorder p.
Proof. repeat split. Qed.

Lemma inEnum_elem_of (values : list string) (x : string) :
  inEnum values x = true <-> x ∈ values.
Proof.
  unfold inEnum. rewrite existsb_exists. split.
  - intros (y & Hin & Heq). apply String.eqb_eq in Heq. subst y.
    now apply list_elem_of_In.
  - intros Hin. exists x. split; [now apply list_elem_of_In|].
    apply String.eqb_refl.
Qed.

(** Validation passes exactly on a stock that is not negative with a
    listed movement type. *)
Lemma invalidPaths_nil newStock type index :
  Product.invalidPaths newStock type index = []
  <-> 0 <= newStock /\ inEnum Product.movementTypes type = true.
Proof.
  unfold Product.invalidPaths.
  destruct (Z.ltb_spec newStock 0) as [Hneg|Hpos];
    destruct (inEnum Product.movementTypes type) eqn:Htype; cbn;
    (split; [intros H|intros [H1 H2]]);
    try discriminate; try reflexivity; try lia.
Qed.

(** What a successful [updateStock] stores. *)
Lemma updateStock_ok now p quantity type reference userId reason :
  0 <= Product.proposedStock (Product.currentStock p) quantity type ->
  inEnum Product.movementTypes type = true ->
  exists p',
    Product.updateStock now p quantity type reference userId reason = Ok p'
    /\ Product.currentStock p'
       = Product.proposedStock (Product.currentStock p) quantity type
    /\ Product.stockMovements p'
       = slice_last 100
           (Product.stockMovements p
              ++ [Product.movement now (Product.currentStock p)
                    (Product.proposedStock (Product.currentStock p)
                                           quantity type)
                    quantity type reference userId reason])
    /\ Product.trackInventory p' = Product.trackInventory p
    /\ Product.allowBackorder p' = Product.allowBackorder p.
Proof.
  intros Hpos Htype. unfold Product.updateStock.
  assert (Hneg : (Product.proposedStock (Product.currentStock p) quantity type
                  <? 0) = false) by now apply Z.ltb_ge.
  rewrite Hneg. cbn [andb].
  set (pushed := Product.stockMovements p ++ [_]).
  set (kept := if (100 <? length pushed)%nat then _ else _).
  rewrite (proj2 (invalidPaths_nil _ type (length kept - 1)))
    by now split.
  eexists. split; [reflexivity|]. repeat split.
  cbn. subst kept. destruct (100 <? length pushed)%nat eqn:Hlen;
    [reflexivity|].
  apply Nat.ltb_ge in Hlen. symmetry. now apply slice_last_short.
Qed.

Lemma updateStock_throw now p quantity type reference userId reason :
  ((Product.proposedStock (Product.currentStock p) quantity type <? 0)
   && negb (Product.allowBackorder p)) = true ->
  Product.updateStock now p quantity type reference userId reason
  = Throw "Insufficient stock".
Proof. intros Hc. unfold Product.updateStock. now rewrite Hc. Qed.

(** A stock the update leaves is never negative, and its movement type
    is a listed one. *)
Lemma updateStock_Ok_valid now p quantity type reference userId reason p' :
  Product.updateStock now p quantity type reference userId reason = Ok p' ->
  0 <= Product.proposedStock (Product.currentStock p) quantity type
  /\ inEnum Product.movementTypes type = true.
Proof.
  unfold Product.updateStock.
  destruct (_ && _); [discriminate|].
  match goal with
  | |- context [Product.invalidPaths ?n ?t ?i] =>
      destruct (Product.invalidPaths n t i) eqn:Hv
  end; [|discriminate].
  intros _. now apply invalidPaths_nil in Hv.
Qed.

(** Below zero with backorder allowed, the guard lets the update through
    and [save()] rejects it on [inventory.currentStock]. *)
Lemma updateStock_backorder_invalid now p quantity type reference userId
      reason :
  Product.proposedStock (Product.currentStock p) quantity type < 0 ->
  Product.allowBackorder p = true ->
  exists paths,
    Product.updateStock now p quantity type reference userId reason
    = Throw (ValidationError ("inventory.currentStock" :: paths)).
Proof.
  intros Hneg Hback. unfold Product.updateStock, Product.invalidPaths.
  apply Z.ltb_lt in Hneg. rewrite Hneg, Hback. cbn [andb negb app].
  eexists. reflexivity.
Qed.

(** C2. [updateStock(quantity, type, reference, userId, reason)]: the
    proposed stock is the current stock minus the quantity for sale,
    damage and transfer, plus the quantity for purchase, return and
    adjustment; the call throws "Insufficient stock" exactly when the
    proposed stock is negative and backorder is off; a proposed stock
    that is not negative, with a listed type, is stored with one movement
    carrying type, quantity, previous and new stock pushed at the end of
    the history (which keeps its last 100 entries). A negative proposed
    stock with backorder on passes the guard, but [save()] rejects it on
    the minimum 0 of [inventory.currentStock]: no update ever stores a
    negative stock, so the backorder switch has no effect. The last
    conjunct is the run on a product with stock 10 and backorder on that
    is asked for 11. *)
Theorem updateStock_backorder_fails_validation :
  (forall now p quantity type reference userId reason,
      let previousStock := Product.currentStock p in
      let newStock := Product.proposedStock previousStock quantity type in
      let m := Product.movement now previousStock newStock quantity type
                                reference userId reason in
      (type ∈ ["sale"; "damage"; "transfer"] ->
       newStock = previousStock - quantity)
      /\ (type ∈ ["purchase"; "return"; "adjustment"] ->
          newStock = previousStock + quantity)
      /\ (Product.updateStock now p quantity type reference userId reason
          = Throw "Insufficient stock"
          <-> newStock < 0 /\ Product.allowBackorder p = false)
      /\ (0 <= newStock -> type ∈ Product.movementTypes ->
          exists p',
            Product.updateStock now p quantity type reference userId reason
            = Ok p'
            /\ Product.currentStock p' = newStock
            /\ Product.stockMovements p'
               = slice_last 100 (Product.stockMovements p ++ [m])
            /\ last (Product.stockMovements p') = Some m
            /\ ((length (Product.stockMovements p) < 100)%nat ->
                Product.stockMovements p' = Product.stockMovements p ++ [m])
            /\ Product.sm_type m = type
            /\ Product.sm_quantity m = quantity
            /\ Product.sm_previousStock m = previousStock
            /\ Product.sm_newStock m = newStock)
      /\ (newStock < 0 -> Product.allowBackorder p = true ->
          exists paths,
            Product.updateStock now p quantity type reference userId reason
            = Throw (ValidationError ("inventory.currentStock" :: paths)))
      /\ (forall p',
             Product.updateStock now p quantity type reference userId reason
             = Ok p' ->
             0 <= Product.currentStock p' /\ type ∈ Product.movementTypes))
  /\ Product.updateStock 5 Scenario.backorder_widget 11 "sale" "r1" "u1" None
     = Throw (ValidationError ["inventory.currentStock"]).
Proof.
  split; [|reflexivity].
  intros now p quantity type reference userId reason previousStock newStock m.
  assert (Hcond :
    ((newStock <? 0) && negb (Product.allowBackorder p)) = true
    <-> newStock < 0 /\ Product.allowBackorder p = false).
  { rewrite andb_true_iff, Z.ltb_lt, negb_true_iff. tauto. }
  split; [|split; [|split; [|split; [|split]]]].
  - intros Hin. subst newStock. unfold Product.proposedStock.
    repeat (apply elem_of_cons in Hin; destruct Hin as [->|Hin]);
      try reflexivity.
    now apply elem_of_nil in Hin.
  - intros Hin. subst newStock. unfold Product.proposedStock.
    repeat (apply elem_of_cons in Hin; destruct Hin as [->|Hin]);
      try reflexivity.
    now apply elem_of_nil in Hin.
  - rewrite <- Hcond. split.
    + intros Hthrow. unfold Product.updateStock in Hthrow.
      fold previousStock newStock in Hthrow.
      destruct ((newStock <? 0) && negb (Product.allowBackorder p)) eqn:Hc;
        [reflexivity|].
      match type of Hthrow with
      | context [Product.invalidPaths ?n ?t ?i] =>
          destruct (Product.invalidPaths n t i)
      end; discriminate.
    + apply updateStock_throw.
  - intros Hpos Htype. apply inEnum_elem_of in Htype.
    destruct (updateStock_ok now p quantity type reference userId reason
                Hpos Htype)
      as (p' & Hok & Hstock & Hmovs & _).
    exists p'. fold previousStock newStock m in Hstock, Hmovs.
    repeat split; try assumption.
    + rewrite Hmovs, slice_last_snoc by lia. apply last_snoc.
    + intros Hlen. rewrite Hmovs. apply slice_last_short.
      rewrite length_app. simpl. lia.
  - apply updateStock_backorder_invalid.
  - intros p' Hok.
    destruct (updateStock_Ok_valid _ _ _ _ _ _ _ _ Hok) as [Hpos Htype].
    destruct (updateStock_ok now p quantity type reference userId reason
                Hpos Htype)
      as (p'' & Hok' & Hstock & _).
    rewrite Hok in Hok'. injection Hok' as <-.
    split; [now rewrite Hstock|now apply inEnum_elem_of].
Qed.

End UpdateStock.

(** ** Sequence service *)

Section Sequence.

Lemma getNextSequence_existing now counters counterId o counter :
  counters !! counterId = Some counter ->
  Counter.getNextSequence now counters counterId o
  = (Counter.seq (Counter.advance now counter),
     <[counterId := Counter.advance now counter]> counters)
  /\ Counter.seq (Counter.advance now counter)
     = (if Counter.shouldReset now counter then 1
        else Counter.seq counter + 1).
Proof.
  intros H. unfold Counter.getNextSequence. rewrite H. split; [reflexivity|].
  unfold Counter.advance. now destruct (Counter.shouldReset now counter).
Qed.

(** Once the counter exists, a call returns at least 1. *)
Lemma getNextSequence_existing_positive now counters counterId o counter :
  counters !! counterId = Some counter ->
  0 <= Counter.seq counter ->
  1 <= fst (Counter.getNextSequence now counters counterId o).
Proof.
  intros H Hseq.
  destruct (getNextSequence_existing now counters counterId o counter H)
    as [-> Hadv].
  cbn [fst]. rewrite Hadv. destruct (Counter.shouldReset now counter); lia.
Qed.

(** The order-number path starts a fresh counter at 1. *)
Example incrementUpsert_first_call (now : date) (counterId : string) :
  fst (Counter.incrementUpsert now ∅ counterId) = 1.
Proof. unfold Counter.incrementUpsert. now rewrite lookup_empty. Qed.

(** C4. The first call on a key creates the counter with the schema
    default [seq = 0] and returns that 0 without incrementing; the next
    call returns 1. So the first number handed out is 0, not 1. *)
Theorem getNextSequence_first_call_returns_zero (now next : date)
        (counterId : string) :
  Counter.getNextSequence now ∅ counterId Counter.no_options
  = (0, <[counterId := Counter.create now Counter.no_options]> ∅)
  /\ fst (Counter.calls [now; next] ∅ counterId) = [0; 1].
Proof.
  split.
  - unfold Counter.getNextSequence. now rewrite lookup_empty.
  - cbn [Counter.calls]. unfold Counter.getNextSequence at 1.
    rewrite lookup_empty.
    unfold Counter.getNextSequence. rewrite lookup_insert_eq.
    reflexivity.
Qed.

End Sequence.

(** ** Sale totals *)

Section SaleTotals.
Import Controllers Scenario.

Lemma js_mul_NaN_r (a : jsnum) : js_mul a NaN = NaN.
Proof. now destruct a. Qed.

Lemma js_add_NaN_r (a : jsnum) : js_add a NaN = NaN.
Proof. now destruct a. Qed.

(** The tax of every stored item is [NaN]: the rate it is computed from
    is not a path of the item schema. *)
Lemma itemTax_NaN (it : Sale.item) : Sale.itemTax it = NaN.
Proof. unfold Sale.itemTax, Sale.taxAtRate. cbn. apply js_mul_NaN_r. Qed.

Lemma sumOver_NaN (f : Sale.item -> jsnum) (its : list Sale.item) :
  foldl (fun acc it => js_add acc (f it)) NaN its = NaN.
Proof. induction its as [|it its IH]; [reflexivity|exact IH]. Qed.

(** Over at least one item the summed tax is [NaN]. *)
Lemma sumOver_itemTax (its : list Sale.item) :
  its <> [] -> Sale.sumOver Sale.itemTax its = NaN.
Proof.
  destruct its as [|it its]; [congruence|]. intros _.
  unfold Sale.sumOver. cbn [foldl]. rewrite itemTax_NaN, js_add_NaN_r.
  apply sumOver_NaN.
Qed.

(** Neither assignment of the [forEach] takes: the hook leaves every item
    as it was. *)
Lemma computeItem_id (it : Sale.item) : Sale.computeItem it = it.
Proof.
  unfold Sale.computeItem. rewrite itemTax_NaN, js_add_NaN_r.
  now destruct it.
Qed.

(** C5. The sale of the example (quantity 2, unit price 100, discount 10
    percent, tax rate 16 percent, sent with the subtotal and the amount
    paid the schema requires) is answered 201 and stored with subtotal
    200 and discount 20, but with tax 0, item subtotal as the client sent
    it (0) and sale total 0, instead of 28.8, 208.8 and 208.8. In
    general the hook computes [NaN] for the tax of every item, because
    the rate is not a path of the item schema, and the [Number] paths
    refuse it: every item stays as it was, and over at least one item the
    tax and the total of the sale stay as they were. *)
Theorem preSaveTotals_tax_rate_undefined :
  (exists sale st',
      createSale day1 (shop true) taxed_sale "u1" "s1"
      = ({| statusCode := 201;
            payload := SaleData "Sale completed successfully" sale |}, st')
      /\ sales st' !! "s1" = Some sale
      /\ Sale.totals sale
         = {| Sale.totals_subtotal := Num 200;
              Sale.totals_discount := Num 20;
              Sale.totals_tax := Num 0;
              Sale.totals_total := Num 0 |}
      /\ map Sale.tax_amount (Sale.items sale) = [Num 0]
      /\ map Sale.subtotal (Sale.items sale) = [Num 0])
  /\ (forall it : Sale.item,
         Sale.itemTax it = NaN /\ Sale.computeItem it = it)
  /\ (forall (isNew itemsModified : bool) (s : Sale.t),
         Sale.items s <> [] ->
         Sale.items (Sale.preSaveTotals isNew itemsModified s) = Sale.items s
         /\ Sale.totals_tax
              (Sale.totals (Sale.preSaveTotals isNew itemsModified s))
            = Sale.totals_tax (Sale.totals s)
         /\ Sale.totals_total
              (Sale.totals (Sale.preSaveTotals isNew itemsModified s))
            = Sale.totals_total (Sale.totals s)).
Proof.
  split; [|split].
  - eexists. eexists. split; [vm_compute; reflexivity|].
    repeat split.
  - intros it. split; [apply itemTax_NaN|apply computeItem_id].
  - intros isNew itemsModified s Hne. unfold Sale.preSaveTotals.
    destruct (isNew || itemsModified); [|repeat split].
    cbn [Sale.set_items Sale.items Sale.totals Sale.computeTotals
         Sale.totals_tax Sale.totals_total].
    rewrite (sumOver_itemTax _ Hne), js_add_NaN_r.
    split; [|split; reflexivity].
    rewrite <- (map_id (Sale.items s)) at 2.
    apply map_ext. intros it. apply computeItem_id.
Qed.

(** The part of the hook that does not depend on the rate: subtotal and
    discount of the example. *)
Example itemSubtotal_taxed_line :
  let it := Sale.castItem "Widget" (num_of_Z 100) taxed_line in
  Sale.itemSubtotal it = Num 200
  /\ Sale.itemDiscount it = Num 20
  /\ Sale.taxableAmount it = Num 180.
Proof. repeat split. Qed.

(** The formula itself gives the expected amounts once it is handed the
    rate: 16 percent of 180 is 28.8, and the item comes to 208.8. *)
Example taxAtRate_taxed_line :
  let it := Sale.castItem "Widget" (num_of_Z 100) taxed_line in
  Sale.taxAtRate it (num_of_Z 16) = Num (144 # 5)
  /\ js_add (Sale.taxableAmount it) (Sale.taxAtRate it (num_of_Z 16))
     = Num (1044 # 5).
Proof. split; reflexivity. Qed.

End SaleTotals.

(** ** Void *)

Section Void.
Import Controllers Scenario.

(** Selling 3 of a tracked product with stock 10 leaves 7; voiding the
    sale restores 10 and appends a return movement of 3. *)
Example void_restores_tracked_stock :
  let st1 := snd (createSale day1 (shop true) (cash_sale 3) "u1" "s1") in
  let st2 := snd (voidSale later st1 "s1" "u1" "mistake") in
  stockOf st1 "p1" = Some 7
  /\ stockOf st2 "p1" = Some 10
  /\ movementsOf st2 "p1" = [("sale", 3, 10, 7); ("return", 3, 7, 10)]
  /\ Sale.status <$> sales st2 !! "s1" = Some Sale.voided.
Proof. vm_compute. repeat split. Qed.

(** A second void of the same sale is refused and changes nothing. *)
Example void_twice_fails :
  let st1 := snd (createSale day1 (shop true) (cash_sale 3) "u1" "s1") in
  let st2 := snd (voidSale later st1 "s1" "u1" "mistake") in
  let '(res, st3) := voidSale later st2 "s1" "u1" "again" in
  res = appError "Sale is already voided" 400
  /\ stockOf st3 "p1" = Some 10.
Proof. vm_compute. repeat split. Qed.

(** C6. A product that does not track inventory: [createSale] skips its
    stock update, so selling 3 from stock 10 leaves 10; [void] issues
    the return movement all the same, so the stock ends at 13 and not
    at its pre-sale value. *)
Theorem void_untracked_product_gains_stock :
  let st1 := snd (createSale day1 (shop false) (cash_sale 3) "u1" "s1") in
  let st2 := snd (voidSale later st1 "s1" "u1" "mistake") in
  stockOf (shop false) "p1" = Some 10
  /\ stockOf st1 "p1" = Some 10
  /\ movementsOf st1 "p1" = []
  /\ stockOf st2 "p1" = Some 13
  /\ movementsOf st2 "p1" = [("return", 3, 10, 13)]
  /\ Sale.status <$> sales st2 !! "s1" = Some Sale.voided.
Proof. vm_compute. repeat split. Qed.

End Void.

(** ** Linking a sale to its M-Pesa transaction *)

Section SaleLinkage.
Import Controllers Scenario.

Lemma with_products_transactions st ps :
  transactions (with_products st ps) = transactions st.
Proof. reflexivity. Qed.

(** [createSale] never writes the transaction collection. *)
Lemma createSale_transactions now st req userId newId :
  transactions (snd (createSale now st req userId newId)) = transactions st.
Proof.
  unfold createSale.
  destruct (validateSaleItems _ _) as [e|its]; [reflexivity|].
  destruct (mpesaCheck _ _ _) as [e|]; [reflexivity|].
  destruct (Sale.invalid _) as [|path paths]; [|reflexivity].
  destruct (Sale.preSaveReceipt _ _ _ _) as [numbered cs].
  destruct (saleStockLoop _ _ _ _ _) as [ps [e|]]; reflexivity.
Qed.

(** With no successful transaction under the given receipt the sale is
    refused as an invalid transaction. *)
Example createSale_pending_transaction_refused :
  createSale day1 (paid_shop Mpesa.pending) mpesa_sale "u1" "s1"
  = (appError "Invalid M-Pesa transaction" 400, paid_shop Mpesa.pending).
Proof. vm_compute. reflexivity. Qed.

(** C9. An M-Pesa sale whose transaction exists in [success] state: the
    handler fails on the read of [sale._id] before the sale is declared,
    so the request ends in a 500, no sale is stored and the back
    reference of the transaction stays unset; in general [createSale]
    leaves every transaction as it was. *)
Theorem createSale_mpesa_link_throws :
  (let '(res, st') :=
     createSale day1 (paid_shop Mpesa.success) mpesa_sale "u1" "s1" in
   res = uncaught "Cannot access 'sale' before initialization"
   /\ sales st' !! "s1" = None
   /\ map Mpesa.sale (transactions st') = [None]
   /\ st' = paid_shop Mpesa.success)
  /\ (forall now st req userId newId,
         transactions (snd (createSale now st req userId newId))
         = transactions st).
Proof.
  split.
  - vm_compute. repeat split.
  - apply createSale_transactions.
Qed.

End SaleLinkage.

(** ** Payment reconciliation *)

Section Reconciliation.
Import Controllers Scenario.

Lemma findByCheckout_key txs id x :
  Mpesa.findByCheckout txs id = Some x -> Mpesa.checkoutRequestId x = id.
Proof.
  unfold Mpesa.findByCheckout. intros H.
  apply find_some in H as [_ H]. now apply String.eqb_eq in H.
Qed.

(** Saving a changed document makes it the one found under its key. *)
Lemma findByCheckout_save txs id x x' :
  Mpesa.findByCheckout txs id = Some x ->
  Mpesa.checkoutRequestId x' = id ->
  Mpesa.findByCheckout (Mpesa.save txs x') id = Some x'.
Proof.
  unfold Mpesa.findByCheckout, Mpesa.save. intros H Hid. subst id.
  induction txs as [|y txs IH]; [discriminate|].
  cbn in *.
  destruct (String.eqb (Mpesa.checkoutRequestId y)
                       (Mpesa.checkoutRequestId x')) eqn:Hy.
  - cbn. now rewrite String.eqb_refl.
  - cbn. rewrite Hy. apply IH, H.
Qed.



(** A [cancelled] record is not covered by the poll path's guard: the
    next poll queries upstream again and stores what it reports. *)
Example poll_requeries_cancelled :
  Mpesa.status
    <$> Mpesa.findByCheckout
          (transactions
             (snd (checkMpesaPaymentStatus day1 (paid_shop Mpesa.cancelled)
                     "ws_CO_1" (Some ("0", "ok")))))
          "ws_CO_1"
  = Some Mpesa.success.
Proof. vm_compute. reflexivity. Qed.

(** A callback is processed exactly when it is readable. *)
Lemma applyCallback_readable newDate x body cb :
  Mpesa.readable newDate cb ->
  exists x', Mpesa.applyCallback newDate x body cb = Ok x'.
Proof.
  intros [Hcode Hdate]. unfold Mpesa.applyCallback.
  destruct (Mpesa.ResultCode cb) as [|z|s] eqn:Hrc; cbn;
    [congruence| |eauto].
  destruct z as [|z|z]; [|eauto|eauto].
  destruct (Mpesa.CallbackMetadata cb) as [[its|]|] eqn:Hmeta; [|eauto|eauto].
  destruct (Mpesa.findItem "TransactionDate" its) as [d|] eqn:Hd; [|eauto].
  destruct (Hdate its d eq_refl eq_refl Hd) as (dateStr & -> & Hvalid).
  destruct (newDate (Mpesa.parseDate dateStr)); [eauto|congruence].
Qed.

Lemma applyCallback_Ok_readable newDate x body cb x' :
  Mpesa.applyCallback newDate x body cb = Ok x' ->
  Mpesa.readable newDate cb.
Proof.
  unfold Mpesa.applyCallback, Mpesa.readable.
  destruct (Mpesa.ResultCode cb) as [|z|s] eqn:Hrc; cbn; [discriminate| |].
  - intros H. split; [discriminate|].
    intros its d [= ->] Hmeta Hd. rewrite Hmeta, Hd in H.
    destruct (Mpesa.valToString (Mpesa.Value d)) as [dateStr|];
      [|discriminate].
    exists dateStr. split; [reflexivity|].
    destruct (newDate (Mpesa.parseDate dateStr)); [discriminate|discriminate].
  - intros _. split; discriminate.
Qed.

(** On a found transaction an unreadable callback is answered by the
    [catch] block and stores nothing. *)
Lemma mpesaCallback_unreadable newDate st req cb x :
  Mpesa.Body req = Some (Some cb) ->
  Mpesa.findByCheckout (transactions st) (Mpesa.CheckoutRequestID cb)
  = Some x ->
  ~ Mpesa.readable newDate cb ->
  mpesaCallback newDate st req = (callbackFailed, st).
Proof.
  intros Hbody Hfind Hno. unfold mpesaCallback. rewrite Hbody, Hfind.
  destruct (Mpesa.applyCallback newDate x req cb) as [x'|e] eqn:Happly;
    [|reflexivity].
  exfalso. apply Hno. eapply applyCallback_Ok_readable, Happly.
Qed.



(** A request body without [Body] is answered with a 500. *)
Lemma callback_malformed_body_500 :
  mpesaCallback newDate empty_store malformed
  = ({| statusCode := 500;
        payload := Message "Callback processing failed" |}, empty_store).
Proof. reflexivity. Qed.

(** A successful callback whose transaction date does not parse is
    answered with a 500 and leaves the transaction pending. *)
Example callback_invalid_date_500 :
  mpesaCallback newDate (paid_shop Mpesa.pending) (dated_callback 0)
  = (callbackFailed, paid_shop Mpesa.pending)
  /\ statusCode
       (fst (mpesaCallback newDate (paid_shop Mpesa.pending)
                           (dated_callback 20231025143022)))
     = 200.
Proof. vm_compute. split; reflexivity. Qed.

(** C10 (amended). The callback endpoint answers 200 with an
    acknowledgement when the request carries [Body.stkCallback] and
    either the checkout request id is unknown or the callback is
    readable: its result code is defined and, where a successful callback
    carries a transaction date, that date is defined and valid. A request
    without [Body] or [stkCallback], and a callback on a known
    transaction that is not readable, is answered by the [catch] block
    with 500 "Callback processing failed", and every such 500 leaves the
    store unchanged. *)
Theorem mpesaCallback_acknowledges (newDate : string -> option date)
        (st : store) (req : Mpesa.callback_body) :
  ((statusCode (fst (mpesaCallback newDate st req)) = 200
    /\ (payload (fst (mpesaCallback newDate st req))
        = Message "Transaction not found"
        \/ payload (fst (mpesaCallback newDate st req))
           = Message "Callback processed successfully"))
   \/ mpesaCallback newDate st req = (callbackFailed, st))
  /\ (forall cb,
         Mpesa.Body req = Some (Some cb) ->
         Mpesa.findByCheckout (transactions st) (Mpesa.CheckoutRequestID cb)
         = None ->
         mpesaCallback newDate st req
         = (json (Message "Transaction not found"), st))
  /\ (forall cb x,
         Mpesa.Body req = Some (Some cb) ->
         Mpesa.findByCheckout (transactions st) (Mpesa.CheckoutRequestID cb)
         = Some x ->
         Mpesa.readable newDate cb ->
         fst (mpesaCallback newDate st req)
         = json (Message "Callback processed successfully"))
  /\ (Mpesa.Body req = None \/ Mpesa.Body req = Some None ->
      mpesaCallback newDate st req = (callbackFailed, st))
  /\ (forall cb x,
         Mpesa.Body req = Some (Some cb) ->
         Mpesa.findByCheckout (transactions st) (Mpesa.CheckoutRequestID cb)
         = Some x ->
         ~ Mpesa.readable newDate cb ->
         mpesaCallback newDate st req = (callbackFailed, st))
  /\ (forall cb x its d,
         Mpesa.Body req = Some (Some cb) ->
         Mpesa.findByCheckout (transactions st) (Mpesa.CheckoutRequestID cb)
         = Some x ->
         Mpesa.ResultCode cb = Mpesa.VUndefined
         \/ (Mpesa.ResultCode cb = Mpesa.VNum 0
             /\ Mpesa.CallbackMetadata cb = Some (Some its)
             /\ Mpesa.findItem "TransactionDate" its = Some d
             /\ (Mpesa.Value d = Mpesa.VUndefined
                 \/ exists dateStr,
                     Mpesa.valToString (Mpesa.Value d) = Some dateStr
                     /\ newDate (Mpesa.parseDate dateStr) = None)) ->
         mpesaCallback newDate st req = (callbackFailed, st)).
Proof.
  split; [|split; [|split; [|split; [|split]]]].
  - unfold mpesaCallback.
    destruct (Mpesa.Body req) as [[cb|]|]; [|now right|now right].
    destruct (Mpesa.findByCheckout _ _) as [x|]; [|left; cbn; auto].
    destruct (Mpesa.applyCallback newDate x req cb);
      [left; cbn; auto|now right].
  - intros cb Hbody Hfind. unfold mpesaCallback. now rewrite Hbody, Hfind.
  - intros cb x Hbody Hfind Hr. unfold mpesaCallback. rewrite Hbody, Hfind.
    destruct (applyCallback_readable newDate x req cb Hr) as [x' ->].
    reflexivity.
  - unfold mpesaCallback. intros [-> | ->]; reflexivity.
  - intros cb x. apply mpesaCallback_unreadable.
  - intros cb x its d Hbody Hfind Hbad.
    apply (mpesaCallback_unreadable newDate st req cb x Hbody Hfind).
    intros [Hcode Hdate].
    destruct Hbad as [Hu|(Hzero & Hmeta & Hd & Hval)]; [congruence|].
    destruct (Hdate its d Hzero Hmeta Hd) as (dateStr & Hstr & Hvalid).
    destruct Hval as [Hu|(dateStr' & Hstr' & Hinvalid)].
    + rewrite Hu in Hstr. discriminate.
    + rewrite Hstr in Hstr'. injection Hstr' as <-. contradiction.
Qed.

End Reconciliation.

(** ** Refund *)

Section Refund.
Import Controllers Scenario.

(** A loop that runs to its end accepted every line, and recorded
    exactly the requested lines after the ones it started with. *)
Lemma refundLoop_ok now sale userId reason requests :
  forall acc total ps acc' total' ps',
    Sale.refundLoop now sale userId reason requests acc total ps
    = (Ok (acc', total'), ps') ->
    Forall (Sale.within_sold sale) requests
    /\ map Sale.line_of acc' = map Sale.line_of acc ++ map Sale.request_of requests.
Proof.
  induction requests as [|rq rest IH]; intros acc total ps acc' total' ps'.
  - cbn. intros [= <- _ _]. split; [constructor|]. now rewrite app_nil_r.
  - cbn [Sale.refundLoop].
    destruct (Sale.findItem sale (Sale.productId rq)) as [it|] eqn:Hit;
      [|discriminate].
    destruct (Sale.quantity it <? Sale.rq_quantity rq) eqn:Hq;
      [discriminate|].
    apply Z.ltb_ge in Hq.
    assert (Hhead : Sale.within_sold sale rq) by (exists it; auto).
    destruct (ps !! Sale.productId rq) as [p|].
    + destruct (Product.updateStock _ _ _ _ _ _ _) as [p'|e];
        [|discriminate].
      intros H. apply IH in H as [Hall Hmap]. split; [now constructor|].
      rewrite Hmap, map_app. cbn. now rewrite <- app_assoc.
    + intros H. apply IH in H as [Hall Hmap]. split; [now constructor|].
      rewrite Hmap, map_app. cbn. now rewrite <- app_assoc.
Qed.

(** Two full refunds of one sale both succeed, and a request whose
    second line is refused keeps the stock movement of its first. *)
Lemma refund_twice_exceeds_sold :
  let st1 := snd (createSale day1 (shop true) (cash_sale 3) "u1" "s1") in
  let '(r2, st2) := refundSale later st1 "s1" "u1" [refund_line 3] "broken" in
  let '(r3, st3) := refundSale later st2 "s1" "u1" [refund_line 3] "broken" in
  let '(r4, st4) :=
    refundSale later st1 "s1" "u1" [refund_line 1; refund_line 99] "broken" in
  (statusCode r2 = 200 /\ statusCode r3 = 200
   /\ stockOf st1 "p1" = Some 7 /\ stockOf st3 "p1" = Some 13
   /\ movementsOf st3 "p1"
      = [("sale", 3, 10, 7); ("return", 3, 7, 10); ("return", 3, 10, 13)])
  /\ (r4 = appError "Cannot refund more than sold quantity" 400
      /\ stockOf st4 "p1" = Some 8
      /\ movementsOf st4 "p1" = [("sale", 3, 10, 7); ("return", 1, 7, 8)]).
Proof. vm_compute. repeat split. Qed.

(** C3 (amended). Each refund call checks every requested line against
    the quantity originally sold of that item only, not against earlier
    refunds: a call that succeeds has accepted only lines within the
    sold quantity and records exactly the requested lines as the sale's
    refund info; a call with a line above the sold quantity fails; and a
    failed call leaves every stored sale (status and refund info)
    unchanged. *)
Theorem refund_checks_each_line_against_sold
        (now : date) (st : store) (saleId userId : string)
        (requests : list Sale.refund_request) (reason : string)
        (sale : Sale.t) :
  sales st !! saleId = Some sale ->
  let res := fst (refundSale now st saleId userId requests reason) in
  let st' := snd (refundSale now st saleId userId requests reason) in
  (statusCode res = 200 \/ statusCode res = 400)
  /\ (statusCode res = 200 ->
      Forall (Sale.within_sold sale) requests
      /\ exists sale' info,
          sales st' !! saleId = Some sale'
          /\ Sale.refundInfo sale' = Some info
          /\ map Sale.line_of (Sale.refundedItems info) = map Sale.request_of requests
          /\ (Sale.status sale' = Sale.refunded
              \/ Sale.status sale' = Sale.partial_refund))
  /\ (~ Forall (Sale.within_sold sale) requests -> statusCode res = 400)
  /\ (statusCode res = 400 -> sales st' = sales st).
Proof.
  intros Hsale res st'. subst res st'. unfold refundSale. rewrite Hsale.
  unfold Sale.refund.
  assert (Hcases :
    forall r : result (list Sale.refunded_item * jsnum) * gmap string Product.t,
      (exists acc t ps, r = (Ok (acc, t), ps)) \/ (exists e ps, r = (Throw e, ps))).
  { intros [[[acc t]|e] ps]; eauto. }
  destruct (Sale.status sale) eqn:Hst.
  1, 3, 4:
    destruct (Hcases (Sale.refundLoop now sale userId reason requests []
                        (num_of_Z 0) (products st)))
      as [(acc & t & ps & Hloop)|(e & ps & Hloop)];
    rewrite Hloop; cbn;
    [ pose proof (refundLoop_ok _ _ _ _ _ _ _ _ _ _ _ Hloop) as [Hall Hmap];
      split; [now left|]; split; [|split];
      [ intros _; split; [exact Hall|];
        eexists; eexists; split; [apply lookup_insert_eq|];
        split; [reflexivity|]; split; [exact Hmap|];
        cbn; destruct (js_ge _ _); auto
      | intros Hno; contradiction
      | discriminate ]
    | destruct e; cbn;
      (split; [now right|]; split; [|split];
       [ discriminate | reflexivity | reflexivity ]) ].
  cbn. split; [now right|]. split; [discriminate|]. split; reflexivity.
Qed.

Lemma refund_checks_each_line_against_sold_witness :
  statusCode
    (fst (refundSale later sold_shop "s1" "u1" [refund_line 99] "broken"))
  = 400
  /\ sales (snd (refundSale later sold_shop "s1" "u1" [refund_line 99]
                            "broken"))
     = sales sold_shop.
Proof.
  assert (Hsale : sales sold_shop !! "s1" = Some sold_sale)
    by (vm_compute; reflexivity).
  destruct (refund_checks_each_line_against_sold
              later sold_shop "s1" "u1" [refund_line 99] "broken"
              sold_sale Hsale)
    as (_ & _ & Hfail & Hkeep).
  assert (H400 :
    statusCode
      (fst (refundSale later sold_shop "s1" "u1" [refund_line 99] "broken"))
    = 400).
  { apply Hfail. intros Hall. inversion Hall as [|? ? [it [Hfind Hle]] _].
    vm_compute in Hfind. injection Hfind as <-. vm_compute in Hle.
    now apply Hle. }
  split; [exact H400|apply Hkeep, H400].
Defined.

End Refund.

(** ** Order status workflow *)

Section OrderStatus.
Import Controllers OrderController Scenario.

Ltac case_strings :=
  repeat match goal with
         | |- context [String.eqb ?a ?b] =>
             destruct (String.eqb_spec a b); try discriminate; subst;
             cbn -[String.eqb]
         end.

(** The controller's table is the listed one. *)
Lemma permitted_listed current requested :
  permitted current requested = true
  <-> In (current, requested) listed_transitions.
Proof.
  unfold permitted, transitionsFrom, includes, validTransitions,
    listed_transitions.
  cbn -[String.eqb]. case_strings;
    (split; intros H;
     [ try discriminate H; cbn; auto 20
     | try reflexivity; exfalso; cbn in H;
       repeat (destruct H as [H|H]; [congruence|]); exact H ]).
Qed.

Lemma permitted_changes current requested :
  permitted current requested = true -> current <> requested.
Proof.
  intros H Heq. subst requested. apply permitted_listed in H.
  cbn in H. repeat (destruct H as [H|H]; [congruence|]). exact H.
Qed.

Lemma transitionsFrom_status current :
  In current statuses -> exists targets, transitionsFrom current = Some targets.
Proof.
  cbn. intros H.
  repeat (destruct H as [<-|H]; [eexists; reflexivity|]). destruct H.
Qed.

(** [updateStatus] writes the status and pushes two history entries:
    its own and the one of the pre-save hook. *)
Lemma updateStatus_history now order requested userId notes location :
  Order.status order <> requested ->
  let order' := Order.updateStatus now order requested userId notes location in
  Order.status order' = requested
  /\ Order.items order' = Order.items order
  /\ Order.orderNumber order' = Order.orderNumber order
  /\ Order.statusHistory order'
     = Order.statusHistory order
         ++ [ {| Order.h_status := requested; Order.h_timestamp := now;
                 Order.h_updatedBy := userId; Order.h_notes := notes;
                 Order.h_location := location |};
              {| Order.h_status := requested; Order.h_timestamp := now;
                 Order.h_updatedBy :=
                   default (Order.createdBy order) (Order.assignedTo order);
                 Order.h_notes := None; Order.h_location := None |} ].
Proof.
  intros Hne. unfold Order.updateStatus.
  destruct (String.eqb_spec (Order.status order) requested) as [|_];
    [contradiction|].
  cbn. repeat split. now rewrite <- app_assoc.
Qed.

(** The order collection after a permitted transition. *)
Lemma updateOrderStatus_orders now st orderId requested userId notes
      location order :
  orders st !! orderId = Some order ->
  permitted (Order.status order) requested = true ->
  orders (snd (updateOrderStatus now st orderId requested userId notes
                                 location))
  = <[orderId :=
        Order.updateStatus now order requested userId notes location]>
      (orders st).
Proof.
  intros Horder Hperm. unfold updateOrderStatus. rewrite Horder.
  unfold permitted in Hperm.
  destruct (transitionsFrom (Order.status order)) as [targets|];
    [|discriminate].
  rewrite Hperm. cbn.
  destruct (String.eqb requested "delivered"); [|reflexivity].
  destruct (deliverLoop _ _ _ _ _) as [ps [e|]]; reflexivity.
Qed.

(** What the handler answers once a permitted transition is stored: the
    notification step throws, or the delivery loop did before it. *)
Lemma updateOrderStatus_response now st orderId requested userId notes
      location order :
  orders st !! orderId = Some order ->
  permitted (Order.status order) requested = true ->
  let out :=
    updateOrderStatus now st orderId requested userId notes location in
  (statusCode (fst out) = 500 \/ statusCode (fst out) = 400)
  /\ (requested <> "delivered" ->
      fst out
      = {| statusCode := 500; payload := Failure "settings is not defined" |}).
Proof.
  intros Horder Hperm. unfold updateOrderStatus. rewrite Horder.
  unfold permitted in Hperm.
  destruct (transitionsFrom (Order.status order)) as [targets|];
    [|discriminate].
  rewrite Hperm. cbn -[String.eqb].
  destruct (String.eqb_spec requested "delivered") as [->|Hne].
  - destruct (deliverLoop _ _ _ _ _) as [ps [[message|paths]|]];
      cbn; (split; [auto|intros Hd; now contradiction Hd]).
  - cbn. split; [now left|reflexivity].
Qed.

(** C7. [updateOrderStatus] lets through exactly the listed transitions
    (nothing leaves [delivered] or [cancelled]).  Any other request on an
    order is answered 400 with the message "Cannot change status from
    <current> to <requested>" and leaves the store unchanged.  A permitted
    request stores the requested status and appends two history entries
    for it (the method's and the pre-save hook's), and is then answered
    with an error, never 200: the handler goes on to read [settings],
    which it does not declare, so every transition but the one into
    [delivered] is answered 500 "settings is not defined", and the one
    into [delivered] 500 or 400. *)
Theorem updateOrderStatus_transitions
        (now : date) (st : store) (orderId requested userId : string)
        (notes location : option string) (order : Order.t) :
  orders st !! orderId = Some order ->
  In (Order.status order) statuses ->
  let out :=
    updateOrderStatus now st orderId requested userId notes location in
  (permitted (Order.status order) requested = true
   <-> In (Order.status order, requested) listed_transitions)
  /\ (forall next, permitted "delivered" next = false
                   /\ permitted "cancelled" next = false)
  /\ (permitted (Order.status order) requested = false ->
      out
      = ({| statusCode := 400;
            payload :=
              Failure
                (String.append "Cannot change status from "
                   (String.append (Order.status order)
                      (String.append " to " requested))) |},
         st))
  /\ (permitted (Order.status order) requested = true ->
      (exists order' e1 e2,
        orders (snd out) !! orderId = Some order'
        /\ Order.status order' = requested
        /\ Order.statusHistory order'
           = Order.statusHistory order ++ [e1; e2]
        /\ Order.h_status e1 = requested
        /\ Order.h_updatedBy e1 = userId
        /\ Order.h_notes e1 = notes
        /\ Order.h_location e1 = location
        /\ Order.h_status e2 = requested
        /\ Order.h_updatedBy e2
           = default (Order.createdBy order) (Order.assignedTo order))
      /\ (statusCode (fst out) = 500 \/ statusCode (fst out) = 400)
      /\ (requested <> "delivered" ->
          fst out
          = {| statusCode := 500;
               payload := Failure "settings is not defined" |})).
Proof.
  intros Horder Hstatus out.
  split; [apply permitted_listed|].
  split; [intros next; split; reflexivity|].
  split.
  - intros Hperm. subst out. unfold updateOrderStatus. rewrite Horder.
    destruct (transitionsFrom_status _ Hstatus) as [targets Ht].
    unfold permitted in Hperm. rewrite Ht in *. now rewrite Hperm.
  - intros Hperm. subst out.
    split;
      [|exact (updateOrderStatus_response now st orderId requested userId
                 notes location order Horder Hperm)].
    rewrite (updateOrderStatus_orders _ _ _ _ _ _ _ _ Horder Hperm).
    rewrite lookup_insert_eq.
    destruct (updateStatus_history now order requested userId notes location
                (permitted_changes _ _ Hperm)) as (Hs & _ & _ & Hh).
    eexists. eexists. eexists. split; [reflexivity|].
    split; [exact Hs|]. split; [exact Hh|]. repeat split.
Qed.

Lemma updateOrderStatus_transitions_witness :
  updateOrderStatus day1 (order_shop true "pending") "o1" "delivered" "u1"
                    None None
  = ({| statusCode := 400;
        payload := Failure "Cannot change status from pending to delivered" |},
     order_shop true "pending")
  /\ fst (updateOrderStatus day1 (order_shop true "pending") "o1"
                            "confirmed" "u1" None None)
     = {| statusCode := 500; payload := Failure "settings is not defined" |}
  /\ exists order',
      orders (snd (updateOrderStatus day1 (order_shop true "pending") "o1"
                                     "confirmed" "u1" None None)) !! "o1"
      = Some order'
      /\ Order.status order' = "confirmed"
      /\ length (Order.statusHistory order') = 2%nat.
Proof.
  assert (Horder :
    orders (order_shop true "pending") !! "o1"
    = Some (Order.set_status ready_order "pending" []))
    by (vm_compute; reflexivity).
  assert (Hstatus :
    In (Order.status (Order.set_status ready_order "pending" [])) statuses)
    by (cbn; auto).
  split; [|split].
  - destruct (updateOrderStatus_transitions
                day1 (order_shop true "pending") "o1" "delivered" "u1"
                None None _ Horder Hstatus) as (_ & _ & Hfail & _).
    apply Hfail. reflexivity.
  - destruct (updateOrderStatus_transitions
                day1 (order_shop true "pending") "o1" "confirmed" "u1"
                None None _ Horder Hstatus) as (_ & _ & _ & Hok).
    destruct (Hok eq_refl) as (_ & _ & Hresp).
    apply Hresp. discriminate.
  - destruct (updateOrderStatus_transitions
                day1 (order_shop true "pending") "o1" "confirmed" "u1"
                None None _ Horder Hstatus) as (_ & _ & _ & Hok).
    destruct (Hok eq_refl)
      as ((order' & e1 & e2 & Hfound & Hs & Hh & _) & _).
    exists order'. split; [exact Hfound|]. split; [exact Hs|].
    rewrite Hh. reflexivity.
Defined.

End OrderStatus.

(** ** Orders and stock *)

Section OrderStock.
Import Controllers OrderController Scenario.

Lemma updateStock_Ok_inv now p quantity type reference userId reason p' :
  Product.updateStock now p quantity type reference userId reason = Ok p' ->
  Product.currentStock p'
  = Product.proposedStock (Product.currentStock p) quantity type
  /\ Product.trackInventory p' = Product.trackInventory p
  /\ Product.allowBackorder p' = Product.allowBackorder p.
Proof.
  intros H.
  destruct (updateStock_Ok_valid _ _ _ _ _ _ _ _ H) as [Hpos Htype].
  destruct (updateStock_ok now p quantity type reference userId reason
              Hpos Htype)
    as (q & Hq & Hs & _ & Ht & Hb).
  rewrite Hq in H. injection H as <-. auto.
Qed.





(** The document [createOrder] builds has no order number, so it never
    passes validation. *)
Lemma newOrder_invalid its req userId fee :
  exists paths,
    Order.invalid (newOrder its req userId fee) = "orderNumber" :: paths.
Proof. unfold Order.invalid. cbn. eexists. reflexivity. Qed.

(** [createOrder] stores nothing: every request ends in a 404 or a 400. *)
Lemma createOrder_refused now st req userId newId fee :
  snd (createOrder now st req userId newId fee) = st
  /\ (statusCode (fst (createOrder now st req userId newId fee)) = 404
      \/ statusCode (fst (createOrder now st req userId newId fee)) = 400).
Proof.
  unfold createOrder.
  assert (Hitems : forall ps inputs e,
             validateItems ps inputs = inl e ->
             statusCode e = 404 \/ statusCode e = 400).
  { intros ps inputs. induction inputs as [|i rest IH]; intros e;
      [discriminate|].
    cbn [validateItems].
    destruct (ps !! in_product i) as [p|]; [|intros [= <-]; now left].
    destruct (negb (Product.isActive p)); [intros [= <-]; now right|].
    destruct (insufficient p (in_quantity i)); [intros [= <-]; now right|].
    destruct (validateItems ps rest) as [e'|its]; [|discriminate].
    intros [= <-]. now apply IH. }
  destruct (validateItems _ _) as [e|its] eqn:Hv.
  - split; [reflexivity|]. cbn. eapply Hitems, Hv.
  - match goal with
    | |- context [Order.invalid ?o] =>
        destruct (newOrder_invalid its req userId
                    (if String.eqb (or_deliveryType req) "delivery"
                     then fee else num_of_Z 0)) as [paths ->]
    end.
    split; [reflexivity|now right].
Qed.

(** [createOrder] reads the products and writes none. *)
Lemma createOrder_products now st req userId newId fee :
  products (snd (createOrder now st req userId newId fee)) = products st.
Proof. now rewrite (proj1 (createOrder_refused now st req userId newId fee)). Qed.






(** Creating an order for five units and walking it to [delivered]
    takes five from a tracked product, once. *)
Example order_delivery_takes_stock_once :
  let walk st status :=
    snd (updateOrderStatus later st "o1" status "u1" None None) in
  let st1 := order_shop true "pending" in
  let st2 := walk (walk (walk (walk st1 "confirmed") "processing") "ready")
                  "out_for_delivery" in
  let st3 := walk st2 "delivered" in
  stockOf st2 "p1" = Some 10
  /\ stockOf st3 "p1" = Some 5
  /\ movementsOf st3 "p1" = [("sale", 5, 10, 5)]
  /\ walk st3 "delivered" = st3.
Proof. vm_compute. repeat split. Qed.

(** When the stock does not hold the quantity asked, the order is stored
    [delivered] all the same and the stock stays as it was. *)
Example delivery_beyond_stock_keeps_stock :
  let short :=
    with_products (order_shop true "ready")
                  {[ "p1" := Product.fresh "Widget" 100 3 true ]} in
  let out := updateOrderStatus day1 short "o1" "delivered" "u1" None None in
  fst out = {| statusCode := 500; payload := Failure "Insufficient stock" |}
  /\ Order.status <$> orders (snd out) !! "o1" = Some "delivered"
  /\ stockOf (snd out) "p1" = Some 3
  /\ movementsOf (snd out) "p1" = [].
Proof. vm_compute. repeat split. Qed.



End OrderStock.


(** ** Further properties of the inventory ledger *)

Section LedgerMore.
Import Controllers Scenario.

Lemma slice_last_length {A} (n : nat) (l : list A) :
  (length (slice_last n l) <= n)%nat.
Proof. unfold slice_last. rewrite length_drop. lia. Qed.

(** X1. Whatever the history held before, after a successful
    [updateStock] it holds at most 100 movements. *)
Theorem updateStock_history_bounded now p quantity type reference userId
        reason p' :
  Product.updateStock now p quantity type reference userId reason = Ok p' ->
  (length (Product.stockMovements p') <= 100)%nat.
Proof.
  intros H.
  destruct (updateStock_Ok_valid _ _ _ _ _ _ _ _ H) as [Hpos Htype].
  destruct (updateStock_ok now p quantity type reference userId reason
              Hpos Htype)
    as (q & Hq & _ & Hm & _).
  rewrite Hq in H. injection H as <-. rewrite Hm. apply slice_last_length.
Qed.

Lemma updateStock_history_bounded_witness :
  exists p',
    Product.updateStock 5 (Product.fresh "Widget" 100 10 true) 3 "sale" "r1"
                        "u1" None = Ok p'
    /\ (length (Product.stockMovements p') <= 100)%nat.
Proof.
  eexists. split; [reflexivity|].
  eapply (updateStock_history_bounded 5 (Product.fresh "Widget" 100 10 true)
            3 "sale" "r1" "u1" None).
  reflexivity.
Defined.

Lemma updateStock_Ok_name now p quantity type reference userId reason p' :
  Product.updateStock now p quantity type reference userId reason = Ok p' ->
  Product.name p' = Product.name p.
Proof.
  unfold Product.updateStock.
  destruct (_ && _); [discriminate|].
  match goal with
  | |- context [Product.invalidPaths ?n ?t ?i] =>
      destruct (Product.invalidPaths n t i)
  end; [|discriminate].
  intros [= <-]. reflexivity.
Qed.

(** An update that is stored never leaves the stock below zero. *)
Lemma updateStock_Ok_guard now p quantity type reference userId reason p' :
  Product.updateStock now p quantity type reference userId reason = Ok p' ->
  0 <= Product.currentStock p'.
Proof.
  intros H.
  destruct (updateStock_Ok_valid _ _ _ _ _ _ _ _ H) as [Hpos _].
  destruct (updateStock_Ok_inv _ _ _ _ _ _ _ _ H) as (Hs & _ & _).
  now rewrite Hs.
Qed.

(** X2. A sale followed by a return of the same quantity brings the stock
    back: when the stock is not negative to begin with, the return always
    succeeds, ends at the original stock, and its movement starts from the
    stock the sale left. *)
Theorem updateStock_sale_then_return now1 now2 p quantity ref1 ref2 userId
        reason1 reason2 p1 :
  0 <= Product.currentStock p ->
  Product.updateStock now1 p quantity "sale" ref1 userId reason1 = Ok p1 ->
  exists p2 m,
    Product.updateStock now2 p1 quantity "return" ref2 userId reason2 = Ok p2
    /\ Product.currentStock p1 = Product.currentStock p - quantity
    /\ Product.currentStock p2 = Product.currentStock p
    /\ last (Product.stockMovements p2) = Some m
    /\ Product.sm_type m = "return"
    /\ Product.sm_previousStock m = Product.currentStock p1
    /\ Product.sm_newStock m = Product.currentStock p.
Proof.
  intros Hnn Hsale.
  destruct (updateStock_Ok_inv _ _ _ _ _ _ _ _ Hsale) as (Hs1 & _ & _).
  cbn in Hs1.
  assert (Hpos :
    0 <= Product.proposedStock (Product.currentStock p1) quantity "return").
  { cbn. rewrite Hs1. lia. }
  destruct (updateStock_ok now2 p1 quantity "return" ref2 userId reason2
              Hpos eq_refl)
    as (p2 & Hret & Hs2 & Hm & _).
  cbn in Hs2.
  exists p2. eexists. split; [exact Hret|].
  split; [exact Hs1|]. split; [lia|].
  split; [rewrite Hm, slice_last_snoc by lia; apply last_snoc|].
  cbn. repeat split. lia.
Qed.

Lemma updateStock_sale_then_return_witness :
  exists p1 p2,
    Product.updateStock 5 (Product.fresh "Widget" 100 10 true) 3 "sale" "r1"
                        "u1" None = Ok p1
    /\ Product.updateStock 9 p1 3 "return" "r1" "u1" None = Ok p2
    /\ Product.currentStock p2 = 10.
Proof.
  eexists. 
  destruct (updateStock_sale_then_return 5 9
              (Product.fresh "Widget" 100 10 true) 3 "r1" "r1" "u1" None None
              _ ltac:(cbn; lia) eq_refl)
    as (p2 & m & Hret & _ & Hs & _).
  exists p2. split; [reflexivity|]. split; [exact Hret|exact Hs].
Defined.

(** X3. For a product without a reorder point and with a minimum stock
    that is not negative, [needsReorder] holds exactly when [stockStatus]
    is out of stock or low stock. *)
Theorem needsReorder_iff_stockStatus (p : Product.t) :
  0 <= Product.minStock p ->
  Product.reorderPoint p = None \/ Product.reorderPoint p = Some 0 ->
  Product.needsReorder p = true
  <-> (ProductViews.stockStatus p = "out_of_stock"
       \/ ProductViews.stockStatus p = "low_stock").
Proof.
  intros Hmin Hrp. unfold Product.needsReorder, ProductViews.stockStatus.
  assert (Htrig :
    match Product.reorderPoint p with
    | Some r => if r =? 0 then Product.minStock p else r
    | None => Product.minStock p
    end = Product.minStock p).
  { destruct Hrp as [-> | ->]; reflexivity. }
  rewrite Htrig.
  destruct (Z.eqb_spec (Product.currentStock p) 0) as [H0|H0].
  - rewrite H0. split; [intros _; now left|intros _; now apply Z.leb_le].
  - destruct (Z.leb_spec (Product.currentStock p) (Product.minStock p))
      as [Hle|Hgt].
    + split; [intros _; now right|reflexivity].
    + split; [discriminate|].
      destruct (Product.minStock p * 3 <? Product.currentStock p);
        intros [H|H]; discriminate H.
Qed.

Lemma needsReorder_iff_stockStatus_witness :
  Product.needsReorder (Product.fresh "Widget" 100 10 true) = true
  <-> (ProductViews.stockStatus (Product.fresh "Widget" 100 10 true)
       = "out_of_stock"
       \/ ProductViews.stockStatus (Product.fresh "Widget" 100 10 true)
          = "low_stock").
Proof.
  apply needsReorder_iff_stockStatus; [cbn; lia|now left].
Defined.

(** X4. The stock handler reports the stock before and after the
    adjustment and stores the adjusted product, when the stock it
    proposes is not negative and the movement type is a listed one;
    every other adjustment is answered with a 400 and stores nothing:
    "Insufficient stock" when the proposed stock is negative and
    backorder is off, the rejection of [save()] otherwise. *)
Theorem updateStock_handler_reports now st id quantity type reference userId
        reason product :
  products st !! id = Some product ->
  let out :=
    ProductController.updateStock now st id quantity type reference userId
                                  reason in
  let newStock :=
    Product.proposedStock (Product.currentStock product) quantity type in
  (0 <= newStock -> type ∈ Product.movementTypes ->
   fst out
   = ProductController.StockUpdated (Product.name product)
       (Product.currentStock product) newStock type quantity reason
   /\ Product.currentStock <$> products (snd out) !! id = Some newStock
   /\ forall other, other <> id ->
                    products (snd out) !! other = products st !! other)
  /\ (newStock < 0 \/ type ∉ Product.movementTypes ->
      snd out = st
      /\ exists e,
          fst out = ProductController.StockFailure 400 e
          /\ (newStock < 0 -> Product.allowBackorder product = false ->
              e = Error "Insufficient stock")
          /\ (newStock < 0 -> Product.allowBackorder product = true ->
              exists paths,
                e = ValidationError ("inventory.currentStock" :: paths))).
Proof.
  intros Hp out newStock. subst out. unfold ProductController.updateStock.
  rewrite Hp. split.
  - intros Hpos Htype. apply inEnum_elem_of in Htype.
    destruct (updateStock_ok (getTime now) product quantity type reference
                userId reason Hpos Htype) as (p' & Hok & Hs & Hm & _).
    rewrite Hok. apply updateStock_Ok_name in Hok.
    assert (Hlast :
      last (Product.stockMovements p')
      = Some (Product.movement (getTime now) (Product.currentStock product)
                newStock quantity type reference userId reason)).
    { rewrite Hm, slice_last_snoc by lia. apply last_snoc. }
    rewrite Hlast. cbn [fst snd products with_products].
    split; [|split].
    + rewrite Hok, Hs. reflexivity.
    + rewrite lookup_insert_eq. cbn. now rewrite Hs.
    + intros other Hne. now rewrite lookup_insert_ne.
  - intros Hbad.
    destruct (Product.updateStock (getTime now) product quantity type
                reference userId reason) as [p'|e] eqn:Hup.
    + exfalso.
      destruct (updateStock_Ok_valid _ _ _ _ _ _ _ _ Hup) as [Hpos Htype].
      apply inEnum_elem_of in Htype. fold newStock in Hpos.
      destruct Hbad as [Hneg|Hno]; [lia|contradiction].
    + split; [reflexivity|]. exists e. split; [reflexivity|]. split.
      * intros Hneg Hback.
        rewrite updateStock_throw in Hup; [congruence|].
        fold newStock. apply andb_true_intro.
        split; [now apply Z.ltb_lt|now rewrite Hback].
      * intros Hneg Hback.
        destruct (updateStock_backorder_invalid (getTime now) product
                    quantity type reference userId reason Hneg Hback)
          as [paths Hinv].
        exists paths. congruence.
Qed.

Lemma updateStock_handler_reports_witness :
  fst (ProductController.updateStock day1 (shop true) "p1" 4 "purchase" "po-1"
                                     "u1" None)
  = ProductController.StockUpdated "Widget" 10 14 "purchase" 4 None.
Proof.
  assert (Hp : products (shop true) !! "p1"
               = Some (Product.fresh "Widget" 100 10 true))
    by (vm_compute; reflexivity).
  destruct (updateStock_handler_reports day1 (shop true) "p1" 4 "purchase"
              "po-1" "u1" None _ Hp) as (Hok & _).
  destruct Hok as (Hreply & _);
    [cbn; lia|apply inEnum_elem_of; reflexivity|exact Hreply].
Defined.

End LedgerMore.

(** ** Stock across the handlers *)

Section StockInvariant.
Import Controllers OrderController Scenario Ledger.

Lemma stock_ok_insert ps pid now p quantity type reference userId reason p' :
  stock_ok ps ->
  Product.updateStock now p quantity type reference userId reason = Ok p' ->
  stock_ok (<[pid := p']> ps).
Proof.
  intros Hok Hup k q Hk Hb.
  destruct (String.eqb_spec pid k) as [->|Hne].
  - rewrite lookup_insert_eq in Hk. injection Hk as <-.
    eapply updateStock_Ok_guard; eauto.
  - rewrite lookup_insert_ne in Hk by assumption. eauto.
Qed.

Lemma saleStockLoop_stock_ok now receipt userId its :
  forall ps, stock_ok ps ->
             stock_ok (fst (saleStockLoop now its receipt userId ps)).
Proof.
  induction its as [|it rest IH]; intros ps Hok; [exact Hok|].
  cbn [saleStockLoop].
  destruct (ps !! Sale.product it) as [p|]; [|exact Hok].
  destruct (Product.trackInventory p); [|now apply IH].
  destruct (Product.updateStock _ _ _ _ _ _ _) as [p'|e] eqn:Hup;
    [|exact Hok].
  apply IH. eapply stock_ok_insert; eauto.
Qed.

Lemma voidLoop_stock_ok now receipt userId reason its :
  forall ps, stock_ok ps ->
             stock_ok (fst (Sale.voidLoop now its receipt userId reason ps)).
Proof.
  induction its as [|it rest IH]; intros ps Hok; [exact Hok|].
  cbn [Sale.voidLoop].
  destruct (ps !! Sale.product it) as [p|]; [|now apply IH].
  destruct (Product.updateStock _ _ _ _ _ _ _) as [p'|e] eqn:Hup;
    [|exact Hok].
  apply IH. eapply stock_ok_insert; eauto.
Qed.

Lemma refundLoop_stock_ok now sale userId reason requests :
  forall acc total ps,
    stock_ok ps ->
    stock_ok (snd (Sale.refundLoop now sale userId reason requests acc total
                                   ps)).
Proof.
  induction requests as [|rq rest IH]; intros acc total ps Hok; [exact Hok|].
  cbn [Sale.refundLoop].
  destruct (Sale.findItem sale (Sale.productId rq)) as [it|]; [|exact Hok].
  destruct (Sale.quantity it <? Sale.rq_quantity rq); [exact Hok|].
  destruct (ps !! Sale.productId rq) as [p|]; [|now apply IH].
  destruct (Product.updateStock _ _ _ _ _ _ _) as [p'|e] eqn:Hup;
    [|exact Hok].
  apply IH. eapply stock_ok_insert; eauto.
Qed.

Lemma deliverLoop_stock_ok now number userId its :
  forall ps, stock_ok ps ->
             stock_ok (fst (deliverLoop now its number userId ps)).
Proof.
  induction its as [|it rest IH]; intros ps Hok; [exact Hok|].
  cbn [deliverLoop].
  destruct (ps !! Order.product it) as [p|]; [|now apply IH].
  destruct (Product.trackInventory p); [|now apply IH].
  destruct (Product.updateStock _ _ _ _ _ _ _) as [p'|e] eqn:Hup;
    [|exact Hok].
  apply IH. eapply stock_ok_insert; eauto.
Qed.

Lemma createSale_stock_ok now st req userId newId :
  stock_ok (products st) ->
  stock_ok (products (snd (createSale now st req userId newId))).
Proof.
  intros Hok. unfold createSale.
  destruct (validateSaleItems _ _) as [e|its]; [exact Hok|].
  destruct (mpesaCheck _ _ _) as [e|]; [exact Hok|].
  destruct (Sale.invalid _) as [|path paths]; [|exact Hok].
  destruct (Sale.preSaveReceipt _ _ _ _) as [numbered cs].
  pose proof (saleStockLoop_stock_ok now
                (Sale.receiptNumber (Sale.preSaveTotals true false numbered))
                userId
                (Sale.items (Sale.preSaveTotals true false numbered))
                (products st) Hok) as Hloop.
  cbn [products with_counters with_sales].
  destruct (saleStockLoop _ _ _ _ _) as [ps [e|]]; exact Hloop.
Qed.

Lemma quickSale_stock_ok now st inputs paymentAmount userId newId :
  stock_ok (products st) ->
  stock_ok (products (snd (SaleExtra.quickSale now st inputs paymentAmount
                                               userId newId))).
Proof.
  intros Hok. unfold SaleExtra.quickSale.
  destruct (SaleExtra.quickItems _ _ _ _) as [e|[saleItems total]];
    [exact Hok|].
  destruct (Sale.invalid _) as [|path paths]; [|exact Hok].
  destruct (Sale.preSaveReceipt _ _ _ _) as [numbered cs].
  pose proof (saleStockLoop_stock_ok now
                (Sale.receiptNumber (Sale.preSaveTotals true false numbered))
                userId
                (Sale.items (Sale.preSaveTotals true false numbered))
                (products st) Hok) as Hloop.
  cbn [products with_counters with_sales].
  destruct (saleStockLoop _ _ _ _ _) as [ps [e|]]; exact Hloop.
Qed.

Lemma voidSale_stock_ok now st saleId userId reason :
  stock_ok (products st) ->
  stock_ok (products (snd (voidSale now st saleId userId reason))).
Proof.
  intros Hok. unfold voidSale.
  destruct (sales st !! saleId) as [sale|]; [|exact Hok].
  unfold Sale.void.
  pose proof (voidLoop_stock_ok now (Sale.receiptNumber sale) userId reason
                (Sale.items sale) (products st) Hok) as Hloop.
  destruct (Sale.status sale); try exact Hok;
    cbn [Sale.set_void Sale.items Sale.receiptNumber];
    destruct (Sale.voidLoop _ _ _ _ _ _) as [ps [e|]]; exact Hloop.
Qed.

Lemma refundSale_stock_ok now st saleId userId items reason :
  stock_ok (products st) ->
  stock_ok (products (snd (refundSale now st saleId userId items reason))).
Proof.
  intros Hok. unfold refundSale.
  destruct (sales st !! saleId) as [sale|]; [|exact Hok].
  unfold Sale.refund.
  pose proof (refundLoop_stock_ok now sale userId reason items []
                (num_of_Z 0) (products st) Hok) as Hloop.
  destruct (Sale.status sale); try exact Hok;
    destruct (Sale.refundLoop _ _ _ _ _ _ _ _) as [[[acc t]|e] ps];
    exact Hloop.
Qed.

Lemma updateOrderStatus_stock_ok now st orderId requested userId notes
      location :
  stock_ok (products st) ->
  stock_ok (products (snd (updateOrderStatus now st orderId requested userId
                                             notes location))).
Proof.
  intros Hok. unfold updateOrderStatus.
  destruct (orders st !! orderId) as [order|]; [|exact Hok].
  destruct (transitionsFrom _) as [targets|]; [|exact Hok].
  destruct (negb _); [exact Hok|].
  destruct (String.eqb requested "delivered"); [|exact Hok].
  set (order' := Order.updateStatus now order requested userId notes location).
  pose proof (deliverLoop_stock_ok now (Order.orderNumber order') userId
                (Order.items order') (products st) Hok) as Hloop.
  cbn [products with_orders].
  destruct (deliverLoop _ _ _ _ _) as [ps [e|]]; exact Hloop.
Qed.

Lemma updateStock_handler_stock_ok now st id quantity type reference userId
      reason :
  stock_ok (products st) ->
  stock_ok (products (snd (ProductController.updateStock now st id quantity
                             type reference userId reason))).
Proof.
  intros Hok. unfold ProductController.updateStock.
  destruct (products st !! id) as [p|]; [|exact Hok].
  destruct (Product.updateStock _ _ _ _ _ _ _) as [p'|e] eqn:Hup;
    [|exact Hok].
  destruct (last _); cbn; eapply stock_ok_insert; eauto.
Qed.

(** X5. Stock never goes negative without backorder: if no product
    without backorder is below zero, the same holds after [createSale],
    [quickSale], [voidSale], [refundSale], [updateOrderStatus],
    [createOrder] and the stock handler, whatever the request and
    whatever the outcome. *)
Theorem handlers_keep_stock_nonnegative (now : date) (st : store) :
  stock_ok (products st) ->
  (forall req userId newId,
      stock_ok (products (snd (createSale now st req userId newId))))
  /\ (forall inputs paid userId newId,
         stock_ok (products (snd (SaleExtra.quickSale now st inputs paid
                                                      userId newId))))
  /\ (forall saleId userId reason,
         stock_ok (products (snd (voidSale now st saleId userId reason))))
  /\ (forall saleId userId items reason,
         stock_ok (products (snd (refundSale now st saleId userId items
                                             reason))))
  /\ (forall orderId requested userId notes location,
         stock_ok (products (snd (updateOrderStatus now st orderId requested
                                    userId notes location))))
  /\ (forall req userId newId fee,
         stock_ok (products (snd (createOrder now st req userId newId fee))))
  /\ (forall id quantity type reference userId reason,
         stock_ok (products (snd (ProductController.updateStock now st id
                                    quantity type reference userId reason)))).
Proof.
  intros Hok. repeat split; intros.
  - now apply createSale_stock_ok.
  - now apply quickSale_stock_ok.
  - now apply voidSale_stock_ok.
  - now apply refundSale_stock_ok.
  - now apply updateOrderStatus_stock_ok.
  - now rewrite createOrder_products.
  - now apply updateStock_handler_stock_ok.
Qed.

Lemma handlers_keep_stock_nonnegative_witness :
  stock_ok (products (snd (createSale day1 (shop true) (cash_sale 3) "u1"
                                      "s1")))
  /\ stock_ok (products (snd (voidSale day1 (shop true) "s1" "u1" "none"))).
Proof.
  assert (Hok : stock_ok (products (shop true))).
  { intros pid p Hp _.
    change (products (shop true))
      with ({[ "p1" := Product.fresh "Widget" 100 10 true ]}
            : gmap string Product.t) in Hp.
    apply lookup_singleton_Some in Hp as [_ <-]. cbn. lia. }
  destruct (handlers_keep_stock_nonnegative day1 (shop true) Hok)
    as (Hsale & _ & Hvoid & _).
  split; [exact (Hsale _ _ _)|exact (Hvoid _ _ _)].
Defined.

End StockInvariant.

(** ** A sale and its void *)

Section SaleVoid.
Import Controllers Scenario Ledger.

Lemma demand_nonneg_lines pid lines :
  Forall (fun l => 0 <= snd l) lines -> 0 <= demand pid lines.
Proof.
  induction 1 as [|l rest Hq _ IH]; cbn; [lia|].
  destruct (String.eqb (fst l) pid); lia.
Qed.

(** A stock loop of [createSale] that runs to its end: every product is
    still there, tracked ones with the sale's demand taken off. *)
Lemma saleStockLoop_stock now receipt userId its :
  forall ps ps1,
    saleStockLoop now its receipt userId ps = (ps1, None) ->
    forall pid,
      (ps !! pid = None /\ ps1 !! pid = None)
      \/ exists p p1,
          ps !! pid = Some p /\ ps1 !! pid = Some p1
          /\ Product.trackInventory p1 = Product.trackInventory p
          /\ Product.allowBackorder p1 = Product.allowBackorder p
          /\ Product.currentStock p1
             = Product.currentStock p
               - (if Product.trackInventory p
                  then demand pid (sale_lines its) else 0).
Proof.
  induction its as [|it rest IH]; intros ps ps1 Hloop pid.
  - cbn in Hloop. injection Hloop as <-.
    destruct (ps !! pid) as [p|] eqn:Hp; [right|now left].
    exists p, p. repeat split; try assumption.
    cbn. destruct (Product.trackInventory p); lia.
  - cbn [saleStockLoop] in Hloop. cbn [sale_lines map demand fst snd].
    destruct (ps !! Sale.product it) as [q|] eqn:Hq; [|discriminate].
    destruct (Product.trackInventory q) eqn:Hqt.
    + destruct (Product.updateStock _ _ _ _ _ _ _) as [q'|e] eqn:Hup;
        [|discriminate].
      apply updateStock_Ok_inv in Hup as (Hs & Ht & Hb). cbn in Hs.
      specialize (IH _ _ Hloop pid).
      destruct (String.eqb_spec (Sale.product it) pid) as [Heq|Hne].
      * subst pid. rewrite lookup_insert_eq in IH.
        destruct IH as [[Hnone _]|(p & p1 & Hp & Hp1 & Ht1 & Hb1 & Hs1)];
          [discriminate|].
        injection Hp as <-. right. exists q, p1.
        repeat split; try congruence.
        rewrite Hs1, Ht, Hqt, Hs. fold (sale_lines rest). lia.
      * rewrite lookup_insert_ne in IH by assumption. exact IH.
    + specialize (IH _ _ Hloop pid).
      destruct (String.eqb_spec (Sale.product it) pid) as [Heq|Hne];
        [|exact IH].
      subst pid. rewrite Hq in *.
      destruct IH as [[Hnone _]|(p & p1 & Hp & Hp1 & Ht1 & Hb1 & Hs1)];
        [discriminate|].
      injection Hp as <-. right. exists q, p1.
      repeat split; try assumption.
      rewrite Hs1, Hqt. reflexivity.
Qed.

(** A stock loop that runs to its end leaves no product below zero that
    was not below zero before. *)
Lemma saleStockLoop_keeps_nonneg now receipt userId its :
  forall ps ps1,
    saleStockLoop now its receipt userId ps = (ps1, None) ->
    forall pid p,
      ps !! pid = Some p -> 0 <= Product.currentStock p ->
      exists p1, ps1 !! pid = Some p1 /\ 0 <= Product.currentStock p1.
Proof.
  induction its as [|it rest IH]; intros ps ps1 Hloop pid p Hp Hnn.
  - cbn in Hloop. injection Hloop as <-. eauto.
  - cbn [saleStockLoop] in Hloop.
    destruct (ps !! Sale.product it) as [q|] eqn:Hq; [|discriminate].
    destruct (Product.trackInventory q); [|eapply IH; eauto].
    destruct (Product.updateStock _ _ _ _ _ _ _) as [q'|e] eqn:Hup;
      [|discriminate].
    destruct (String.eqb_spec (Sale.product it) pid) as [Heq|Hne].
    + subst pid. eapply (IH _ _ Hloop); [apply lookup_insert_eq|].
      eapply updateStock_Ok_guard, Hup.
    + eapply (IH _ _ Hloop); [|exact Hnn].
      now rewrite lookup_insert_ne.
Qed.

(** After a stock loop that ran to its end, no tracked product that an
    item names is below zero: the last update of it was stored. *)
Lemma saleStockLoop_named_nonneg now receipt userId its :
  forall ps ps1,
    saleStockLoop now its receipt userId ps = (ps1, None) ->
    (forall pid p, In pid (map fst (sale_lines its)) -> ps !! pid = Some p ->
                   Product.trackInventory p = true) ->
    forall pid p1,
      In pid (map fst (sale_lines its)) -> ps1 !! pid = Some p1 ->
      0 <= Product.currentStock p1.
Proof.
  induction its as [|it rest IH]; intros ps ps1 Hloop Htrack pid p1 Hin Hp1;
    [contradiction|].
  cbn [saleStockLoop] in Hloop. cbn [sale_lines map fst] in Hin, Htrack.
  fold (sale_lines rest) in Hin, Htrack.
  destruct (ps !! Sale.product it) as [q|] eqn:Hq; [|discriminate].
  rewrite (Htrack _ _ (or_introl eq_refl) Hq) in Hloop.
  destruct (Product.updateStock _ _ _ _ _ _ _) as [q'|e] eqn:Hup;
    [|discriminate].
  pose proof (updateStock_Ok_guard _ _ _ _ _ _ _ _ Hup) as Hq'.
  apply updateStock_Ok_inv in Hup as (_ & Ht & _).
  destruct (in_dec String.string_dec pid (map fst (sale_lines rest)))
    as [Hrest|Hnot].
  - eapply (IH _ _ Hloop); [|exact Hrest|exact Hp1].
    intros k p Hk Hp.
    destruct (String.eqb_spec (Sale.product it) k) as [Heq|Hne].
    + subst k. rewrite lookup_insert_eq in Hp. injection Hp as <-.
      rewrite Ht. eapply (Htrack (Sale.product it)); [left; reflexivity|exact Hq].
    + rewrite lookup_insert_ne in Hp by assumption.
      eapply (Htrack k); [right; exact Hk|exact Hp].
  - destruct Hin as [Heq|Hin]; [|contradiction]. cbn in Heq. subst pid.
    destruct (saleStockLoop_keeps_nonneg _ _ _ _ _ _ Hloop (Sale.product it)
                q' (lookup_insert_eq _ _ _) Hq') as (p1' & Hp1' & Hnn).
    congruence.
Qed.

(** The restore loop of [void] when no product an item names is below
    zero: it runs to its end and gives every product the sale's demand
    back. *)
Lemma voidLoop_stock now receipt userId reason its :
  forall ps,
    (forall pid p, In pid (map fst (sale_lines its)) -> ps !! pid = Some p ->
                   0 <= Product.currentStock p) ->
    Forall (fun l => 0 <= snd l) (sale_lines its) ->
    snd (Sale.voidLoop now its receipt userId reason ps) = None
    /\ forall pid,
        (ps !! pid = None
         /\ fst (Sale.voidLoop now its receipt userId reason ps) !! pid = None)
        \/ exists p p2,
            ps !! pid = Some p
            /\ fst (Sale.voidLoop now its receipt userId reason ps) !! pid
               = Some p2
            /\ Product.currentStock p2
               = Product.currentStock p + demand pid (sale_lines its).
Proof.
  induction its as [|it rest IH]; intros ps Hnn Hq.
  - split; [reflexivity|]. intros pid. cbn.
    destruct (ps !! pid) as [p|] eqn:Hp; [right|now left].
    exists p, p. repeat split; try assumption. lia.
  - cbn [sale_lines map] in Hq. inversion Hq as [|? ? Hq0 Hqrest]; subst.
    cbn in Hq0. fold (sale_lines rest) in Hqrest.
    cbn [sale_lines map fst] in Hnn. fold (sale_lines rest) in Hnn.
    cbn [Sale.voidLoop sale_lines map demand fst snd].
    fold (sale_lines rest).
    destruct (ps !! Sale.product it) as [q|] eqn:Hlook.
    + pose proof (Hnn _ _ (or_introl eq_refl) Hlook) as Hq1.
      assert (Hpos :
        0 <= Product.proposedStock (Product.currentStock q)
                                   (Sale.quantity it) "return").
      { cbn. lia. }
      destruct (updateStock_ok (getTime now) q (Sale.quantity it) "return"
                  receipt userId
                  (Some (String.append "Voided sale: " reason)) Hpos eq_refl)
        as (q' & Hup & Hs & _).
      rewrite Hup. cbn in Hs.
      destruct (IH (<[Sale.product it := q']> ps)) as [Hdone Hall];
        [|assumption|].
      { intros k p Hk Hp.
        destruct (String.eqb_spec (Sale.product it) k) as [Heq|Hne].
        - subst k. rewrite lookup_insert_eq in Hp. injection Hp as <-. lia.
        - rewrite lookup_insert_ne in Hp by assumption.
          eapply (Hnn k); [right; exact Hk|exact Hp]. }
      split; [exact Hdone|]. intros pid. specialize (Hall pid).
      destruct (String.eqb_spec (Sale.product it) pid) as [Heq|Hne].
      * subst pid. rewrite lookup_insert_eq in Hall.
        destruct Hall as [[Hnone _]|(p & p2 & Hp & Hp2 & Hs2)];
          [discriminate|].
        injection Hp as <-. right. exists q, p2.
        repeat split; try assumption. lia.
      * rewrite lookup_insert_ne in Hall by assumption. exact Hall.
    + destruct (IH ps) as [Hdone Hall]; [|assumption|].
      { intros k p Hk Hp. eapply (Hnn k); [right; exact Hk|exact Hp]. }
      split; [exact Hdone|]. intros pid. specialize (Hall pid).
      destruct (String.eqb_spec (Sale.product it) pid) as [Heq|Hne];
        [|exact Hall].
      subst pid. left. destruct Hall as [Hnone|(p & p2 & Hp & _)];
        [exact Hnone|congruence].
Qed.

Lemma demand_not_in pid lines :
  ~ In pid (map fst lines) -> demand pid lines = 0.
Proof.
  induction lines as [|l rest IH]; [reflexivity|].
  cbn. intros Hnot.
  destruct (String.eqb_spec (fst l) pid) as [Heq|Hne]; [tauto|].
  apply IH. tauto.
Qed.

(** X6. Void restores exactly what the sale took, for tracked products:
    when the stock loop of a sale ran to its end and the products its
    items name all track inventory, voiding those items afterwards
    succeeds and leaves every product with the stock it had before the
    sale. *)
Theorem sale_then_void_restores_stock now later receipt userId reason its
        (ps ps1 : gmap string Product.t) :
  stock_ok ps ->
  Forall (fun l => 0 <= snd l) (sale_lines its) ->
  (forall pid p, In pid (map fst (sale_lines its)) -> ps !! pid = Some p ->
                 Product.trackInventory p = true) ->
  saleStockLoop now its receipt userId ps = (ps1, None) ->
  exists ps2,
    Sale.voidLoop later its receipt userId reason ps1 = (ps2, None)
    /\ same_stock ps2 ps.
Proof.
  intros Hok Hq Htrack Hsale.
  pose proof (saleStockLoop_named_nonneg _ _ _ _ _ _ Hsale Htrack) as Hnn1.
  destruct (voidLoop_stock later receipt userId reason its ps1 Hnn1 Hq)
    as [Hdone Hall].
  exists (fst (Sale.voidLoop later its receipt userId reason ps1)).
  split.
  - destruct (Sale.voidLoop _ _ _ _ _ _) as [ps2 e]. cbn in *. now subst e.
  - intros pid. specialize (Hall pid).
    destruct (saleStockLoop_stock _ _ _ _ _ _ Hsale pid)
      as [[Hn Hn1]|(p & p1 & Hp & Hp1 & _ & _ & Hs1)].
    + destruct Hall as [[_ Hn2]|(q & q2 & Hq1 & _)]; [|congruence].
      now rewrite Hn, Hn2.
    + destruct Hall as [[Hn1 _]|(q & q2 & Hq1 & Hq2 & Hs2)]; [congruence|].
      assert (q = p1) by congruence. subst q.
      rewrite Hp, Hq2. cbn. f_equal.
      rewrite Hs2, Hs1.
      destruct (in_dec String.string_dec pid (map fst (sale_lines its)))
        as [Hin|Hnot].
      * rewrite (Htrack _ _ Hin Hp). lia.
      * rewrite (demand_not_in _ _ Hnot).
        destruct (Product.trackInventory p); lia.
Qed.

Lemma sale_then_void_restores_stock_witness :
  exists ps1 ps2,
    saleStockLoop day1 (Sale.items sold_sale) "RCP24030500000" "u1"
                  (products (shop true)) = (ps1, None)
    /\ Sale.voidLoop later (Sale.items sold_sale) "RCP24030500000" "u1"
                     "mistake" ps1 = (ps2, None)
    /\ same_stock ps2 (products (shop true)).
Proof.
  eexists.
  assert (Hok : stock_ok (products (shop true))).
  { intros pid p Hp _.
    change (products (shop true))
      with ({[ "p1" := Product.fresh "Widget" 100 10 true ]}
            : gmap string Product.t) in Hp.
    apply lookup_singleton_Some in Hp as [_ <-]. cbn. lia. }
  assert (Hq : Forall (fun l => 0 <= snd l) (sale_lines (Sale.items sold_sale))).
  { repeat constructor. cbn. lia. }
  assert (Htrack :
    forall pid p, In pid (map fst (sale_lines (Sale.items sold_sale))) ->
                  products (shop true) !! pid = Some p ->
                  Product.trackInventory p = true).
  { intros pid p _ Hp.
    change (products (shop true))
      with ({[ "p1" := Product.fresh "Widget" 100 10 true ]}
            : gmap string Product.t) in Hp.
    apply lookup_singleton_Some in Hp as [_ <-]. reflexivity. }
  destruct (sale_then_void_restores_stock day1 later "RCP24030500000" "u1"
              "mistake" (Sale.items sold_sale) (products (shop true)) _
              Hok Hq Htrack ltac:(vm_compute; reflexivity))
    as (ps2 & Hvoid & Hsame).
  exists ps2. split; [vm_compute; reflexivity|]. split; assumption.
Defined.

End SaleVoid.

(** ** What a completed sale has done *)

Section SaleEffect.
Import Controllers Scenario Ledger.

Lemma validateSaleItems_lines ps inputs :
  forall its,
    validateSaleItems ps inputs = inr its ->
    sale_lines its = request_lines inputs.
Proof.
  induction inputs as [|i rest IH]; intros its; cbn.
  - now intros [= <-].
  - destruct (ps !! Sale.in_product i) as [p|]; [|discriminate].
    destruct (negb (Product.isActive p)); [discriminate|].
    destruct (insufficient p (Sale.in_quantity i)); [discriminate|].
    destruct (validateSaleItems ps rest) as [e|its']; [discriminate|].
    intros [= <-]. cbn. f_equal. now apply IH.
Qed.

Lemma sale_lines_computeItem its :
  sale_lines (map Sale.computeItem its) = sale_lines its.
Proof. unfold sale_lines. rewrite map_map. reflexivity. Qed.

(** An error of the item checks is a 404 or a 400. *)
Lemma validateSaleItems_error ps inputs e :
  validateSaleItems ps inputs = inl e ->
  statusCode e = 404 \/ statusCode e = 400.
Proof.
  revert e. induction inputs as [|i rest IH]; intros e; cbn;
    [discriminate|].
  destruct (ps !! Sale.in_product i) as [p|]; [|intros [= <-]; now left].
  destruct (negb (Product.isActive p)); [intros [= <-]; now right|].
  destruct (insufficient p (Sale.in_quantity i)); [intros [= <-]; now right|].
  destruct (validateSaleItems ps rest) as [e'|its']; [|discriminate].
  intros [= <-]. now apply IH.
Qed.

Lemma mpesaCheck_error st method details e :
  mpesaCheck st method details = Some e ->
  statusCode e = 400 \/ statusCode e = 500.
Proof.
  unfold mpesaCheck.
  destruct (String.eqb _ _); [|discriminate].
  destruct (firstTransactionId _); [|discriminate].
  destruct (findSuccessful _ _); intros [= <-]; [now right|now left].
Qed.

Lemma uncaught_status e :
  statusCode (uncaught e) = 400 \/ statusCode (uncaught e) = 500.
Proof. destruct e; [now right|now left]. Qed.

(** X7. A [createSale] answered 201 has stored a completed sale under the
    new id whose lines are the requested ones, has taken from every
    tracked product exactly what the lines ask of it, and has left the
    stock of untracked products alone. A request answered 404 has stored
    nothing. Any other request has either stored nothing, or has saved
    the sale and then failed in the stock loop: it is answered 400 or
    500 and the sale stays stored. *)
Theorem createSale_effect now st req userId newId res st1 :
  createSale now st req userId newId = (res, st1) ->
  (statusCode res = 201 ->
   (exists sale,
       sales st1 !! newId = Some sale
       /\ Sale.status sale = Sale.completed
       /\ Sale.receiptNumber sale <> ""
       /\ sale_lines (Sale.items sale) = request_lines (sr_items req))
   /\ forall pid,
       (products st !! pid = None /\ products st1 !! pid = None)
       \/ exists p p1,
           products st !! pid = Some p /\ products st1 !! pid = Some p1
           /\ Product.currentStock p1
              = Product.currentStock p
                - (if Product.trackInventory p
                   then demand pid (request_lines (sr_items req)) else 0))
  /\ (statusCode res = 404 -> st1 = st)
  /\ (statusCode res <> 201 ->
      st1 = st
      \/ ((statusCode res = 400 \/ statusCode res = 500)
          /\ exists sale,
              sales st1 !! newId = Some sale
              /\ Sale.status sale = Sale.completed
              /\ sale_lines (Sale.items sale)
                 = request_lines (sr_items req))).
Proof.
  unfold createSale.
  destruct (validateSaleItems _ _) as [e|its] eqn:Hval.
  { intros [= <- <-]. split; [|split; [reflexivity|now left]].
    intros H201. destruct (validateSaleItems_error _ _ _ Hval); congruence. }
  destruct (mpesaCheck _ _ _) as [e|] eqn:Hm.
  { intros [= <- <-]. split; [|split; [reflexivity|now left]].
    intros H201. destruct (mpesaCheck_error _ _ _ _ Hm); congruence. }
  destruct (Sale.invalid _) as [|path paths] eqn:Hinv.
  2: { intros [= <- <-]. split; [discriminate|]. split; [reflexivity|now left]. }
  unfold Sale.preSaveReceipt. cbn [andb Sale.receiptNumber String.eqb newSale].
  destruct (Counter.getNextSequence _ _ _ _) as [sequence cs].
  set (sale := Sale.preSaveTotals true false _).
  cbn [products with_counters with_sales].
  assert (Hlines : sale_lines (Sale.items sale) = request_lines (sr_items req)).
  { subst sale. cbn. rewrite sale_lines_computeItem.
    now apply (validateSaleItems_lines (products st)). }
  destruct (saleStockLoop _ _ _ _ _) as [ps [e|]] eqn:Hloop.
  { intros [= <- <-].
    destruct (uncaught_status e) as [Hs|Hs].
    - split; [congruence|]. split; [congruence|].
      intros _. right. split; [now left|].
      exists sale. cbn [sales with_products with_counters with_sales].
      split; [apply lookup_insert_eq|]. now split.
    - split; [congruence|]. split; [congruence|].
      intros _. right. split; [now right|].
      exists sale. cbn [sales with_products with_counters with_sales].
      split; [apply lookup_insert_eq|]. now split. }
  intros [= <- <-].
  split; [|split; [discriminate|intros H; now contradiction H]].
  intros _. split.
  - exists sale. cbn [sales with_products with_counters with_sales].
    split; [apply lookup_insert_eq|]. split; [reflexivity|].
    split; [subst sale; cbn; discriminate|exact Hlines].
  - intros pid. cbn [products with_products].
    destruct (saleStockLoop_stock _ _ _ _ _ _ Hloop pid)
      as [Hn|(p & p1 & Hp & Hp1 & _ & _ & Hs)]; [now left|right].
    exists p, p1. repeat split; try assumption.
    rewrite Hs. now rewrite Hlines.
Qed.

Lemma createSale_effect_witness :
  exists p1,
    products (snd (createSale day1 (shop true) (cash_sale 3) "u1" "s1"))
      !! "p1" = Some p1
    /\ Product.currentStock p1 = 7.
Proof.
  destruct (createSale_effect day1 (shop true) (cash_sale 3) "u1" "s1" _ _
              (surjective_pairing _)) as (Hdone & _).
  destruct Hdone as (_ & Hstock); [vm_compute; reflexivity|].
  destruct (Hstock "p1") as [[Hnone _]|(p & p1 & Hp & Hp1 & Hs)].
  - vm_compute in Hnone. discriminate.
  - exists p1. split; [exact Hp1|]. rewrite Hs.
    vm_compute in Hp. injection Hp as <-. reflexivity.
Defined.

(** A sale of 11 from a stock of 10 that allows backorder passes the
    availability check and is saved; the stock update is then rejected
    by [save()], the request is answered 400, and the sale stays stored
    over an unchanged stock. A request without the subtotal the schema
    requires is answered 400 before anything is stored. *)
Example createSale_backorder_sale_stored :
  (let '(res, st1) :=
     createSale day1 backorder_shop (cash_sale 11) "u1" "s1" in
   res = {| statusCode := 400; payload := Invalid ["inventory.currentStock"] |}
   /\ Sale.status <$> sales st1 !! "s1" = Some Sale.completed
   /\ stockOf st1 "p1" = Some 10
   /\ movementsOf st1 "p1" = [])
  /\ createSale day1 (shop true) bare_sale "u1" "s1"
     = ({| statusCode := 400;
           payload := Invalid ["items.0.subtotal"; "payment.totalPaid"] |},
        shop true).
Proof. vm_compute. repeat split. Qed.

End SaleEffect.

(** ** Further properties of the sequence service *)

Section SequenceMore.
Import Scenario.

Lemma advance_never now counter :
  Counter.resetPeriod counter = Counter.never ->
  Counter.seq (Counter.advance now counter) = Counter.seq counter + 1
  /\ Counter.resetPeriod (Counter.advance now counter) = Counter.never.
Proof.
  intros Hp. unfold Counter.advance, Counter.shouldReset. rewrite Hp.
  split; reflexivity.
Qed.

(** X8. A counter that never resets hands out consecutive numbers: the
    calls of any run return [seq + 1], [seq + 2], ... in order, without
    gap or repetition. *)
Theorem calls_without_reset_are_consecutive (times : list date) :
  forall (counters : gmap string Counter.t) (counterId : string)
         (counter : Counter.t),
    counters !! counterId = Some counter ->
    Counter.resetPeriod counter = Counter.never ->
    fst (Counter.calls times counters counterId)
    = imap (fun i _ => Counter.seq counter + Z.of_nat i + 1) times.
Proof.
  induction times as [|now rest IH]; intros counters counterId counter Hc Hp;
    [reflexivity|].
  cbn [Counter.calls].
  destruct (getNextSequence_existing now counters counterId Counter.no_options
              counter Hc) as [Hcall _].
  rewrite Hcall.
  destruct (advance_never now counter Hp) as [Hseq Hnever].
  specialize (IH (<[counterId := Counter.advance now counter]> counters)
                 counterId (Counter.advance now counter)
                 (lookup_insert_eq _ _ _) Hnever).
  destruct (Counter.calls rest _ counterId) as [ns counters''].
  cbn [fst] in *. rewrite IH. cbn [imap]. f_equal; [lia|].
  apply imap_ext. intros i t _. cbn. lia.
Qed.

Lemma calls_without_reset_are_consecutive_witness :
  fst (Counter.calls [day1; later; later]
         {[ "receipt" :=
              {| Counter.seq := 41; Counter.prefix := "";
                 Counter.suffix := ""; Counter.lastReset := day1;
                 Counter.resetPeriod := Counter.never |} ]} "receipt")
  = [42; 43; 44].
Proof.
  apply (calls_without_reset_are_consecutive [day1; later; later]
           _ "receipt"
           {| Counter.seq := 41; Counter.prefix := ""; Counter.suffix := "";
              Counter.lastReset := day1;
              Counter.resetPeriod := Counter.never |}).
  - apply lookup_singleton_eq.
  - reflexivity.
Defined.

(** After a call at time [now] no reset is due at [now], whatever the
    reset period. *)
Lemma shouldReset_after_advance now counter :
  Counter.shouldReset now (Counter.advance now counter) = false.
Proof.
  unfold Counter.advance.
  destruct (Counter.shouldReset now counter) eqn:Hr.
  - unfold Counter.shouldReset, sameDateString. cbn.
    rewrite !Z.eqb_refl. now destruct (Counter.resetPeriod counter).
  - unfold Counter.shouldReset in *. cbn. exact Hr.
Qed.

(** X9. A reset is taken once: two calls at the same instant on an
    existing counter return a number and its successor, for every reset
    period, also when the first of them reset the counter to 1. *)
Theorem getNextSequence_twice_same_instant now counters counterId o1 o2
        counter :
  counters !! counterId = Some counter ->
  let '(n1, counters1) := Counter.getNextSequence now counters counterId o1 in
  let '(n2, _) := Counter.getNextSequence now counters1 counterId o2 in
  n2 = n1 + 1
  /\ (Counter.shouldReset now counter = true -> n1 = 1 /\ n2 = 2).
Proof.
  intros Hc.
  destruct (getNextSequence_existing now counters counterId o1 counter Hc)
    as [-> Hseq1].
  destruct (getNextSequence_existing now
              (<[counterId := Counter.advance now counter]> counters)
              counterId o2 (Counter.advance now counter)
              (lookup_insert_eq _ _ _)) as [-> Hseq2].
  rewrite shouldReset_after_advance in Hseq2.
  split; [exact Hseq2|].
  intros Hr. rewrite Hr in Hseq1. rewrite Hseq2, Hseq1. now split.
Qed.

Lemma getNextSequence_twice_same_instant_witness :
  let daily_counter :=
    {| Counter.seq := 41; Counter.prefix := ""; Counter.suffix := "";
       Counter.lastReset :=
         {| getFullYear := 2024; getMonth := 2; getDate := 4;
            getTime := 1709553600000 |};
       Counter.resetPeriod := Counter.daily |} in
  let '(n1, counters1) :=
    Counter.getNextSequence day1 {[ "receipt" := daily_counter ]} "receipt"
                            Counter.no_options in
  let '(n2, _) :=
    Counter.getNextSequence day1 counters1 "receipt" Counter.no_options in
  n1 = 1 /\ n2 = 2.
Proof.
  intros daily_counter.
  pose proof (getNextSequence_twice_same_instant day1
                {[ "receipt" := daily_counter ]} "receipt"
                Counter.no_options Counter.no_options daily_counter
                (lookup_singleton_eq _ _)) as H.
  destruct (Counter.getNextSequence day1 _ "receipt" Counter.no_options)
    as [n1 counters1].
  destruct (Counter.getNextSequence day1 counters1 "receipt"
                                    Counter.no_options) as [n2 counters2].
  destruct H as [_ H]. apply H. reflexivity.
Defined.

End SequenceMore.

(** ** Void is final *)

Section VoidFinal.
Import Controllers Scenario.

Lemma void_Ok_status now s userId reason ps s' ps' :
  Sale.void now s userId reason ps = (Ok s', ps') ->
  Sale.status s' = Sale.voided
  /\ Sale.voidInfo s'
     = Some {| Sale.voidedBy := userId; Sale.voidedAt := now;
               Sale.void_reason := reason |}
  /\ Sale.items s' = Sale.items s.
Proof.
  unfold Sale.void.
  destruct (Sale.status s); try discriminate;
    destruct (Sale.voidLoop _ _ _ _ _ _) as [ps1 [e|]]; try discriminate;
    intros [= <- <-]; repeat split.
Qed.

(** X10. Nothing leaves [voided]: once [void] has succeeded on a sale, a
    further [void] and any [refund] of the saved sale throw and leave the
    products untouched. *)
Theorem void_is_final now s userId reason ps s' ps' :
  Sale.void now s userId reason ps = (Ok s', ps') ->
  forall now2 userId2 reason2 requests (ps2 : gmap string Product.t),
    Sale.void now2 s' userId2 reason2 ps2
    = (Throw "Sale is already voided", ps2)
    /\ Sale.refund now2 s' userId2 requests reason2 ps2
       = (Throw "Cannot refund a voided sale", ps2).
Proof.
  intros Hvoid now2 userId2 reason2 requests ps2.
  apply void_Ok_status in Hvoid as (Hst & _).
  unfold Sale.void, Sale.refund. rewrite Hst. split; reflexivity.
Qed.

Lemma void_is_final_witness :
  exists s' ps',
    Sale.void day1 sold_sale "u1" "mistake" (products sold_shop) = (Ok s', ps')
    /\ Sale.void later s' "u1" "again" ps'
       = (Throw "Sale is already voided", ps')
    /\ Sale.refund later s' "u1" [refund_line 1] "again" ps'
       = (Throw "Cannot refund a voided sale", ps').
Proof.
  eexists. eexists. split; [vm_compute; reflexivity|].
  eapply (void_is_final day1 sold_sale "u1" "mistake" (products sold_shop)).
  vm_compute. reflexivity.
Defined.

End VoidFinal.

(** ** Further properties of payment reconciliation *)

Section ReconciliationMore.
Import Controllers Scenario MpesaExtra.

Lemma unique_key_eq (txs : list Mpesa.t) a b :
  unique_keys txs -> In a txs -> In b txs ->
  Mpesa.checkoutRequestId a = Mpesa.checkoutRequestId b -> a = b.
Proof.
  unfold unique_keys. induction txs as [|y txs IH]; [intros _ []|].
  cbn. intros Hnd Ha Hb Hkey. inversion Hnd as [|? ? Hnot Hnd']; subst.
  destruct Ha as [->|Ha], Hb as [->|Hb]; try reflexivity.
  - exfalso. apply Hnot. rewrite Hkey. now apply in_map.
  - exfalso. apply Hnot. rewrite <- Hkey. now apply in_map.
  - now apply IH.
Qed.

(** Saving a changed copy of the found record leaves alone every field
    the change did not touch, in every record. *)
Lemma save_preserves {B} (f : Mpesa.t -> B) txs id x x' :
  unique_keys txs ->
  Mpesa.findByCheckout txs id = Some x ->
  Mpesa.checkoutRequestId x' = Mpesa.checkoutRequestId x ->
  f x' = f x ->
  map f (Mpesa.save txs x') = map f txs.
Proof.
  intros Hu Hfind Hkey Hf. unfold Mpesa.save. rewrite map_map.
  apply map_ext_in. intros y Hy.
  destruct (String.eqb_spec (Mpesa.checkoutRequestId y)
                            (Mpesa.checkoutRequestId x')) as [Heq|_];
    [|reflexivity].
  rewrite Hf. f_equal. apply (unique_key_eq txs); try assumption.
  - unfold Mpesa.findByCheckout in Hfind. now apply find_some in Hfind as [? _].
  - congruence.
Qed.

Lemma applyCallback_identity newDate x body cb x' :
  Mpesa.applyCallback newDate x body cb = Ok x' ->
  identity x' = identity x
  /\ Mpesa.retryCount x' = Mpesa.retryCount x
  /\ Mpesa.lastQueryAt x' = Mpesa.lastQueryAt x.
Proof.
  unfold Mpesa.applyCallback.
  destruct (Mpesa.ResultCode cb) as [|z|s]; cbn; [discriminate| |].
  - destruct z as [|z|z].
    + destruct (Mpesa.CallbackMetadata cb) as [[its|]|].
      * destruct (Mpesa.findItem "TransactionDate" its) as [d|].
        -- destruct (Mpesa.valToString (Mpesa.Value d)) as [dateStr|];
             [|discriminate].
           destruct (newDate (Mpesa.parseDate dateStr)); [|discriminate].
           intros [= <-]. repeat split.
        -- intros [= <-]. repeat split.
      * intros [= <-]. repeat split.
      * intros [= <-]. repeat split.
    + intros [= <-]. repeat split.
    + intros [= <-]. repeat split.
  - intros [= <-]. repeat split.
Qed.

(** X11. Neither reconciliation path rewrites what identifies a payment:
    under the unique index on the checkout request id, a poll and a
    callback leave the ids, phone, amount, user and sale link of every
    transaction as they were and touch nothing but the transaction
    collection; the poll never writes a receipt number, and the callback
    never writes the retry count or the time of the last query. *)
Theorem reconciliation_keeps_identity newDate now st id queryResult req :
  unique_keys (transactions st) ->
  let polled := snd (checkMpesaPaymentStatus now st id queryResult) in
  let called := snd (mpesaCallback newDate st req) in
  map identity (transactions polled) = map identity (transactions st)
  /\ map Mpesa.mpesaReceiptNumber (transactions polled)
     = map Mpesa.mpesaReceiptNumber (transactions st)
  /\ polled = with_transactions st (transactions polled)
  /\ map identity (transactions called) = map identity (transactions st)
  /\ map (fun x => (Mpesa.retryCount x, Mpesa.lastQueryAt x))
         (transactions called)
     = map (fun x => (Mpesa.retryCount x, Mpesa.lastQueryAt x))
           (transactions st)
  /\ called = with_transactions st (transactions called).
Proof.
  intros Hu polled called.
  assert (Hst : forall s : store, s = with_transactions s (transactions s))
    by (now intros []).
  assert (Hpoll :
    map identity (transactions polled) = map identity (transactions st)
    /\ map Mpesa.mpesaReceiptNumber (transactions polled)
       = map Mpesa.mpesaReceiptNumber (transactions st)
    /\ polled = with_transactions st (transactions polled)).
  { subst polled. unfold checkMpesaPaymentStatus.
    destruct (Mpesa.findByCheckout _ _) as [x|] eqn:Hfind; [|now auto].
    assert (Hlive :
      forall s : store,
        (let r :=
           if match Mpesa.lastQueryAt x with
              | Some lastQuery => getTime now - getTime lastQuery <? 5000
              | None => false
              end
           then (json (PaymentStatus (Mpesa.status x)
                         (Mpesa.mpesaReceiptNumber x) None), st)
           else
             match queryResult with
             | Some (code, desc) =>
                 (json (PaymentStatus
                          (Mpesa.status (Mpesa.applyQuery now x code desc))
                          (Mpesa.mpesaReceiptNumber
                             (Mpesa.applyQuery now x code desc))
                          (Mpesa.resultDesc
                             (Mpesa.applyQuery now x code desc))),
                  with_transactions st
                    (Mpesa.save (transactions st)
                                (Mpesa.applyQuery now x code desc)))
             | None =>
                 (json (PaymentStatus (Mpesa.status x)
                          (Mpesa.mpesaReceiptNumber x) (Mpesa.resultDesc x)),
                  st)
             end in
         map identity (transactions (snd r)) = map identity (transactions st)
         /\ map Mpesa.mpesaReceiptNumber (transactions (snd r))
            = map Mpesa.mpesaReceiptNumber (transactions st)
         /\ snd r = with_transactions st (transactions (snd r)))).
    { intros _. cbv zeta.
      destruct (match Mpesa.lastQueryAt x with
                | Some _ => _ | None => _ end); [now auto|].
      destruct queryResult as [[code desc]|]; [|now auto].
      cbn [snd transactions with_transactions].
      repeat split;
        now apply (save_preserves _ _ id x). }
    specialize (Hlive st). cbv zeta in Hlive.
    destruct (Mpesa.status x); cbn [snd]; auto. }
  assert (Hcall :
    map identity (transactions called) = map identity (transactions st)
    /\ map (fun x => (Mpesa.retryCount x, Mpesa.lastQueryAt x))
           (transactions called)
       = map (fun x => (Mpesa.retryCount x, Mpesa.lastQueryAt x))
             (transactions st)
    /\ called = with_transactions st (transactions called)).
  { subst called. unfold mpesaCallback.
    destruct (Mpesa.Body req) as [[cb|]|]; [|now auto|now auto].
    destruct (Mpesa.findByCheckout _ _) as [x|] eqn:Hfind; [|now auto].
    destruct (Mpesa.applyCallback newDate x req cb) as [x'|e] eqn:Happly;
      [|now auto].
    destruct (applyCallback_identity _ _ _ _ _ Happly) as (Hid & Hr & Hl).
    assert (Hkey : Mpesa.checkoutRequestId x' = Mpesa.checkoutRequestId x).
    { unfold identity in Hid. congruence. }
    cbn [snd transactions with_transactions].
    repeat split.
    - now apply (save_preserves _ _ (Mpesa.CheckoutRequestID cb) x).
    - apply (save_preserves _ _ (Mpesa.CheckoutRequestID cb) x);
        try assumption. congruence. }
  tauto.
Qed.

Lemma reconciliation_keeps_identity_witness :
  map Mpesa.mpesaReceiptNumber
      (transactions
         (snd (checkMpesaPaymentStatus day1 (paid_shop Mpesa.pending)
                 "ws_CO_1" (Some ("0", "ok")))))
  = [Some "ABC123"]
  /\ map Mpesa.retryCount
         (transactions (snd (mpesaCallback newDate (paid_shop Mpesa.pending)
                                           (callback 0))))
     = [0].
Proof.
  assert (Hu : unique_keys (transactions (paid_shop Mpesa.pending))).
  { repeat constructor. cbn. tauto. }
  destruct (reconciliation_keeps_identity newDate day1
              (paid_shop Mpesa.pending)
              "ws_CO_1" (Some ("0", "ok")) (callback 0) Hu)
    as (_ & Hreceipt & _ & _ & Hretry & _).
  split; [exact Hreceipt|].
  apply (f_equal (map fst)) in Hretry. rewrite !map_map in Hretry.
  exact Hretry.
Defined.

(** X12. The poll path queries upstream at most once per five seconds and
    counts what it applies: within 5000 ms of the last query, or without
    an upstream answer, a poll stores nothing; an upstream answer applied
    to a pending or cancelled record raises its retry count by exactly
    one, stamps the query time and keeps the receipt number. *)
Theorem poll_rate_limit_and_count now st id queryResult x :
  Mpesa.findByCheckout (transactions st) id = Some x ->
  let polled := snd (checkMpesaPaymentStatus now st id queryResult) in
  (forall t, Mpesa.lastQueryAt x = Some t ->
             getTime now - getTime t < 5000 -> polled = st)
  /\ (queryResult = None -> polled = st)
  /\ (forall code desc,
         queryResult = Some (code, desc) ->
         Mpesa.status x = Mpesa.pending \/ Mpesa.status x = Mpesa.cancelled ->
         (Mpesa.lastQueryAt x = None
          \/ exists t, Mpesa.lastQueryAt x = Some t
                       /\ 5000 <= getTime now - getTime t) ->
         exists x',
           Mpesa.findByCheckout (transactions polled) id = Some x'
           /\ Mpesa.retryCount x' = Mpesa.retryCount x + 1
           /\ Mpesa.lastQueryAt x' = Some now
           /\ Mpesa.mpesaReceiptNumber x' = Mpesa.mpesaReceiptNumber x).
Proof.
  intros Hfind polled. subst polled. unfold checkMpesaPaymentStatus.
  rewrite Hfind. split; [|split].
  - intros t Ht Hwin. rewrite Ht.
    apply Z.ltb_lt in Hwin. rewrite Hwin.
    now destruct (Mpesa.status x).
  - intros ->.
    destruct (Mpesa.status x); try reflexivity;
      now destruct (match Mpesa.lastQueryAt x with
                    | Some _ => _ | None => _ end).
  - intros code desc -> Hst Hout.
    assert (Hlim :
      match Mpesa.lastQueryAt x with
      | Some lastQuery => getTime now - getTime lastQuery <? 5000
      | None => false
      end = false).
    { destruct Hout as [-> | (t & -> & Hge)]; [reflexivity|].
      now apply Z.ltb_ge. }
    rewrite Hlim.
    exists (Mpesa.applyQuery now x code desc).
    assert (Hkey : Mpesa.checkoutRequestId (Mpesa.applyQuery now x code desc)
                   = id) by (cbn; eapply findByCheckout_key; eauto).
    destruct Hst as [-> | ->]; cbn [snd transactions with_transactions];
      (split; [now apply (findByCheckout_save _ _ x)|repeat split]).
Qed.

Lemma poll_rate_limit_and_count_witness :
  snd (checkMpesaPaymentStatus day1 (paid_shop Mpesa.pending) "ws_CO_1" None)
  = paid_shop Mpesa.pending
  /\ exists x',
      Mpesa.findByCheckout
        (transactions
           (snd (checkMpesaPaymentStatus day1 (paid_shop Mpesa.pending)
                   "ws_CO_1" (Some ("0", "ok"))))) "ws_CO_1" = Some x'
      /\ Mpesa.retryCount x' = 1.
Proof.
  split.
  - destruct (poll_rate_limit_and_count day1 (paid_shop Mpesa.pending)
                "ws_CO_1" None (tx Mpesa.pending) eq_refl) as (_ & H & _).
    now apply H.
  - destruct (poll_rate_limit_and_count day1 (paid_shop Mpesa.pending)
                "ws_CO_1" (Some ("0", "ok")) (tx Mpesa.pending) eq_refl)
      as (_ & _ & H).
    destruct (H "0" "ok" eq_refl (or_introl eq_refl) (or_introl eq_refl))
      as (x' & Hx' & Hr & _).
    exists x'. split; [exact Hx'|exact Hr].
Defined.

End ReconciliationMore.

(** ** Callback metadata, initiation and phone numbers *)

Section CallbackMetadata.
Import Controllers Scenario MpesaExtra.





Lemma findByCheckout_app_new txs id x :
  Mpesa.findByCheckout txs id = None ->
  Mpesa.checkoutRequestId x = id ->
  Mpesa.findByCheckout (txs ++ [x]) id = Some x.
Proof.
  unfold Mpesa.findByCheckout. intros Hnone Hid.
  induction txs as [|y txs IH]; cbn in *.
  - now rewrite Hid, String.eqb_refl.
  - destruct (String.eqb (Mpesa.checkoutRequestId y) id); [discriminate|].
    now apply IH.
Qed.

(** X14. An initiation answered with the request ids has stored one new
    pending transaction, kept the unique index, and is found by the next
    status poll, which reports it as pending when upstream has no answer
    yet. *)
Theorem initiate_then_poll st phone amount userId stk checkout merchant st1
        now :
  unique_keys (transactions st) ->
  initiateMpesaPayment st phone amount userId stk
  = (InitiateSent checkout merchant, st1) ->
  (exists x,
      transactions st1 = transactions st ++ [x]
      /\ Mpesa.findByCheckout (transactions st1) checkout = Some x
      /\ Mpesa.status x = Mpesa.pending
      /\ Mpesa.retryCount x = 0
      /\ Mpesa.mpesaReceiptNumber x = None
      /\ Mpesa.sale x = None)
  /\ unique_keys (transactions st1)
  /\ checkMpesaPaymentStatus now st1 checkout None
     = (json (PaymentStatus Mpesa.pending None None), st1).
Proof.
  intros Hu. unfold initiateMpesaPayment.
  destruct (present phone) as [ph|]; [|discriminate].
  destruct amount as [amt|]; [|discriminate].
  destruct (Qeq_bool amt 0); [discriminate|].
  destruct (negb (Qle_bool 1 amt)); [discriminate|].
  destruct (negb (phoneRegex ph)); [discriminate|].
  destruct stk as [e|c m]; [discriminate|].
  destruct (present c) as [cid|]; [|discriminate].
  destruct (present m) as [mid|]; [|discriminate].
  destruct (Mpesa.findByCheckout (transactions st) cid) eqn:Hnone;
    [discriminate|].
  intros [= <- <- <-]. cbn [transactions with_transactions].
  set (x := {| Mpesa.checkoutRequestId := cid |}).
  assert (Hfound : Mpesa.findByCheckout (transactions st ++ [x]) cid = Some x)
    by now apply findByCheckout_app_new.
  split; [|split].
  - exists x. repeat split. exact Hfound.
  - unfold unique_keys in *. rewrite map_app. cbn.
    apply NoDup_ListNoDup, NoDup_app. repeat split.
    + now apply NoDup_ListNoDup.
    + intros k Hk Hk'. apply list_elem_of_singleton in Hk'. subst k.
      apply list_elem_of_In, in_map_iff in Hk as (y & Hy & Hin).
      unfold Mpesa.findByCheckout in Hnone.
      eapply find_none in Hnone; [|exact Hin]. cbn in Hnone.
      rewrite Hy, String.eqb_refl in Hnone. discriminate.
    + apply NoDup_singleton.
  - unfold checkMpesaPaymentStatus.
    cbn [transactions with_transactions]. rewrite Hfound. reflexivity.
Qed.

Lemma initiate_then_poll_witness :
  exists st1,
    initiateMpesaPayment empty_store (Some "0712345678") (Some 300%Q) "u1"
                         (StkSent (Some "ws_CO_9") (Some "m9"))
    = (InitiateSent "ws_CO_9" "m9", st1)
    /\ checkMpesaPaymentStatus day1 st1 "ws_CO_9" None
       = (json (PaymentStatus Mpesa.pending None None), st1).
Proof.
  eexists. split; [vm_compute; reflexivity|].
  eapply (initiate_then_poll empty_store (Some "0712345678") (Some 300%Q)
            "u1" (StkSent (Some "ws_CO_9") (Some "m9")) "ws_CO_9" "m9").
  - constructor.
  - vm_compute. reflexivity.
Defined.

End CallbackMetadata.

Section PhoneNumbers.
Import MpesaExtra.

Lemma prefix_split p : forall s,
  String.prefix p s = true -> exists r, s = String.append p r.
Proof.
  induction p as [|a p IH]; intros s.
  - intros _. now exists s.
  - destruct s as [|b s]; cbn; [discriminate|].
    destruct (Ascii.ascii_dec a b) as [->|]; [|discriminate].
    intros H. destruct (IH _ H) as [r ->]. now exists r.
Qed.

Lemma stripPrefix_split p : forall s r,
  stripPrefix p s = Some r -> s = String.append p r.
Proof.
  induction p as [|a p IH]; intros s r; cbn.
  - now intros [= ->].
  - destruct s as [|b s]; [discriminate|].
    destruct (Ascii.eqb_spec a b) as [->|]; [|discriminate].
    intros H. now rewrite (IH _ _ H).
Qed.

Lemma subscriber_length s : subscriber s = true -> String.length s = 9%nat.
Proof.
  destruct s as [|c rest]; [discriminate|]. cbn.
  rewrite !andb_true_iff. intros [[_ Hlen] _].
  apply Nat.eqb_eq in Hlen. now rewrite Hlen.
Qed.

(** X15. Phone numbers reach the gateway in one form: whatever
    [formatPhoneNumber] returns starts with 254 and is left unchanged by
    a second formatting, and every phone the initiation handler's pattern
    accepts is formatted without error into twelve characters that the
    pattern accepts again. *)
Theorem formatPhoneNumber_canonical :
  (forall phone q,
      formatPhoneNumber phone = Ok q ->
      String.prefix "254" q = true /\ formatPhoneNumber q = Ok q)
  /\ (forall phone,
         phoneRegex phone = true ->
         exists q,
           formatPhoneNumber phone = Ok q
           /\ String.length q = 12%nat
           /\ phoneRegex q = true).
Proof.
  split.
  - intros phone q. unfold formatPhoneNumber at 1.
    destruct (String.prefix "0" phone) eqn:H0.
    { intros [= <-]. destruct (slice1 phone); split; reflexivity. }
    destruct (String.prefix "+254" phone) eqn:Hplus.
    { destruct (prefix_split _ _ Hplus) as [r ->].
      intros [= <-]. destruct r; split; reflexivity. }
    destruct (String.prefix "254" phone) eqn:H254; [|discriminate].
    destruct (prefix_split _ _ H254) as [r ->].
    intros [= <-]. destruct r; split; reflexivity.
  - intros phone. unfold phoneRegex.
    destruct (stripPrefix "254" phone) as [rest|] eqn:H254.
    + apply stripPrefix_split in H254. subst phone. intros Hsub.
      exists (String.append "254" rest).
      split; [now destruct rest|].
      split; [|exact Hsub].
      change (String.length (String.append "254" rest))
        with (S (S (S (String.length rest)))).
      now rewrite (subscriber_length _ Hsub).
    + destruct (stripPrefix "0" phone) as [rest|] eqn:H0; [|discriminate].
      apply stripPrefix_split in H0. subst phone. intros Hsub.
      exists (String.append "254" rest).
      split; [now destruct rest|].
      split; [|exact Hsub].
      change (String.length (String.append "254" rest))
        with (S (S (S (String.length rest)))).
      now rewrite (subscriber_length _ Hsub).
Qed.

End PhoneNumbers.

(** ** Side doors of the order workflow *)

Section OrderSideDoors.
Import Controllers OrderController OrderExtra Scenario.

(** X16. [cancelOrder] cancels an order from every status but delivered
    and cancelled: it stores the status with the cancellation stamp,
    appends one history entry, and touches neither products nor other
    orders. That includes [out_for_delivery], from which
    [updateOrderStatus] refuses a cancellation. *)
Theorem cancelOrder_from_any_open_status now st orderId userId order :
  orders st !! orderId = Some order ->
  let out := cancelOrder now st orderId userId in
  (Order.status order = "delivered" \/ Order.status order = "cancelled" ->
   out = (appError "Cannot cancel this order" 400, st))
  /\ (Order.status order <> "delivered" ->
      Order.status order <> "cancelled" ->
      exists order' e,
        orders (snd out) !! orderId = Some order'
        /\ Order.status order' = "cancelled"
        /\ Order.statusHistory order' = Order.statusHistory order ++ [e]
        /\ Order.h_status e = "cancelled"
        /\ Order.cancelledBy order' = Some userId
        /\ Order.cancelledAt order' = Some now
        /\ Order.items order' = Order.items order
        /\ products (snd out) = products st
        /\ forall other, other <> orderId ->
                         orders (snd out) !! other = orders st !! other)
  /\ permitted "out_for_delivery" "cancelled" = false.
Proof.
  intros Horder out. subst out. unfold cancelOrder. rewrite Horder.
  split; [|split; [|reflexivity]].
  - intros [-> | ->]; reflexivity.
  - intros Hd Hc.
    destruct (String.eqb_spec (Order.status order) "delivered");
      [contradiction|].
    destruct (String.eqb_spec (Order.status order) "cancelled");
      [contradiction|].
    cbn [orb snd orders with_orders products].
    eexists. eexists. rewrite lookup_insert_eq.
    split; [reflexivity|].
    destruct (Order.customer order) eqn:Hcust; cbn; rewrite Hcust; cbn;
      (repeat split; intros other Hne; now rewrite lookup_insert_ne).
Qed.

Lemma cancelOrder_from_any_open_status_witness :
  exists order',
    orders (snd (cancelOrder day1 (order_shop true "out_for_delivery") "o1"
                             "u1")) !! "o1" = Some order'
    /\ Order.status order' = "cancelled"
    /\ length (Order.statusHistory order') = 1%nat.
Proof.
  assert (Horder :
    orders (order_shop true "out_for_delivery") !! "o1"
    = Some (Order.set_status ready_order "out_for_delivery" []))
    by (vm_compute; reflexivity).
  destruct (cancelOrder_from_any_open_status day1
              (order_shop true "out_for_delivery") "o1" "u1" _ Horder)
    as (_ & Hok & _).
  destruct Hok as (order' & e & Hfound & Hs & Hh & _);
    [cbn; discriminate|cbn; discriminate|].
  exists order'. split; [exact Hfound|]. split; [exact Hs|].
  rewrite Hh. reflexivity.
Defined.

(** X17. [assignOrder] is the transition ready to out for delivery and
    nothing else: on a ready order it stores the assignee and the new
    status, a move the status table permits, and appends two history
    entries signed by the assignee; on any other status it answers 400
    and stores nothing. Products are never touched. *)
Theorem assignOrder_only_from_ready now st orderId userId order :
  orders st !! orderId = Some order ->
  let out := assignOrder now st orderId userId in
  (Order.status order <> "ready" ->
   out = (appError "Order must be ready before assigning for delivery" 400,
          st))
  /\ (Order.status order = "ready" ->
      exists order' e1 e2,
        orders (snd out) !! orderId = Some order'
        /\ Order.status order' = "out_for_delivery"
        /\ permitted (Order.status order) (Order.status order') = true
        /\ Order.assignedTo order' = Some userId
        /\ Order.statusHistory order'
           = Order.statusHistory order ++ [e1; e2]
        /\ Order.h_status e1 = "out_for_delivery"
        /\ Order.h_updatedBy e1 = userId
        /\ Order.h_status e2 = "out_for_delivery"
        /\ Order.h_updatedBy e2 = userId)
  /\ products (snd out) = products st.
Proof.
  intros Horder out. subst out. unfold assignOrder. rewrite Horder.
  split; [|split].
  - intros Hne.
    destruct (String.eqb_spec (Order.status order) "ready");
      [contradiction|reflexivity].
  - intros Hready. rewrite Hready.
    change (negb (String.eqb "ready" "ready")) with false.
    cbn [snd orders with_orders].
    rewrite lookup_insert_eq.
    eexists. eexists. eexists. split; [reflexivity|].
    unfold assignToDeliveryPerson. rewrite Hready. cbn.
    repeat split; [now rewrite <- app_assoc|reflexivity..].
  - destruct (negb _); reflexivity.
Qed.

Lemma assignOrder_only_from_ready_witness :
  exists order',
    orders (snd (assignOrder day1 (order_shop true "ready") "o1" "rider"))
      !! "o1" = Some order'
    /\ Order.status order' = "out_for_delivery"
    /\ Order.assignedTo order' = Some "rider".
Proof.
  assert (Horder :
    orders (order_shop true "ready") !! "o1"
    = Some (Order.set_status ready_order "ready" []))
    by (vm_compute; reflexivity).
  destruct (assignOrder_only_from_ready day1 (order_shop true "ready") "o1"
              "rider" _ Horder) as (_ & Hok & _).
  destruct (Hok eq_refl) as (order' & e1 & e2 & Hfound & Hs & _ & Ha & _).
  exists order'. split; [exact Hfound|]. split; [exact Hs|exact Ha].
Defined.

End OrderSideDoors.

(** ** Customer loyalty tiers *)

Section CustomerFacts.
Import Customer Scenario.

Ltac case_thresholds :=
  repeat match goal with
         | |- context [Qle_bool ?a ?b] =>
             let E := fresh "E" in
             destruct (Qle_bool a b) eqn:E;
             [apply Qle_bool_iff in E
             |assert (~ (a <= b)%Q)
                by (let H := fresh in
                    intros H; apply Qle_bool_iff in H; congruence);
              clear E]
         | |- context [Z.leb ?a ?b] => destruct (Z.leb_spec a b)
         end.

Lemma updateLoyaltyTier_tier c :
  tier (updateLoyaltyTier c) = tierFor (totalSpent c) (totalOrders c)
  /\ totalSpent (updateLoyaltyTier c) = totalSpent c
  /\ totalOrders (updateLoyaltyTier c) = totalOrders c
  /\ points (updateLoyaltyTier c) = points c.
Proof.
  unfold updateLoyaltyTier.
  destruct (String.eqb_spec (tierFor (totalSpent c) (totalOrders c)) (tier c))
    as [Heq|Hne]; cbn; auto.
Qed.

(** X19. The loyalty tier is monotone in the totals: a customer who has
    spent at least as much in at least as many orders is never in a
    lower tier. *)
Theorem tierFor_monotone (spent spent' : Q) (orders orders' : Z) :
  (spent <= spent')%Q -> orders <= orders' ->
  rank (tierFor spent orders) <= rank (tierFor spent' orders').
Proof.
  intros Hs Ho. unfold tierFor.
  case_thresholds; cbn; try (vm_compute; discriminate);
    try lia; exfalso; lra.
Qed.

Lemma tierFor_monotone_witness :
  rank (tierFor 60000 12) <= rank (tierFor 200000 30).
Proof.
  apply tierFor_monotone; [|lia].
  unfold Qle. cbn. lia.
Defined.

(** X20. After a tier update the next-tier requirement is consistent
    with the tier: there is none exactly for platinum, and otherwise it
    names the tier one rank up and still asks for more spending or more
    orders. *)
Theorem nextTierRequirement_after_update (c : Customer.t) :
  let c' := updateLoyaltyTier c in
  match nextTierRequirement c' with
  | None => tier c' = "platinum"
  | Some (nextTier, spentNeeded, ordersNeeded) =>
      rank nextTier = rank (tier c') + 1
      /\ ((0 < spentNeeded)%Q \/ 0 < ordersNeeded)
  end.
Proof.
  intros c'. subst c'.
  destruct (updateLoyaltyTier_tier c) as (Ht & Hs & Ho & _).
  unfold nextTierRequirement. rewrite Ht, Hs, Ho. unfold tierFor, max0.
  case_thresholds; cbn; try reflexivity;
    (split; [reflexivity|]);
    try (right; lia);
    case_thresholds; try (left; lra); exfalso; lra.
Qed.

End CustomerFacts.

(** ** Pagination *)

Section Pagination.
Import Helpers.

Lemma ceilDiv_bounds total limit n :
  1 <= limit -> ceilDiv total limit = Some n ->
  (n - 1) * limit < total <= n * limit.
Proof.
  intros Hl. unfold ceilDiv.
  destruct (limit =? 0) eqn:E; [lia|]. intros [= <-].
  set (q := (inject_Z total / inject_Z limit)%Q).
  assert (Hq : (q * inject_Z limit == inject_Z total)%Q).
  { unfold q. field. unfold Qeq. cbn. lia. }
  assert (Hpos : (0 < inject_Z limit)%Q) by (unfold Qlt; cbn; lia).
  pose proof (Qle_ceiling q) as Hup.
  pose proof (Qceiling_lt q) as Hlo.
  split.
  - apply (Qmult_lt_compat_r _ _ _ Hpos) in Hlo.
    rewrite Hq, <- inject_Z_mult in Hlo. now rewrite Zlt_Qlt.
  - apply (Qmult_le_compat_r _ _ (inject_Z limit)) in Hup;
      [|now apply Qlt_le_weak].
    rewrite Hq, <- inject_Z_mult in Hup. now rewrite Zle_Qle.
Qed.

Lemma slice_page {A} (array : list A) page limit :
  1 <= page -> 1 <= limit ->
  slice array ((page - 1) * limit) (page * limit)
  = take (Z.to_nat limit) (drop (Z.to_nat ((page - 1) * limit)) array).
Proof.
  intros Hp Hl. unfold slice, relativeIndex.
  set (len := Z.of_nat (length array)).
  assert (0 <= (page - 1) * limit) by nia.
  assert ((page - 1) * limit + limit = page * limit) by lia.
  destruct ((page - 1) * limit <? 0) eqn:E1; [lia|].
  destruct (page * limit <? 0) eqn:E2; [lia|].
  destruct (Z.le_gt_cases len ((page - 1) * limit)) as [Hge|Hlt].
  - rewrite !drop_ge by lia. now rewrite !take_nil.
  - rewrite (Z.min_l ((page - 1) * limit) len) by lia.
    destruct (Z.le_gt_cases (page * limit) len) as [Hin|Hout].
    + rewrite Z.min_l by lia. f_equal. lia.
    + rewrite Z.min_r by lia.
      rewrite !take_ge; [reflexivity| |]; rewrite length_drop; lia.
Qed.

Lemma pages_take {A} (array : list A) limit n :
  1 <= limit ->
  pages array limit n = take (n * Z.to_nat limit) array.
Proof.
  intros Hl. unfold pages. induction n as [|n IH].
  - reflexivity.
  - rewrite seq_S, map_app, concat_app, IH. cbn [map concat Nat.add].
    rewrite app_nil_r. unfold paginate at 1. cbn [data].
    rewrite slice_page by lia.
    replace (Z.to_nat ((Z.of_nat n + 1 - 1) * limit))
      with (n * Z.to_nat limit)%nat by nia.
    rewrite take_take_drop. f_equal. lia.
Qed.

(** X23. Pages partition the array: for a limit of at least one,
    [totalPages] is a number n, the pages 1 to n laid end to end are the
    array itself, no page is longer than the limit, [hasNext] holds
    exactly on the pages before n, [hasPrev] exactly after page 1, and a
    page is empty exactly when it lies beyond n. *)
Theorem paginate_pages_partition {A} (array : list A) (limit : Z) :
  1 <= limit ->
  exists n,
    totalPages (info (paginate array 1 limit)) = Some (Z.of_nat n)
    /\ pages array limit n = array
    /\ forall page, 1 <= page ->
         let r := paginate array page limit in
         (Z.of_nat (length (data r)) <= limit)
         /\ (hasNext (info r) = true <-> page < Z.of_nat n)
         /\ (hasPrev (info r) = true <-> 1 < page)
         /\ (data r = [] <-> Z.of_nat n < page).
Proof.
  intros Hl.
  destruct (ceilDiv (Z.of_nat (length array)) limit) as [m|] eqn:Hm;
    [|unfold ceilDiv in Hm; destruct (limit =? 0) eqn:E; [lia|discriminate]].
  pose proof (ceilDiv_bounds _ _ _ Hl Hm) as [Hlo Hup].
  assert (Hm0 : 0 <= m) by nia.
  exists (Z.to_nat m). rewrite Z2Nat.id by assumption.
  split; [exact Hm|]. split.
  - rewrite pages_take by assumption. apply take_ge. nia.
  - intros page Hp r. subst r. unfold paginate. cbn [data info hasNext hasPrev].
    rewrite slice_page by assumption.
    split; [rewrite length_take; lia|].
    split; [rewrite Z.ltb_lt; nia|].
    split; [rewrite Z.ltb_lt; nia|].
    split.
    + intros Hnil. apply (f_equal length) in Hnil.
      rewrite length_take, length_drop in Hnil. cbn in Hnil.
      destruct (Z.le_gt_cases page m) as [Hle|]; [|assumption]. exfalso. nia.
    + intros Hgt. rewrite drop_ge; [apply take_nil|]. nia.
Qed.

Lemma paginate_pages_partition_witness :
  exists n,
    totalPages (info (paginate ["a"; "b"; "c"; "d"; "e"] 1 2))
    = Some (Z.of_nat n)
    /\ pages ["a"; "b"; "c"; "d"; "e"] 2 n = ["a"; "b"; "c"; "d"; "e"].
Proof.
  destruct (paginate_pages_partition ["a"; "b"; "c"; "d"; "e"] 2
              ltac:(lia)) as (n & Hn & Hp & _).
  exists n. split; assumption.
Defined.

End Pagination.

(** ** The gateway token cache *)

Section TokenCache.
Import MpesaService.

(** X24. The gateway token is fetched once per life time: after a fetch
    that returned a non-empty token, every call before the stored expiry
    (one minute short of the token's life time) returns that token and
    leaves the cache alone, whatever the endpoint would answer; from the
    expiry on the endpoint is asked again, a failure throws and keeps the
    cache, and a new token replaces the old one with a new expiry. *)
Theorem getAccessToken_reuses_until_expiry
        (t0 : Z) (s : t) (tok : string) (expires_in : Z) :
  cached t0 s = None ->
  tok <> "" ->
  t0 + expires_in * 1000 - 60000 <> 0 ->
  let expiry := t0 + expires_in * 1000 - 60000 in
  let s1 := snd (getAccessToken t0 s (OauthOk tok expires_in)) in
  fst (getAccessToken t0 s (OauthOk tok expires_in)) = Ok tok
  /\ (forall now upstream, now < expiry ->
        getAccessToken now s1 upstream = (Ok tok, s1))
  /\ (forall now, expiry <= now ->
        getAccessToken now s1 OauthFailed
        = (Throw "Failed to get M-Pesa access token", s1))
  /\ (forall now tok' e', expiry <= now ->
        fst (getAccessToken now s1 (OauthOk tok' e')) = Ok tok'
        /\ tokenExpiry (snd (getAccessToken now s1 (OauthOk tok' e')))
           = Some (now + e' * 1000 - 60000)).
Proof.
  intros Hc Htok Hexp expiry s1.
  assert (Hs1 : getAccessToken t0 s (OauthOk tok expires_in)
                = (Ok tok, {| accessToken := Some tok;
                              tokenExpiry := Some expiry |})).
  { unfold getAccessToken. now rewrite Hc. }
  subst s1. rewrite Hs1. cbn [fst snd].
  assert (Heq : String.eqb tok "" = false) by now apply String.eqb_neq.
  assert (Hz : (expiry =? 0) = false) by (apply Z.eqb_neq; exact Hexp).
  split; [reflexivity|].
  split; [|split].
  - intros now upstream Hlt. unfold getAccessToken, cached.
    cbn [accessToken tokenExpiry]. fold expiry. rewrite Heq, Hz.
    assert (Hn : (now <? expiry) = true) by now apply Z.ltb_lt.
    rewrite Hn. reflexivity.
  - intros now Hge. unfold getAccessToken, cached.
    cbn [accessToken tokenExpiry]. fold expiry. rewrite Heq, Hz.
    assert (Hn : (now <? expiry) = false) by now apply Z.ltb_ge.
    rewrite Hn. reflexivity.
  - intros now tok' e' Hge. unfold getAccessToken, cached.
    cbn [accessToken tokenExpiry]. fold expiry. rewrite Heq, Hz.
    assert (Hn : (now <? expiry) = false) by now apply Z.ltb_ge.
    rewrite Hn. split; reflexivity.
Qed.

Lemma getAccessToken_reuses_until_expiry_witness :
  let s1 := snd (getAccessToken 1000 initial (OauthOk "tok-1" 3599)) in
  getAccessToken 3500000 s1 OauthFailed = (Ok "tok-1", s1)
  /\ getAccessToken 3540000 s1 OauthFailed
     = (Throw "Failed to get M-Pesa access token", s1).
Proof.
  intros s1.
  destruct (getAccessToken_reuses_until_expiry 1000 initial "tok-1" 3599
              eq_refl ltac:(discriminate) ltac:(lia))
    as (_ & Hin & Hout & _).
  split; [apply Hin; lia|apply Hout; lia].
Defined.

End TokenCache.
